(** * Introspect backend API: a shallow embedding of the request handlers

    The development follows the layout of the repository:
    - [shared/schema.ts]  : the five tables, the insert schemas derived from
      them and the request schemas ([Module Schema]);
    - [server/storage.ts] : [DatabaseStorage], the queries each handler runs
      ([Section Server], first part);
    - [server/auth.ts]    : password hashing, session tokens, [authMiddleware]
      and [requireRole];
    - [server/notifications.ts] : the SMS and e-mail senders;
    - [server/routes.ts]  : the request handlers.

    JavaScript objects (request bodies, rows, token payloads) are finite maps
    from property names to values; a property that is [undefined] is absent
    from the map.  The external libraries (bcrypt, jsonwebtoken, the e-mail
    test of zod, the clock and time zone of the host) are parameters of
    [Section Server]. *)

From stdpp Require Import gmap strings list pretty sorting.
From Stdlib Require Import ZArith Lia.

Local Open Scope Z_scope.

(** ** JavaScript values *)

(** The values that occur in request bodies and rows.  Numbers are the
    integers and [NaN]; a [Date] is its time value in milliseconds since the epoch;
    [JOther] stands for arrays and nested objects, which the handlers only
    pass along. *)
Inductive JsVal :=
| JNull
| JBool (b : bool)
| JNum (n : Z)
| JNaN
| JStr (s : string)
| JDate (t : Z)
| JOther (repr : string).

#[global] Instance JsVal_eq_dec : EqDecision JsVal.
Proof. solve_decision. Defined.

(** An object; [o !! k = None] is [o.k === undefined]. *)
Abbreviation Obj := (gmap string JsVal).

(** [!!v] of JavaScript: [undefined], [null], [false], [0] and the empty
    string are falsy. *)
Definition truthy (v : option JsVal) : bool :=
  match v with
  | None => false
  | Some JNull => false
  | Some (JBool b) => b
  | Some (JNum n) => negb (n =? 0)
  | Some JNaN => false
  | Some (JStr s) => negb (String.eqb s "")
  | Some (JDate _) => true
  | Some (JOther _) => true
  end.

(** [a || b] where [b] is defined. *)
Definition js_or (a : option JsVal) (b : JsVal) : JsVal :=
  match a with
  | Some v => if truthy a then v else b
  | None => b
  end.

(** [o.k] where SQL or JSON wants a value: [undefined] is sent as NULL. *)
Definition prop (o : Obj) (k : string) : JsVal :=
  match o !! k with
  | Some v => v
  | None => JNull
  end.

Definition prop_of (v : option JsVal) : JsVal :=
  match v with
  | Some x => x
  | None => JNull
  end.

(** [{ ...o, k: v }] where [v] may be [undefined]. *)
Definition set_prop (k : string) (v : option JsVal) (o : Obj) : Obj :=
  match v with
  | Some x => <[k := x]> o
  | None => delete k o
  end.

(** ** Results of computations that may throw *)

Inductive Exn :=
| ZodError (path : string)
| PgError (constraint : string)
| SyntaxError
| RangeError
| S3Error.

Inductive Result (A : Type) :=
| Ok (a : A)
| Throw (e : Exn).
Arguments Ok {A} a.
Arguments Throw {A} e.

#[global] Instance Result_ret : MRet Result := fun A a => Ok a.
#[global] Instance Result_bind : MBind Result := fun A B k r =>
  match r with
  | Ok a => k a
  | Throw e => Throw e
  end.

(** ** zod object schemas *)

Module Zod.

Inductive Kind :=
| ZString (min : nat)        (* z.string().min(n) *)
| ZEmail                     (* z.string().email() *)
| ZEnum (vals : list string) (* z.enum([...]) *)
| ZNumber
| ZBoolean
| ZTimestamp                 (* the field generated for a timestamp column *)
| ZJson.

Record Field := mkField
  { kind : Kind; optional : bool; nullable : bool }.

Definition Schema := list (string * Field).

#[global] Instance Kind_eq_dec : EqDecision Kind.
Proof. solve_decision. Defined.

#[global] Instance Field_eq_dec : EqDecision Field.
Proof. solve_decision. Defined.

(** [schema.omit({k: true, ...})] *)
Definition omit (ks : list string) (s : Schema) : Schema :=
  filter (fun kf => kf.1 ∉ ks) s.

(** [schema.extend({...})]: the extension overrides fields of the same
    name. *)
Definition extend (ext : Schema) (s : Schema) : Schema :=
  filter (fun kf => kf.1 ∉ ext.*1) s ++ ext.

Section Parse.
(** zod's e-mail test and the validation of a timestamp field (which
    returns the value handed on) belong to the libraries. *)
Variable is_email : string -> bool.
Variable timestamp_in : JsVal -> option JsVal.

Definition check (k : Kind) (v : JsVal) : option JsVal :=
  match k, v with
  | ZString min, JStr s =>
      if bool_decide (min ≤ String.length s)%nat then Some v else None
  | ZEmail, JStr s => if is_email s then Some v else None
  | ZEnum vals, JStr s => if bool_decide (s ∈ vals) then Some v else None
  | ZNumber, JNum _ => Some v
  | ZBoolean, JBool _ => Some v
  | ZTimestamp, _ => timestamp_in v
  | ZJson, _ => Some v
  | _, _ => None
  end.

(** The outer [None] is a validation failure; [Some None] an optional
    field that is absent. *)
Definition parse_field (f : Field) (v : option JsVal)
  : option (option JsVal) :=
  match v with
  | None => if optional f then Some None else None
  | Some JNull => if nullable f then Some (Some JNull) else None
  | Some x => Some <$> check (kind f) x
  end.

(** [schema.parse(o)]: every field of the schema is validated and copied;
    properties the schema does not name are dropped. *)
Fixpoint parse (s : Schema) (o : Obj) : Result Obj :=
  match s with
  | [] => Ok ∅
  | (k, f) :: s' =>
      match parse_field f (o !! k) with
      | None => Throw (ZodError k)
      | Some None => parse s' o
      | Some (Some v) => r ← parse s' o; Ok (<[k := v]> r)
      end
  end.
End Parse.

End Zod.

(** ** The relational store (drizzle-orm over PostgreSQL) *)

Module Pg.

Inductive TableId :=
| Users | Patients | Diagnostics | Notifications | PasswordResetTokens.

#[global] Instance TableId_eq_dec : EqDecision TableId.
Proof. solve_decision. Defined.

Inductive ColType :=
| PgText | PgVarchar | PgInteger | PgBoolean | PgTimestamp | PgJsonb.

Inductive ColDefault :=
| NoDefault
| DefaultLit (v : JsVal)   (* .default(v) *)
| DefaultUuid              (* .default(sql`gen_random_uuid()`) *)
| DefaultNow.              (* .defaultNow() *)

(** A column of [pgTable]; [name] is the property name the TypeScript code
    uses for it. *)
Record Column := mkColumn
  { name : string;
    type : ColType;
    notNull : bool;
    default : ColDefault;
    unique : bool;
    primaryKey : bool;
    references : option (TableId * string) }.

#[global] Instance ColType_eq_dec : EqDecision ColType.
Proof. solve_decision. Defined.

#[global] Instance ColDefault_eq_dec : EqDecision ColDefault.
Proof. solve_decision. Defined.

#[global] Instance Column_eq_dec : EqDecision Column.
Proof. solve_decision. Defined.

Definition col (n : string) (t : ColType) : Column :=
  mkColumn n t false NoDefault false false None.
Definition with_notNull (c : Column) : Column :=
  mkColumn (name c) (type c) true (default c) (unique c) (primaryKey c)
           (references c).
Definition with_default (d : ColDefault) (c : Column) : Column :=
  mkColumn (name c) (type c) (notNull c) d (unique c) (primaryKey c)
           (references c).
Definition with_unique (c : Column) : Column :=
  mkColumn (name c) (type c) (notNull c) (default c) true (primaryKey c)
           (references c).
Definition with_primaryKey (c : Column) : Column :=
  mkColumn (name c) (type c) true (default c) true true (references c).
Definition with_references (t : TableId) (k : string) (c : Column) : Column :=
  mkColumn (name c) (type c) (notNull c) (default c) (unique c)
           (primaryKey c) (Some (t, k)).

(** The range of a PostgreSQL [integer]. *)
Definition INT4_MIN : Z := -2147483648.
Definition INT4_MAX : Z := 2147483647.

Definition has_default (c : Column) : bool :=
  match default c with NoDefault => false | _ => true end.

(** [createInsertSchema(table)] of drizzle-zod: one field per column, of the
    kind of the column's type; nullable when the column is, optional when
    the column is nullable or has a default. *)
Definition insert_field (c : Column) : Zod.Field :=
  Zod.mkField
    match type c with
    | PgText | PgVarchar => Zod.ZString 0
    | PgInteger => Zod.ZNumber
    | PgBoolean => Zod.ZBoolean
    | PgTimestamp => Zod.ZTimestamp
    | PgJsonb => Zod.ZJson
    end
    (negb (notNull c) || has_default c)
    (negb (notNull c)).

Definition createInsertSchema (cols : list Column) : Zod.Schema :=
  (fun c => (name c, insert_field c)) <$> cols.

End Pg.

(** ** shared/schema.ts *)

Module Schema.
Import Pg.

Definition users : list Column :=
  [ with_default DefaultUuid (with_primaryKey (col "id" PgVarchar));
    with_unique (with_notNull (col "email" PgText));
    with_notNull (col "password" PgText);
    with_notNull (col "fullName" PgText);
    with_default (DefaultLit (JStr "health_worker"))
      (with_notNull (col "role" PgText));
    col "phoneNumber" PgText;
    col "facilityName" PgText;
    col "district" PgText;
    with_default (DefaultLit (JBool true))
      (with_notNull (col "isActive" PgBoolean));
    col "lastLoginAt" PgTimestamp;
    with_default DefaultNow (with_notNull (col "createdAt" PgTimestamp));
    with_default DefaultNow (with_notNull (col "updatedAt" PgTimestamp)) ].

Definition patients : list Column :=
  [ with_default DefaultUuid (with_primaryKey (col "id" PgVarchar));
    with_unique (with_notNull (col "patientCode" PgText));
    col "age" PgInteger;
    col "gender" PgText;
    col "district" PgText;
    col "facilityName" PgText;
    with_references Users "id" (with_notNull (col "createdById" PgVarchar));
    with_default DefaultNow (with_notNull (col "createdAt" PgTimestamp));
    with_default DefaultNow (with_notNull (col "updatedAt" PgTimestamp)) ].

Definition diagnostics : list Column :=
  [ with_default DefaultUuid (with_primaryKey (col "id" PgVarchar));
    with_references Patients "id" (with_notNull (col "patientId" PgVarchar));
    with_references Users "id"
      (with_notNull (col "submittedById" PgVarchar));
    with_notNull (col "imageUrl" PgText);
    with_notNull (col "result" PgText);
    col "parasiteCount" PgInteger;
    col "aiConfidenceScore" PgInteger;
    with_default (DefaultLit (JStr "pending"))
      (with_notNull (col "reviewStatus" PgText));
    with_references Users "id" (col "reviewedById" PgVarchar);
    col "reviewedAt" PgTimestamp;
    col "reviewNotes" PgText;
    col "symptoms" PgJsonb;
    with_default DefaultNow (with_notNull (col "testDate" PgTimestamp));
    with_default DefaultNow (with_notNull (col "createdAt" PgTimestamp)) ].

Definition notifications : list Column :=
  [ with_default DefaultUuid (with_primaryKey (col "id" PgVarchar));
    with_references Users "id" (col "userId" PgVarchar);
    with_references Diagnostics "id" (col "diagnosticId" PgVarchar);
    with_notNull (col "type" PgText);
    with_notNull (col "recipient" PgText);
    col "subject" PgText;
    with_notNull (col "message" PgText);
    with_default (DefaultLit (JStr "pending"))
      (with_notNull (col "status" PgText));
    with_default (DefaultLit (JStr "routine"))
      (with_notNull (col "priority" PgText));
    col "sentAt" PgTimestamp;
    col "errorMessage" PgText;
    with_default (DefaultLit (JNum 0))
      (with_notNull (col "retryCount" PgInteger));
    with_default DefaultNow (with_notNull (col "createdAt" PgTimestamp)) ].

Definition passwordResetTokens : list Column :=
  [ with_default DefaultUuid (with_primaryKey (col "id" PgVarchar));
    with_references Users "id" (with_notNull (col "userId" PgVarchar));
    with_unique (with_notNull (col "token" PgText));
    with_notNull (col "expiresAt" PgTimestamp);
    col "usedAt" PgTimestamp;
    with_default DefaultNow (with_notNull (col "createdAt" PgTimestamp)) ].

Definition columns (t : TableId) : list Column :=
  match t with
  | Users => users
  | Patients => patients
  | Diagnostics => diagnostics
  | Notifications => notifications
  | PasswordResetTokens => passwordResetTokens
  end.

(** Insert schemas *)
Definition insertUserSchema : Zod.Schema :=
  Zod.omit ["id"; "createdAt"; "lastLoginAt"] (createInsertSchema users).

Definition insertPatientSchema : Zod.Schema :=
  Zod.omit ["id"; "createdAt"; "updatedAt"] (createInsertSchema patients).

Definition insertDiagnosticSchema : Zod.Schema :=
  Zod.omit ["id"; "createdAt"; "reviewedAt"; "reviewStatus"]
    (createInsertSchema diagnostics).

Definition insertNotificationSchema : Zod.Schema :=
  Zod.omit ["id"; "createdAt"; "sentAt"; "status"; "retryCount"]
    (createInsertSchema notifications).

Definition insertPasswordResetTokenSchema : Zod.Schema :=
  Zod.omit ["id"; "createdAt"; "usedAt"]
    (createInsertSchema passwordResetTokens).

(** Auth schemas for API validation *)
Definition registerSchema : Zod.Schema :=
  Zod.extend
    [ ("email", Zod.mkField Zod.ZEmail false false);
      ("password", Zod.mkField (Zod.ZString 8) false false);
      ("fullName", Zod.mkField (Zod.ZString 2) false false);
      ("role", Zod.mkField
                 (Zod.ZEnum ["health_worker"; "admin"; "super_admin"])
                 true false) ]
    insertUserSchema.

Definition loginSchema : Zod.Schema :=
  [ ("email", Zod.mkField Zod.ZEmail false false);
    ("password", Zod.mkField (Zod.ZString 1) false false) ].

Definition forgotPasswordSchema : Zod.Schema :=
  [ ("email", Zod.mkField Zod.ZEmail false false) ].

Definition resetPasswordSchema : Zod.Schema :=
  [ ("token", Zod.mkField (Zod.ZString 1) false false);
    ("newPassword", Zod.mkField (Zod.ZString 8) false false) ].

Definition updateProfileSchema : Zod.Schema :=
  [ ("fullName", Zod.mkField (Zod.ZString 2) true false);
    ("phoneNumber", Zod.mkField (Zod.ZString 0) true false);
    ("facilityName", Zod.mkField (Zod.ZString 0) true false);
    ("district", Zod.mkField (Zod.ZString 0) true false) ].

End Schema.

(** ** The database state *)

Abbreviation Row := (gmap string JsVal).

Record Db := mkDb
  { t_users : list Row;
    t_patients : list Row;
    t_diagnostics : list Row;
    t_notifications : list Row;
    t_passwordResetTokens : list Row }.

Definition rows (t : Pg.TableId) (db : Db) : list Row :=
  match t with
  | Pg.Users => t_users db
  | Pg.Patients => t_patients db
  | Pg.Diagnostics => t_diagnostics db
  | Pg.Notifications => t_notifications db
  | Pg.PasswordResetTokens => t_passwordResetTokens db
  end.

Definition set_rows (t : Pg.TableId) (rs : list Row) (db : Db) : Db :=
  match t with
  | Pg.Users =>
      mkDb rs (t_patients db) (t_diagnostics db) (t_notifications db)
           (t_passwordResetTokens db)
  | Pg.Patients =>
      mkDb (t_users db) rs (t_diagnostics db) (t_notifications db)
           (t_passwordResetTokens db)
  | Pg.Diagnostics =>
      mkDb (t_users db) (t_patients db) rs (t_notifications db)
           (t_passwordResetTokens db)
  | Pg.Notifications =>
      mkDb (t_users db) (t_patients db) (t_diagnostics db) rs
           (t_passwordResetTokens db)
  | Pg.PasswordResetTokens =>
      mkDb (t_users db) (t_patients db) (t_diagnostics db)
           (t_notifications db) rs
  end.

(** [process.env] *)
Abbreviation Env := (gmap string string).

Definition env_set (env : Env) (k : string) : bool :=
  match env !! k with
  | Some s => negb (String.eqb s "")
  | None => false
  end.

(** [process.env.k || d] *)
Definition env_or (env : Env) (k : string) (d : string) : string :=
  match env !! k with
  | Some s => if String.eqb s "" then d else s
  | None => d
  end.

(** An HTTP response: [res.status(c).json({success, data | error, timestamp})]. *)
Inductive Data :=
| DataRow (o : Obj)
| DataUserToken (user : Obj) (token : string)
| DataMessage (message : string) (resetToken : option string).

Inductive Response :=
| Success (status : Z) (data : Data) (timestamp : Z)
| Failure (status : Z) (code : string) (message : string) (timestamp : Z).

Definition res_status (r : Response) : Z :=
  match r with
  | Success s _ _ => s
  | Failure s _ _ _ => s
  end.

Definition res_success (r : Response) : bool :=
  match r with
  | Success _ _ _ => true
  | Failure _ _ _ _ => false
  end.

Definition res_code (r : Response) : option string :=
  match r with
  | Success _ _ _ => None
  | Failure _ c _ _ => Some c
  end.

(** The uploaded file of a multipart request. *)
Record File := mkFile { originalname : string; buffer : string }.

Record Request := mkRequest
  { authorization : option string;   (* req.headers.authorization *)
    body : Obj;                      (* req.body *)
    params_id : string;              (* req.params.id *)
    file : option File;              (* req.file *)
    user : option Obj }.             (* req.user *)

Definition with_user (u : Obj) (req : Request) : Request :=
  mkRequest (authorization req) (body req) (params_id req) (file req) (Some u).

(** What a handler reads from outside the request: the clock and the random
    generators.  All readings of the clock during one request are taken at
    the same instant [now]. *)
Record Ambient := mkAmbient
  { now : Z;          (* new Date(), now(): milliseconds since the epoch *)
    uuid : string;    (* gen_random_uuid() *)
    nano : string;    (* nanoid(...) *)
    salt : string }.  (* the salt bcrypt draws *)

(** A request handler runs against the store and may throw; the store a
    thrown exception leaves behind is the one reached when it was thrown
    (each query is one statement: it takes effect as a whole or not at all). *)
Definition Handler (A : Type) : Type := Db -> Result A * Db.

#[global] Instance Handler_ret : MRet Handler := fun A a db => (Ok a, db).
#[global] Instance Handler_bind : MBind Handler := fun A B k m db =>
  match m db with
  | (Ok a, db') => k a db'
  | (Throw e, db') => (Throw e, db')
  end.

(** A query that reads. *)
Definition query {A} (f : Db -> A) : Handler A := fun db => (Ok (f db), db).

(** A statement that writes. *)
Definition exec {A} (f : Db -> Result (A * Db)) : Handler A := fun db =>
  match f db with
  | Ok (a, db') => (Ok a, db')
  | Throw e => (Throw e, db)
  end.

(** A computation that does not touch the store. *)
Definition pure {A} (r : Result A) : Handler A := fun db => (r, db).

(** ** The libraries and the host

    What the server takes from its dependencies and from the machine it runs
    on.  A token is a string; [jwt_verify token secret] is the payload when
    the token is well formed and carries a valid signature for [secret]. *)
Class Libraries := mkLibraries
  { is_email : string -> bool;                (* zod: .email() *)
    timestamp_in : JsVal -> option JsVal;     (* drizzle-zod: what the field of a
                                                 timestamp column accepts, and
                                                 the value it hands on *)
    pg_text : JsVal -> string;                (* node-postgres: a value that is
                                                 not a string, sent for a text
                                                 column *)
    js_String : option JsVal -> string;       (* String(v), v not a string *)
    bcrypt_hash : string -> Z -> string -> string;  (* password, rounds, salt *)
    bcrypt_compare : string -> string -> bool;      (* password, digest *)
    jwt_sign : Obj -> string -> string;             (* payload, secret *)
    jwt_verify : string -> string -> option Obj;    (* token, secret *)
    LocalTZA : Z -> bool -> Z;                (* ECMAScript LocalTZA(t, isUTC) *)
    parseInt : JsVal -> option Z;             (* None: NaN *)
    JSON_parse : JsVal -> option JsVal;       (* None: throws SyntaxError *)
    toISOString : Z -> string;
    s3_send : string -> bool;                 (* PutObject of a key succeeds *)
    exn_message : Exn -> string }.            (* error.message *)

Section Server.

Context `{Libraries}.

Definition parse := Zod.parse is_email timestamp_in.

(** *** Queries *)

Import Pg.

(** The value PostgreSQL stores in column [c] for [v], or the error it
    raises. *)
Definition store_value (c : Column) (v : JsVal) : Result JsVal :=
  match v with
  | JNull =>
      if notNull c then Throw (PgError "not_null_violation") else Ok JNull
  | _ =>
      match type c, v with
      | (PgText | PgVarchar), JStr _ => Ok v
      | (PgText | PgVarchar), _ => Ok (JStr (pg_text v))
      | PgInteger, JNum n =>
          if bool_decide (INT4_MIN ≤ n ≤ INT4_MAX) then Ok v
          else Throw (PgError "numeric_value_out_of_range")
      | PgBoolean, JBool _ => Ok v
      | PgTimestamp, JDate _ => Ok v
      | PgJsonb, _ => Ok v
      | _, _ => Throw (PgError "invalid_text_representation")
      end
  end.

(** [where(eq(column, v))]; a comparison with NULL selects nothing. *)
Definition matches (k : string) (v : JsVal) (r : Row) : bool :=
  bool_decide (v ≠ JNull ∧ r !! k = Some v).

Definition select_where (t : TableId) (k : string) (v : JsVal) (db : Db)
  : list Row :=
  filter (fun r => matches k v r) (rows t db).

(** A foreign key holds a NULL or the key of a row of the referenced
    table. *)
Definition check_reference (db : Db) (c : Column) (v : JsVal) : Result unit :=
  match references c, v with
  | Some (t, k), JNull => Ok ()
  | Some (t, k), _ =>
      match select_where t k v db with
      | [] => Throw (PgError "foreign_key_violation")
      | _ => Ok ()
      end
  | None, _ => Ok ()
  end.

Definition check_unique (t : TableId) (db : Db) (c : Column) (v : JsVal)
  : Result unit :=
  if unique c then
    match select_where t (name c) v db with
    | [] => Ok ()
    | _ => Throw (PgError "unique_violation")
    end
  else Ok ().

(** The value of column [c] in [insert(...).values(o)]: the property of
    [o], or the column's default when the property is undefined. *)
Definition insert_value (amb : Ambient) (c : Column) (o : Obj) : JsVal :=
  match o !! name c with
  | Some v => v
  | None =>
      match default c with
      | NoDefault => JNull
      | DefaultLit v => v
      | DefaultUuid => JStr (uuid amb)
      | DefaultNow => JDate (now amb)
      end
  end.

Fixpoint insert_row (amb : Ambient) (t : TableId) (db : Db)
  (cols : list Column) (o : Obj) : Result Row :=
  match cols with
  | [] => Ok ∅
  | c :: cs =>
      v ← store_value c (insert_value amb c o);
      _ ← check_unique t db c v;
      _ ← check_reference db c v;
      r ← insert_row amb t db cs o;
      Ok (<[name c := v]> r)
  end.

(** [db.insert(table).values(o).returning()] *)
Definition insert (amb : Ambient) (t : TableId) (o : Obj) (db : Db)
  : Result (Row * Db) :=
  r ← insert_row amb t db (Schema.columns t) o;
  Ok (r, set_rows t (rows t db ++ [r]) db).

(** The [set] of an update: per column, the new value as a function of the
    row (a constant, or an SQL expression such as [retry_count + 1]).  No
    update of the handlers writes a unique column. *)
Abbreviation SetClause := (gmap string (Row -> JsVal)).

Definition lit (o : Obj) : SetClause := (fun v (_ : Row) => v) <$> o.

Fixpoint update_row (db : Db) (cols : list Column) (set : SetClause)
  (old : Row) : Result Row :=
  match cols with
  | [] => Ok old
  | c :: cs =>
      r ← update_row db cs set old;
      match set !! name c with
      | None => Ok r
      | Some f =>
          v ← store_value c (f old);
          _ ← check_reference db c v;
          Ok (<[name c := v]> r)
      end
  end.

(** [db.update(table).set(set).where(eq(k, v)).returning()]: the statement
    changes every selected row, or raises and changes nothing. *)
Definition update_where (t : TableId) (k : string) (v : JsVal)
  (set : SetClause) (db : Db) : Result (list Row * Db) :=
  rs ← mapM (fun r => if matches k v r
                      then update_row db (Schema.columns t) set r
                      else Ok r) (rows t db);
  Ok (filter (fun r => matches k v r) rs, set_rows t rs db).

(** *** server/storage.ts: DatabaseStorage *)

Definition getUser (id : JsVal) (db : Db) : option Row :=
  head (select_where Users "id" id db).

Definition getUserByEmail (email : JsVal) (db : Db) : option Row :=
  head (select_where Users "email" email db).

Definition createUser (amb : Ambient) (insertUser : Obj) (db : Db)
  : Result (Row * Db) :=
  insert amb Users insertUser db.

Definition updateUser (amb : Ambient) (id : JsVal) (data : Obj) (db : Db)
  : Result (option Row * Db) :=
  '(rs, db') ← update_where Users "id" id
                 (lit (<["updatedAt" := JDate (now amb)]> data)) db;
  Ok (head rs, db').

Definition updateLastLogin (amb : Ambient) (id : JsVal) (db : Db)
  : Result (unit * Db) :=
  '(_, db') ← update_where Users "id" id
                (lit {["lastLoginAt" := JDate (now amb)]}) db;
  Ok ((), db').

Definition createDiagnostic (amb : Ambient) (insertDiagnostic : Obj)
  (db : Db) : Result (Row * Db) :=
  insert amb Diagnostics insertDiagnostic db.

Definition getDiagnostic (id : JsVal) (db : Db) : option Row :=
  head (select_where Diagnostics "id" id db).

(** The [set] of [updateDiagnosticReview] *)
Definition reviewSet (amb : Ambient) (reviewedById : option JsVal)
  (reviewStatus : JsVal) (reviewNotes : option JsVal) : SetClause :=
  lit (set_prop "reviewedById" reviewedById
         (<["reviewStatus" := reviewStatus]>
            (<["reviewedAt" := JDate (now amb)]>
               {["reviewNotes" := js_or reviewNotes JNull]}))).

Definition updateDiagnosticReview (amb : Ambient) (id : JsVal)
  (reviewedById : option JsVal) (reviewStatus : JsVal)
  (reviewNotes : option JsVal) (db : Db) : Result (option Row * Db) :=
  '(rs, db') ← update_where Diagnostics "id" id
                 (reviewSet amb reviewedById reviewStatus reviewNotes) db;
  Ok (head rs, db').

Definition createNotification (amb : Ambient) (insertNotification : Obj)
  (db : Db) : Result (Row * Db) :=
  insert amb Notifications insertNotification db.

(** sql`retry_count + 1` *)
Definition retry_count_plus_1 (r : Row) : JsVal :=
  match r !! "retryCount" with
  | Some (JNum n) => JNum (n + 1)
  | _ => JNull
  end.

(** sql`retry_count` *)
Definition retry_count (r : Row) : JsVal :=
  match r !! "retryCount" with
  | Some v => v
  | None => JNull
  end.

(** The [set] of [updateNotificationStatus] *)
Definition statusSet (amb : Ambient) (status : JsVal)
  (errorMessage : option JsVal) : SetClause :=
  <["retryCount" :=
      if bool_decide (status = JStr "failed")
      then retry_count_plus_1 else retry_count]>
    (lit (<["status" := status]>
            (<["sentAt" :=
                 if bool_decide (status = JStr "sent")
                 then JDate (now amb) else JNull]>
               {["errorMessage" := js_or errorMessage JNull]}))).

Definition updateNotificationStatus (amb : Ambient) (id : JsVal)
  (status : JsVal) (errorMessage : option JsVal) (db : Db)
  : Result (option Row * Db) :=
  '(rs, db') ← update_where Notifications "id" id
                 (statusSet amb status errorMessage) db;
  Ok (head rs, db').

Definition createPasswordResetToken (amb : Ambient) (insertToken : Obj)
  (db : Db) : Result (Row * Db) :=
  insert amb PasswordResetTokens insertToken db.

Definition getPasswordResetToken (token : JsVal) (db : Db) : option Row :=
  head (select_where PasswordResetTokens "token" token db).

Definition markTokenAsUsed (amb : Ambient) (id : JsVal) (db : Db)
  : Result (unit * Db) :=
  '(_, db') ← update_where PasswordResetTokens "id" id
                (lit {["usedAt" := JDate (now amb)]}) db;
  Ok ((), db').

(** *** server/auth.ts *)

Definition JWT_SECRET (env : Env) : string :=
  env_or env "JWT_SECRET"
    (env_or env "SESSION_SECRET"
       "introspect-dev-secret-change-in-production").

(** JWT_EXPIRES_IN = "24h", in seconds *)
Definition JWT_EXPIRES_IN : Z := 24 * 60 * 60.
Definition BCRYPT_ROUNDS : Z := 10.

(** A property read where the code expects a string. *)
Definition js_string (v : option JsVal) : string :=
  match v with
  | Some (JStr s) => s
  | _ => js_String v
  end.

Definition hashPassword (amb : Ambient) (password : string) : string :=
  bcrypt_hash password BCRYPT_ROUNDS (salt amb).

Definition verifyPassword (password hash : string) : bool :=
  bcrypt_compare password hash.

(** [jwt.sign({id, email, role}, JWT_SECRET, {expiresIn})]: the library adds
    [iat], the time in seconds, and [exp = iat + expiresIn]. *)
Definition generateToken (env : Env) (amb : Ambient) (user : Row) : string :=
  jwt_sign
    (set_prop "id" (user !! "id")
       (set_prop "email" (user !! "email")
          (set_prop "role" (user !! "role")
             (<["iat" := JNum (now amb / 1000)]>
                {["exp" := JNum (now amb / 1000 + JWT_EXPIRES_IN)]}))))
    (JWT_SECRET env).

(** The time checks of [jwt.verify] on a payload whose signature is
    valid. *)
Definition not_before_ok (clock : Z) (payload : Obj) : bool :=
  match payload !! "nbf" with
  | None => true
  | Some (JNum n) => bool_decide (n ≤ clock)
  | Some _ => false
  end.

Definition not_expired (clock : Z) (payload : Obj) : bool :=
  match payload !! "exp" with
  | None => true
  | Some (JNum e) => bool_decide (clock < e)
  | Some _ => false
  end.

(** [verifyToken]: the payload, or [None] for the [null] returned when
    [jwt.verify] throws. *)
Definition verifyToken (env : Env) (amb : Ambient) (token : string)
  : option Obj :=
  match jwt_verify token (JWT_SECRET env) with
  | Some payload =>
      if not_before_ok (now amb / 1000) payload
         && not_expired (now amb / 1000) payload
      then Some payload else None
  | None => None
  end.

Definition failure (amb : Ambient) (status : Z) (code message : string)
  : Response :=
  Failure status code message (now amb).

(** A middleware answers the request itself or hands it on ([next()]). *)
Definition authMiddleware (env : Env) (amb : Ambient) (req : Request)
  : Response + Request :=
  match authorization req with
  | Some authHeader =>
      if negb (String.eqb authHeader "")
         && String.prefix "Bearer " authHeader
      then
        let token :=
          String.substring 7 (String.length authHeader - 7) authHeader in
        match verifyToken env amb token with
        | Some decoded => inr (with_user decoded req)
        | None =>
            inl (failure amb 401 "INVALID_TOKEN" "Invalid or expired token")
        end
      else inl (failure amb 401 "UNAUTHORIZED" "Authorization token required")
  | None => inl (failure amb 401 "UNAUTHORIZED" "Authorization token required")
  end.

Definition requireRole (roles : list string) (amb : Ambient) (req : Request)
  : Response + Request :=
  match user req with
  | None => inl (failure amb 401 "UNAUTHORIZED" "Authentication required")
  | Some u =>
      match u !! "role" with
      | Some (JStr r) =>
          if bool_decide (r ∈ roles) then inr req
          else inl (failure amb 403 "FORBIDDEN" "Insufficient permissions")
      | _ => inl (failure amb 403 "FORBIDDEN" "Insufficient permissions")
      end
  end.

(** *** server/notifications.ts *)

Record SendResult := mkSendResult { success : bool; error : option string }.

Definition isTwilioConfigured (env : Env) : bool :=
  env_set env "TWILIO_ACCOUNT_SID" && env_set env "TWILIO_AUTH_TOKEN"
  && env_set env "TWILIO_PHONE_NUMBER".

Definition isSendGridConfigured (env : Env) : bool :=
  env_set env "SENDGRID_API_KEY".

(** The senders print one line and report success on both paths (the calls
    to the providers are not written yet); the result is paired with the
    tag of the line printed. *)
Definition sendSMS (env : Env) (to message : string)
  : string * SendResult :=
  if negb (isTwilioConfigured env)
  then ("[SMS] Twilio not configured - SMS would be sent:",
        mkSendResult true None)
  else ("[SMS] Would send to:", mkSendResult true None).

Definition sendEmail (env : Env) (to subject message : string)
  : string * SendResult :=
  if negb (isSendGridConfigured env)
  then ("[Email] SendGrid not configured - Email would be sent:",
        mkSendResult true None)
  else ("[Email] Would send to:", mkSendResult true None).

(** *** server/s3.ts *)

Definition AWS_REGION (env : Env) : string :=
  env_or env "AWS_REGION" "us-east-1".

Definition AWS_BUCKET (env : Env) : string :=
  env_or env "AWS_BUCKET" "introspect-diagnostic-images-dev".

Definition isS3Configured (env : Env) : bool :=
  env_set env "AWS_ACCESS_KEY_ID" && env_set env "AWS_SECRET_ACCESS_KEY".

Fixpoint has_dot (s : string) : bool :=
  match s with
  | EmptyString => false
  | String c r => Ascii.eqb c (Ascii.ascii_of_nat 46) || has_dot r
  end.

(** [name.split('.').pop()] *)
Fixpoint last_segment (s : string) : string :=
  match s with
  | EmptyString => EmptyString
  | String c r =>
      if has_dot r then last_segment r
      else if Ascii.eqb c (Ascii.ascii_of_nat 46) then r else s
  end.

Definition uploadImageToS3 (env : Env) (amb : Ambient)
  (originalName userId : string) : Result string :=
  if negb (isS3Configured env) then Throw S3Error
  else
    let fileExtension :=
      if String.eqb (last_segment originalName) "" then "jpg"
      else last_segment originalName in
    let fileName :=
      "diagnostics/" +:+ userId +:+ "/" +:+ nano amb +:+ "."
      +:+ fileExtension in
    if s3_send fileName
    then Ok ("https://" +:+ AWS_BUCKET env +:+ ".s3." +:+ AWS_REGION env
             +:+ ".amazonaws.com/" +:+ fileName)
    else Throw S3Error.

(** *** Date: local-time accessors of ECMAScript *)

Definition msPerDay : Z := 86400000.
Definition msPerHour : Z := 3600000.
Definition msPerMinute : Z := 60000.
Definition msPerSecond : Z := 1000.

Definition Day (t : Z) : Z := t / msPerDay.
Definition HourFromTime (t : Z) : Z := (t / msPerHour) mod 24.
Definition MinFromTime (t : Z) : Z := (t / msPerMinute) mod 60.
Definition SecFromTime (t : Z) : Z := (t / msPerSecond) mod 60.
Definition msFromTime (t : Z) : Z := t mod msPerSecond.

Definition MakeTime (h m s ms : Z) : Z :=
  h * msPerHour + m * msPerMinute + s * msPerSecond + ms.
Definition MakeDate (day time : Z) : Z := day * msPerDay + time.

(** A time value outside the range of [Date] is NaN (an invalid date). *)
Definition TimeClip (t : Z) : option Z :=
  if bool_decide (Z.abs t ≤ 8640000000000000) then Some t else None.

Definition LocalTime (t : Z) : Z := t + LocalTZA t true.
Definition UTC (t : Z) : Z := t - LocalTZA t false.

Definition getHours (t : Z) : Z := HourFromTime (LocalTime t).

Definition setHours (t : Z) (hour : Z) : option Z :=
  let tl := LocalTime t in
  TimeClip
    (UTC (MakeDate (Day tl)
            (MakeTime hour (MinFromTime tl) (SecFromTime tl)
               (msFromTime tl)))).

(** *** server/routes.ts *)

(** [error.message || "Invalid request data"] *)
Definition message_or (e : Exn) (d : string) : string :=
  if String.eqb (exn_message e) "" then d else exn_message e.

(** [try { ... } catch (error) { res.status(400)... VALIDATION_ERROR }] *)
Definition catch_400 (amb : Ambient) (h : Handler Response) (db : Db)
  : Response * Db :=
  match h db with
  | (Ok r, db') => (r, db')
  | (Throw e, db') =>
      (failure amb 400 "VALIDATION_ERROR"
         (message_or e "Invalid request data"), db')
  end.

(** [try { ... } catch (error) { res.status(500)... SERVER_ERROR }] *)
Definition catch_500 (amb : Ambient) (message : string)
  (h : Handler Response) (db : Db) : Response * Db :=
  match h db with
  | (Ok r, db') => (r, db')
  | (Throw e, db') => (failure amb 500 "SERVER_ERROR" message, db')
  end.

(** [app.METHOD(path, authMiddleware, handler)] *)
Definition authenticated (env : Env) (amb : Ambient)
  (handler : Request -> Db -> Response * Db) (req : Request) (db : Db)
  : Response * Db :=
  match authMiddleware env amb req with
  | inl res => (res, db)
  | inr req' => handler req' db
  end.

(** [req.user!.id] *)
Definition user_id (req : Request) : option JsVal :=
  match user req with
  | Some u => u !! "id"
  | None => None
  end.

(** [req.user!.id] as the parameter of a query. *)
Definition user_id_param (req : Request) : JsVal :=
  match user_id req with
  | Some v => v
  | None => JNull
  end.

(** [const { password, ...userWithoutPassword } = user] *)
Definition userWithoutPassword (user : Row) : Obj := delete "password" user.

(** POST /api/auth/register *)
Definition register (env : Env) (amb : Ambient) (req : Request)
  : Db -> Response * Db :=
  catch_400 amb
    (validatedData ← pure (parse Schema.registerSchema (body req));
     existingUser ← query (getUserByEmail (prop validatedData "email"));
     match existingUser with
     | Some _ =>
         mret (failure amb 400 "USER_EXISTS"
                 "User with this email already exists")
     | None =>
         let hashedPassword :=
           hashPassword amb (js_string (validatedData !! "password")) in
         user ← exec (createUser amb
                        (<["password" := JStr hashedPassword]> validatedData));
         let token := generateToken env amb user in
         mret (Success 201
                 (DataUserToken (userWithoutPassword user) token) (now amb))
     end).

(** POST /api/auth/login *)
Definition login (env : Env) (amb : Ambient) (req : Request)
  : Db -> Response * Db :=
  catch_400 amb
    (validatedData ← pure (parse Schema.loginSchema (body req));
     found ← query (getUserByEmail (prop validatedData "email"));
     match found with
     | None =>
         mret (failure amb 401 "INVALID_CREDENTIALS"
                 "Invalid email or password")
     | Some user =>
         if negb (verifyPassword (js_string (validatedData !! "password"))
                    (js_string (user !! "password")))
         then mret (failure amb 401 "INVALID_CREDENTIALS"
                      "Invalid email or password")
         else
           _ ← exec (updateLastLogin amb (prop user "id"));
           let token := generateToken env amb user in
           mret (Success 200
                   (DataUserToken (userWithoutPassword user) token) (now amb))
     end).

(** POST /api/auth/forgot-password *)
Definition forgot_password (env : Env) (amb : Ambient) (req : Request)
  : Db -> Response * Db :=
  catch_400 amb
    (validatedData ← pure (parse Schema.forgotPasswordSchema (body req));
     found ← query (getUserByEmail (prop validatedData "email"));
     match found with
     | None =>
         mret (Success 200
                 (DataMessage
                    "If an account exists with that email, password reset instructions have been sent"
                    None) (now amb))
     | Some user =>
         let resetToken := nano amb in
         (* expiresAt = new Date(); expiresAt.setHours(expiresAt.getHours() + 1) *)
         expiresAt ← pure (match setHours (now amb) (getHours (now amb) + 1) with
                           | Some t => Ok t
                           | None => Throw RangeError
                           end);
         _ ← exec (createPasswordResetToken amb
                     (set_prop "userId" (user !! "id")
                        (<["token" := JStr resetToken]>
                           {["expiresAt" := JDate expiresAt]})));
         mret (Success 200
                 (DataMessage "Password reset instructions sent to your email"
                    (if bool_decide (env !! "NODE_ENV" = Some "development")
                     then Some resetToken else None)) (now amb))
     end).

(** [new Date() > resetToken.expiresAt] *)
Definition date_after (t : Z) (v : option JsVal) : bool :=
  match v with
  | Some (JDate e) => bool_decide (e < t)
  | Some JNull => bool_decide (0 < t)
  | _ => false
  end.

(** POST /api/auth/reset-password *)
Definition reset_password (amb : Ambient) (req : Request)
  : Db -> Response * Db :=
  catch_400 amb
    (validatedData ← pure (parse Schema.resetPasswordSchema (body req));
     found ← query (getPasswordResetToken (prop validatedData "token"));
     match found with
     | None =>
         mret (failure amb 400 "INVALID_TOKEN" "Invalid or expired reset token")
     | Some resetToken =>
         if truthy (resetToken !! "usedAt")
         then mret (failure amb 400 "INVALID_TOKEN"
                      "Invalid or expired reset token")
         else if date_after (now amb) (resetToken !! "expiresAt")
         then mret (failure amb 400 "TOKEN_EXPIRED" "Reset token has expired")
         else
           let hashedPassword :=
             hashPassword amb (js_string (validatedData !! "newPassword")) in
           _ ← exec (updateUser amb (prop resetToken "userId")
                       {["password" := JStr hashedPassword]});
           _ ← exec (markTokenAsUsed amb (prop resetToken "id"));
           mret (Success 200
                   (DataMessage "Password successfully reset" None) (now amb))
     end).

(** GET /api/users/profile *)
Definition get_profile (env : Env) (amb : Ambient)
  : Request -> Db -> Response * Db :=
  authenticated env amb (fun req =>
    catch_500 amb "Failed to fetch user profile"
      (found ← query (getUser (user_id_param req));
       match found with
       | None => mret (failure amb 404 "USER_NOT_FOUND" "User not found")
       | Some user =>
           mret (Success 200 (DataRow (userWithoutPassword user)) (now amb))
       end)).

(** PUT /api/users/profile *)
Definition update_profile (env : Env) (amb : Ambient)
  : Request -> Db -> Response * Db :=
  authenticated env amb (fun req =>
    catch_400 amb
      (validatedData ← pure (parse Schema.updateProfileSchema (body req));
       found ← exec (updateUser amb (user_id_param req)
                       validatedData);
       match found with
       | None => mret (failure amb 404 "USER_NOT_FOUND" "User not found")
       | Some user =>
           mret (Success 200 (DataRow (userWithoutPassword user)) (now amb))
       end)).

(** [app.METHOD(path, authMiddleware, requireRole(roles), handler)] *)
Definition authorized (env : Env) (amb : Ambient) (roles : list string)
  (handler : Request -> Db -> Response * Db)
  : Request -> Db -> Response * Db :=
  authenticated env amb (fun req db =>
    match requireRole roles amb req with
    | inl res => (res, db)
    | inr req' => handler req' db
    end).

(** [v ? parseInt(v) : null] *)
Definition parseInt_or_null (v : option JsVal) : JsVal :=
  if truthy v then
    match parseInt (prop_of v) with
    | Some n => JNum n
    | None => JNaN
    end
  else JNull.

(** POST /api/diagnostics/submit *)
Definition submit_diagnostic (env : Env) (amb : Ambient)
  : Request -> Db -> Response * Db :=
  authenticated env amb (fun req =>
    catch_400 amb
      match file req with
      | None =>
          mret (failure amb 400 "NO_IMAGE" "Blood smear image is required")
      | Some f =>
          imageUrl ← pure
            (if isS3Configured env
             then uploadImageToS3 env amb (originalname f)
                    (js_string (user_id req))
             else Ok ("http://localhost:5000/uploads/" +:+ nano amb +:+ "_"
                      +:+ originalname f));
          symptoms ← pure
            (if truthy (body req !! "symptoms")
             then match JSON_parse (prop (body req) "symptoms") with
                  | Some v => Ok v
                  | None => Throw SyntaxError
                  end
             else Ok JNull);
          let diagnosticData : Obj :=
            set_prop "patientId" (body req !! "patientId")
              (set_prop "submittedById" (user_id req)
                 (<["imageUrl" := JStr imageUrl]>
                    (<["result" := js_or (body req !! "result") (JStr "pending")]>
                       (<["parasiteCount" :=
                            parseInt_or_null (body req !! "parasiteCount")]>
                          (<["aiConfidenceScore" :=
                               parseInt_or_null (body req !! "aiConfidenceScore")]>
                             (<["symptoms" := symptoms]>
                                {["testDate" :=
                                    js_or (body req !! "testDate")
                                      (JStr (toISOString (now amb)))]}))))))
          in
          validatedData ← pure (parse Schema.insertDiagnosticSchema
                                  diagnosticData);
          diagnostic ← exec (createDiagnostic amb validatedData);
          mret (Success 201 (DataRow diagnostic) (now amb))
      end).

(** PUT /api/diagnostics/:id/review (admin only) *)
Definition review_diagnostic (env : Env) (amb : Ambient)
  : Request -> Db -> Response * Db :=
  authorized env amb ["admin"; "super_admin"] (fun req =>
    catch_400 amb
      (let reviewStatus := body req !! "reviewStatus" in
       let reviewNotes := body req !! "reviewNotes" in
       if negb (truthy reviewStatus)
       then mret (failure amb 400 "MISSING_STATUS" "Review status is required")
       else
         found ← exec (updateDiagnosticReview amb (JStr (params_id req))
                         (user_id req) (prop_of reviewStatus) reviewNotes);
         match found with
         | None =>
             mret (failure amb 404 "DIAGNOSTIC_NOT_FOUND"
                     "Diagnostic not found")
         | Some diagnostic =>
             mret (Success 200 (DataRow diagnostic) (now amb))
         end)).

(** POST /api/notifications/send.  The handler stores the notification and
    answers; it does not call [sendSMS] or [sendEmail]. *)
Definition send_notification (env : Env) (amb : Ambient)
  : Request -> Db -> Response * Db :=
  authenticated env amb (fun req =>
    catch_400 amb
      (validatedData ← pure (parse Schema.insertNotificationSchema
                               (set_prop "userId" (user_id req) (body req)));
       notification ← exec (createNotification amb validatedData);
       mret (Success 201 (DataRow notification) (now amb)))).

(** PUT /api/notifications/:id/status *)
Definition update_notification_status (env : Env) (amb : Ambient)
  : Request -> Db -> Response * Db :=
  authenticated env amb (fun req =>
    catch_400 amb
      (let status := body req !! "status" in
       let errorMessage := body req !! "errorMessage" in
       if negb (truthy status)
       then mret (failure amb 400 "MISSING_STATUS" "Status is required")
       else
         found ← exec (updateNotificationStatus amb (JStr (params_id req))
                         (prop_of status) errorMessage);
         match found with
         | None =>
             mret (failure amb 404 "NOTIFICATION_NOT_FOUND"
                     "Notification not found")
         | Some notification =>
             mret (Success 200 (DataRow notification) (now amb))
         end)).

End Server.

(** ** Conformance of rows, and the observations the statements use *)

#[global] Instance Exn_eq_dec : EqDecision Exn.
Proof. solve_decision. Defined.

#[global] Instance Result_eq_dec `{EqDecision A} : EqDecision (Result A).
Proof. solve_decision. Defined.

#[global] Instance Db_eq_dec : EqDecision Db.
Proof. solve_decision. Defined.

#[global] Instance Data_eq_dec : EqDecision Data.
Proof. solve_decision. Defined.

#[global] Instance Response_eq_dec : EqDecision Response.
Proof. solve_decision. Defined.

#[global] Instance File_eq_dec : EqDecision File.
Proof. solve_decision. Defined.

#[global] Instance Request_eq_dec : EqDecision Request.
Proof. solve_decision. Defined.

(** A row conforms to its table when every column holds a value that
    PostgreSQL stores as it is (of the column's type, within its range, not
    NULL where the column is not null). *)
Definition column_ok `{Libraries} (c : Pg.Column) (r : Row) : bool :=
  match r !! Pg.name c with
  | Some v => bool_decide (store_value c v = Ok v)
  | None => false
  end.

Definition row_ok `{Libraries} (t : Pg.TableId) (r : Row) : bool :=
  forallb (fun c => column_ok c r) (Schema.columns t).

(** The kinds of field that accept text. *)
Definition text_kind (k : Zod.Kind) : bool :=
  match k with
  | Zod.ZString _ | Zod.ZEmail | Zod.ZEnum _ => true
  | _ => false
  end.

(** The user object of a response, when it carries one. *)
Definition response_user (res : Response) : option Obj :=
  match res with
  | Success _ (DataUserToken o _) _ => Some o
  | Success _ (DataRow o) _ => Some o
  | _ => None
  end.

(** The retry count of a notification. *)
Definition retryCount_of (n : Row) : Z :=
  match n !! "retryCount" with
  | Some (JNum k) => k
  | _ => 0
  end.

(** The position of a review status in pending < reviewed < verified. *)
Definition review_rank (v : option JsVal) : option nat :=
  match v with
  | Some (JStr s) =>
      if String.eqb s "pending" then Some 0%nat
      else if String.eqb s "reviewed" then Some 1%nat
      else if String.eqb s "verified" then Some 2%nat
      else None
  | _ => None
  end.

(** The rows an update leaves: row by row, either the row as it was, or the
    selected row with the [set] applied. *)
Definition updated `{Libraries} (t : Pg.TableId) (k : string) (v : JsVal)
  (set : gmap string (Row -> JsVal)) (db : Db) (old new : Row) : Prop :=
  if matches k v old
  then update_row db (Schema.columns t) set old = Ok new
  else new = old.

(** ** The remaining queries and handlers

    [deleteUser], the patient queries and the list queries of
    [server/storage.ts], and the handlers of [server/routes.ts] that use
    them.  PUT /api/patients/:id is left out: it hands the body of the
    request to the driver as it comes. *)

(** What the list queries take from PostgreSQL: the order [ORDER BY k DESC]
    puts rows in (the order of rows with equal keys is the server's choice)
    and the rows [LIMIT n] keeps. *)
Class Postgres := mkPostgres
  { order_desc : string -> list Row -> list Row;
    limit_rows : Z -> list Row -> Result (list Row) }.

(** The range of a PostgreSQL [bigint], the type of a row count. *)
Definition INT8_MAX : Z := 9223372036854775807.

(** The time a timestamp column holds in a row, [None] for NULL. *)
Definition order_key (k : string) (r : Row) : option Z :=
  match r !! k with
  | Some (JDate t) => Some t
  | _ => None
  end.

(** [r1] may stand before [r2] in a descending order on column [k]: later
    times first, and NULL before every time. *)
Definition before_desc (k : string) (r1 r2 : Row) : bool :=
  match order_key k r1, order_key k r2 with
  | None, _ => true
  | Some _, None => false
  | Some a, Some b => bool_decide (b ≤ a)
  end.

Class PostgresLaws `{Postgres} : Prop :=
  { order_desc_perm : ∀ k l, order_desc k l ≡ₚ l;
    order_desc_sorted : ∀ k l,
      StronglySorted (fun r1 r2 => before_desc k r1 r2 = true)
        (order_desc k l);
    limit_rows_take : ∀ n l,
      0 ≤ n ≤ INT8_MAX → limit_rows n l = Ok (take (Z.to_nat n) l) }.

(** [req.query], for parameters given once: each is a text. *)
Abbreviation Query := (gmap string string).

(** The answers of the handlers that return more than one row. *)
Inductive Answer :=
| Plain (res : Response)
| Many (data : list Row) (timestamp : Z)
    (* 200, data: [...] *)
| PatientRecord (patient : Row) (diagnostics : list Row) (timestamp : Z)
    (* 200, data: {...patient, diagnostics} *)
| DiagnosticRecord (diagnostic : Row) (patient : option Obj) (timestamp : Z)
    (* 200, data: {...diagnostic, patient} *)
| Healthy (timestamp : Z)
    (* 200, data: {status: "healthy", timestamp} *)
| Operational (s3Configured : bool) (timestamp : Z).
    (* 200, data: {version, name, description, status, s3Configured} *)

#[global] Instance Answer_eq_dec : EqDecision Answer.
Proof. solve_decision. Defined.

(** The routes [registerRoutes] installs, PUT /api/patients/:id apart. *)
Inductive Route :=
| PostAuthRegister          (* POST   /api/auth/register *)
| PostAuthLogin             (* POST   /api/auth/login *)
| PostAuthForgotPassword    (* POST   /api/auth/forgot-password *)
| PostAuthResetPassword     (* POST   /api/auth/reset-password *)
| GetUsersProfile           (* GET    /api/users/profile *)
| PutUsersProfile           (* PUT    /api/users/profile *)
| DeleteUsersAccount        (* DELETE /api/users/account *)
| PostPatients              (* POST   /api/patients *)
| GetPatients               (* GET    /api/patients *)
| GetPatientsId             (* GET    /api/patients/:id *)
| PostDiagnosticsSubmit     (* POST   /api/diagnostics/submit *)
| GetDiagnosticsHistory     (* GET    /api/diagnostics/history *)
| GetDiagnosticsId          (* GET    /api/diagnostics/:id *)
| PutDiagnosticsIdReview    (* PUT    /api/diagnostics/:id/review *)
| PostNotificationsSend     (* POST   /api/notifications/send *)
| GetNotificationsHistory   (* GET    /api/notifications/history *)
| PutNotificationsIdStatus  (* PUT    /api/notifications/:id/status *)
| GetHealth                 (* GET    /api/health *)
| GetStatus.                (* GET    /api/status *)

#[global] Instance Route_eq_dec : EqDecision Route.
Proof. solve_decision. Defined.

Section Routes.

Context `{Libraries} `{Postgres}.

Import Pg.

(** *** Queries: deletion *)

Definition tables : list TableId :=
  [Users; Patients; Diagnostics; Notifications; PasswordResetTokens].

(** Row [r'] refers to row [r] of table [t] through its column [c]. *)
Definition refers_to (t : TableId) (r : Row) (c : Column) (r' : Row) : bool :=
  match references c, r' !! name c with
  | Some (t', k), Some v =>
      bool_decide (t' = t ∧ v ≠ JNull ∧ r !! k = Some v)
  | _, _ => false
  end.

Definition referenced (t : TableId) (r : Row) (db : Db) : bool :=
  existsb (fun t' =>
    existsb (fun c => existsb (refers_to t r c) (rows t' db))
      (Schema.columns t')) tables.

(** [db.delete(table).where(eq(k, v))].  No foreign key of the schema names
    an action for a deletion: a row that another row refers to cannot be
    deleted, and the statement then raises and deletes nothing. *)
Definition delete_where (t : TableId) (k : string) (v : JsVal) (db : Db)
  : Result Db :=
  if existsb (fun r => referenced t r db) (select_where t k v db)
  then Throw (PgError "foreign_key_violation")
  else Ok (set_rows t (filter (fun r => negb (matches k v r)) (rows t db)) db).

(** *** Queries: lists *)

(** [if (filter) query.where(eq(column, filter))] *)
Definition where_eq (k : string) (v : option JsVal) (l : list Row)
  : list Row :=
  if truthy v then filter (fun r => matches k (prop_of v) r) l else l.

(** [filters?.limit ? query.limit(filters.limit) : query.limit(20)], the
    limit being a number or undefined. *)
Definition limit_of (limit : option JsVal) : Z :=
  match limit with
  | Some (JNum n) => if n =? 0 then 20 else n
  | _ => 20
  end.

(** *** server/storage.ts: DatabaseStorage, continued *)

Definition deleteUser (id : JsVal) (db : Db) : Result (unit * Db) :=
  db' ← delete_where Users "id" id db;
  Ok ((), db').

Definition createPatient (amb : Ambient) (insertPatient : Obj) (db : Db)
  : Result (Row * Db) :=
  insert amb Patients insertPatient db.

Definition getPatient (id : JsVal) (db : Db) : option Row :=
  head (select_where Patients "id" id db).

Definition getPatients (district limit : option JsVal) (db : Db)
  : Result (list Row) :=
  limit_rows (limit_of limit)
    (order_desc "createdAt" (where_eq "district" district (t_patients db))).

Definition getPatientByCode (code : JsVal) (db : Db) : option Row :=
  head (select_where Patients "patientCode" code db).

Definition getDiagnostics (patientId result limit : option JsVal) (db : Db)
  : Result (list Row) :=
  limit_rows (limit_of limit)
    (order_desc "testDate"
       (where_eq "result" result
          (where_eq "patientId" patientId (t_diagnostics db)))).

Definition getNotifications (type status limit : option JsVal) (db : Db)
  : Result (list Row) :=
  limit_rows (limit_of limit)
    (order_desc "createdAt"
       (where_eq "status" status
          (where_eq "type" type (t_notifications db)))).

(** *** server/routes.ts, continued *)

(** A query that reads and may raise. *)
Definition read {A} (f : Db -> Result A) : Handler A := fun db => (f db, db).

(** [try { ... } catch (error) { res.status(500)... SERVER_ERROR }] around a
    handler that lists rows. *)
Definition catch_500_list (amb : Ambient) (message : string)
  (h : Handler Answer) (db : Db) : Answer * Db :=
  match h db with
  | (Ok a, db') => (a, db')
  | (Throw e, db') => (Plain (failure amb 500 "SERVER_ERROR" message), db')
  end.

(** [app.get(path, authMiddleware, handler)] for such a handler. *)
Definition authenticated_list (env : Env) (amb : Ambient)
  (handler : Request -> Db -> Answer * Db) (req : Request) (db : Db)
  : Answer * Db :=
  match authMiddleware env amb req with
  | inl res => (Plain res, db)
  | inr req' => handler req' db
  end.

(** [q.k as string | undefined] *)
Definition query_text (q : Query) (k : string) : option JsVal :=
  JStr <$> q !! k.

(** [limit ? parseInt(limit as string) : undefined] *)
Definition query_limit (q : Query) : option JsVal :=
  if truthy (query_text q "limit")
  then Some match parseInt (prop_of (query_text q "limit")) with
            | Some n => JNum n
            | None => JNaN
            end
  else None.

(** DELETE /api/users/account *)
Definition delete_account (env : Env) (amb : Ambient)
  : Request -> Db -> Response * Db :=
  authenticated env amb (fun req =>
    catch_500 amb "Failed to delete account"
      (_ ← exec (deleteUser (user_id_param req));
       mret (Success 200 (DataMessage "Account successfully deleted" None)
               (now amb)))).

(** POST /api/patients *)
Definition create_patient (env : Env) (amb : Ambient)
  : Request -> Db -> Response * Db :=
  authenticated env amb (fun req =>
    catch_400 amb
      (validatedData ← pure (parse Schema.insertPatientSchema
                               (set_prop "createdById" (user_id req)
                                  (body req)));
       existingPatient ← query (getPatientByCode
                                  (prop validatedData "patientCode"));
       match existingPatient with
       | Some _ =>
           mret (failure amb 400 "PATIENT_EXISTS"
                   "Patient with this code already exists")
       | None =>
           patient ← exec (createPatient amb validatedData);
           mret (Success 201 (DataRow patient) (now amb))
       end)).

(** GET /api/patients *)
Definition get_patients (env : Env) (amb : Ambient) (q : Query)
  : Request -> Db -> Answer * Db :=
  authenticated_list env amb (fun req =>
    catch_500_list amb "Failed to fetch patients"
      (patients ← read (getPatients (query_text q "district")
                          (query_limit q));
       mret (Many patients (now amb)))).

(** GET /api/patients/:id *)
Definition get_patient (env : Env) (amb : Ambient)
  : Request -> Db -> Answer * Db :=
  authenticated_list env amb (fun req =>
    catch_500_list amb "Failed to fetch patient"
      (found ← query (getPatient (JStr (params_id req)));
       match found with
       | None =>
           mret (Plain (failure amb 404 "PATIENT_NOT_FOUND"
                          "Patient not found"))
       | Some patient =>
           diagnostics ← read (getDiagnostics (patient !! "id") None None);
           mret (PatientRecord patient diagnostics (now amb))
       end)).

(** GET /api/diagnostics/history *)
Definition diagnostics_history (env : Env) (amb : Ambient) (q : Query)
  : Request -> Db -> Answer * Db :=
  authenticated_list env amb (fun req =>
    catch_500_list amb "Failed to fetch diagnostics"
      (diagnostics ← read (getDiagnostics (query_text q "patientId")
                             (query_text q "result") (query_limit q));
       mret (Many diagnostics (now amb)))).

(** [{patientCode, age, gender, district}] of a patient *)
Definition patient_summary (patient : Row) : Obj :=
  set_prop "patientCode" (patient !! "patientCode")
    (set_prop "age" (patient !! "age")
       (set_prop "gender" (patient !! "gender")
          (set_prop "district" (patient !! "district") ∅))).

(** GET /api/diagnostics/:id *)
Definition get_diagnostic (env : Env) (amb : Ambient)
  : Request -> Db -> Answer * Db :=
  authenticated_list env amb (fun req =>
    catch_500_list amb "Failed to fetch diagnostic"
      (found ← query (getDiagnostic (JStr (params_id req)));
       match found with
       | None =>
           mret (Plain (failure amb 404 "DIAGNOSTIC_NOT_FOUND"
                          "Diagnostic not found"))
       | Some diagnostic =>
           patient ← query (getPatient (prop diagnostic "patientId"));
           mret (DiagnosticRecord diagnostic (patient_summary <$> patient)
                   (now amb))
       end)).

(** GET /api/notifications/history *)
Definition notifications_history (env : Env) (amb : Ambient) (q : Query)
  : Request -> Db -> Answer * Db :=
  authenticated_list env amb (fun req =>
    catch_500_list amb "Failed to fetch notifications"
      (notifications ← read (getNotifications (query_text q "type")
                               (query_text q "status") (query_limit q));
       mret (Many notifications (now amb)))).

(** GET /api/health *)
Definition health_check (amb : Ambient) (db : Db) : Answer * Db :=
  (Healthy (now amb), db).

(** GET /api/status *)
Definition api_status (env : Env) (amb : Ambient) (db : Db) : Answer * Db :=
  (Operational (isS3Configured env) (now amb), db).

(** A handler that answers one row, as an answer. *)
Definition plain (out : Response * Db) : Answer * Db := (Plain out.1, out.2).

(** [registerRoutes]: the handler of each route. *)
Definition registerRoutes (route : Route) (env : Env) (amb : Ambient)
  (q : Query) (req : Request) (db : Db) : Answer * Db :=
  match route with
  | PostAuthRegister => plain (register env amb req db)
  | PostAuthLogin => plain (login env amb req db)
  | PostAuthForgotPassword => plain (forgot_password env amb req db)
  | PostAuthResetPassword => plain (reset_password amb req db)
  | GetUsersProfile => plain (get_profile env amb req db)
  | PutUsersProfile => plain (update_profile env amb req db)
  | DeleteUsersAccount => plain (delete_account env amb req db)
  | PostPatients => plain (create_patient env amb req db)
  | GetPatients => get_patients env amb q req db
  | GetPatientsId => get_patient env amb req db
  | PostDiagnosticsSubmit => plain (submit_diagnostic env amb req db)
  | GetDiagnosticsHistory => diagnostics_history env amb q req db
  | GetDiagnosticsId => get_diagnostic env amb req db
  | PutDiagnosticsIdReview => plain (review_diagnostic env amb req db)
  | PostNotificationsSend => plain (send_notification env amb req db)
  | GetNotificationsHistory => notifications_history env amb q req db
  | PutNotificationsIdStatus =>
      plain (update_notification_status env amb req db)
  | GetHealth => health_check amb db
  | GetStatus => api_status env amb db
  end.

(** The routes installed without [authMiddleware]. *)
Definition open_routes : list Route :=
  [PostAuthRegister; PostAuthLogin; PostAuthForgotPassword;
   PostAuthResetPassword; GetHealth; GetStatus].

End Routes.

(** ** Consistency of the store *)

(** Every row conforms to its table. *)
Definition conforms `{Libraries} (db : Db) : Prop :=
  ∀ t r, r ∈ rows t db → row_ok t r = true.

(** A unique column holds each value in at most one row. *)
Definition keys_unique (db : Db) : Prop :=
  ∀ t c v, c ∈ Schema.columns t → Pg.unique c = true →
           (length (select_where t (Pg.name c) v db) ≤ 1)%nat.

(** A foreign key that is not NULL is the key of a row of the table it
    refers to. *)
Definition references_hold (db : Db) : Prop :=
  ∀ t c t' k r v,
    c ∈ Schema.columns t → Pg.references c = Some (t', k) →
    r ∈ rows t db → r !! Pg.name c = Some v → v ≠ JNull →
    ∃ r', r' ∈ rows t' db ∧ r' !! k = Some v.

(** [references_hold] as a test. *)
Definition references_check (db : Db) : bool :=
  forallb (fun t =>
    forallb (fun c =>
      match Pg.references c with
      | Some (t', k) =>
          forallb (fun r : Row =>
            match r !! Pg.name c with
            | Some v =>
                bool_decide (v = JNull)
                || existsb (fun r' : Row => bool_decide (r' !! k = Some v))
                     (rows t' db)
            | None => true
            end) (rows t db)
      | None => true
      end) (Schema.columns t))
    [Pg.Users; Pg.Patients; Pg.Diagnostics; Pg.Notifications;
     Pg.PasswordResetTokens].

(** A property of the store that the three kinds of statement keep: an
    insertion, an update that writes no unique column, and a deletion. *)
Record Kept `{Libraries} (P : Db -> Prop) : Prop := mkKept
  { kept_insert : ∀ amb t o db r db',
      P db → insert amb t o db = Ok (r, db') → P db';
    kept_update : ∀ t k v set db rs db',
      (∀ c, c ∈ Schema.columns t → Pg.unique c = true →
            set !! Pg.name c = None) →
      P db → update_where t k v set db = Ok (rs, db') → P db';
    kept_delete : ∀ t k v db db',
      P db → delete_where t k v db = Ok db' → P db' }.

(** The rows of an answer. *)
Definition answer_rows (a : Answer) : list Row :=
  match a with
  | Many data _ => data
  | PatientRecord _ diagnostics _ => diagnostics
  | _ => []
  end.

(** ** A sample deployment

    Stand-ins for the libraries, two hosts (one in UTC, one in a zone with
    daylight saving time) and a small store, on which the handlers are run. *)

Module Sample.

Definition contains_at (s : string) : bool :=
  match String.index 0 "@" s with
  | Some _ => true
  | None => false
  end.

Definition string_of (v : option JsVal) : string :=
  match v with
  | None => "undefined"
  | Some JNull => "null"
  | Some (JBool true) => "true"
  | Some (JBool false) => "false"
  | Some (JNum n) => pretty n
  | Some JNaN => "NaN"
  | Some (JStr s) => s
  | Some (JDate t) => pretty t
  | Some (JOther r) => r
  end.

(** The stand-in for bcrypt keeps the password in the digest. *)
Definition digest (password : string) (rounds : Z) (salt : string) : string :=
  "$2b$" +:+ pretty rounds +:+ "$" +:+ salt +:+ "$" +:+ password.

Definition digest_matches (password hash : string) : bool :=
  bool_decide (hash = digest password 10 "salt").

(** The stand-in for jsonwebtoken: a token names the secret and the claims;
    the verifier knows the payloads that were signed. *)
Definition sign (payload : Obj) (secret : string) : string :=
  "jwt/" +:+ secret +:+ "/" +:+ string_of (payload !! "id") +:+ "/"
  +:+ string_of (payload !! "role") +:+ "/" +:+ string_of (payload !! "exp").

(** 2024-06-01T12:00:00Z, in milliseconds *)
Definition t0 : Z := 1717243200000.

Definition admin_payload : Obj :=
  {[ "id" := JStr "u-admin"; "email" := JStr "admin@moh.bw";
     "role" := JStr "admin"; "iat" := JNum (t0 / 1000);
     "exp" := JNum (t0 / 1000 + 86400) ]}.

Definition worker_payload : Obj :=
  {[ "id" := JStr "u-worker"; "email" := JStr "thato@clinic.bw";
     "role" := JStr "health_worker"; "iat" := JNum (t0 / 1000);
     "exp" := JNum (t0 / 1000 + 86400) ]}.

Definition issued : list Obj := [admin_payload; worker_payload].

Definition verify (token secret : string) : option Obj :=
  head (filter (fun p => token = sign p secret) issued).

Definition parse_int (v : JsVal) : option Z :=
  match v with
  | JStr s =>
      if String.eqb s "94" then Some 94
      else if String.eqb s "1250" then Some 1250
      else None
  | JNum n => Some n
  | _ => None
  end.

Definition message_of (e : Exn) : string :=
  match e with
  | ZodError path => "Invalid input: " +:+ path
  | PgError constraint => constraint
  | SyntaxError => "Unexpected token in JSON"
  | RangeError => "Invalid time value"
  | S3Error => "AWS credentials not configured"
  end.

(** A host whose local time is UTC. *)
Definition utc (t : Z) (isUTC : bool) : Z := 0.

(** A host whose zone leaves daylight saving time on 2024-11-03 at 06:00 UTC,
    when 02:00 local time becomes 01:00 (as in America/New_York): four hours
    behind UTC before, five hours after.  A local time that occurs twice is
    read as the earlier instant. *)
Definition eastern (t : Z) (isUTC : bool) : Z :=
  if isUTC
  then if bool_decide (t < 1730613600000)
       then -4 * 3600000 else -5 * 3600000
  else if bool_decide (t < 1730599200000)
       then -4 * 3600000 else -5 * 3600000.

Definition libs_in (zone : Z -> bool -> Z) : Libraries :=
  {| is_email := contains_at;
     timestamp_in := fun v => match v with JDate _ => Some v | _ => None end;
     pg_text := fun v => string_of (Some v);
     js_String := string_of;
     bcrypt_hash := digest;
     bcrypt_compare := digest_matches;
     jwt_sign := sign;
     jwt_verify := verify;
     LocalTZA := zone;
     parseInt := parse_int;
     JSON_parse := fun v => Some (JOther (string_of (Some v)));
     toISOString := fun t => pretty t;
     s3_send := fun _ => true;
     exn_message := message_of |}.

Definition libs : Libraries := libs_in utc.
Definition libs_eastern : Libraries := libs_in eastern.

(** No provider is configured. *)
Definition env : Env :=
  {[ "JWT_SECRET" := "test-secret"; "NODE_ENV" := "production" ]}.

Definition admin : Row :=
  {[ "id" := JStr "u-admin"; "email" := JStr "admin@moh.bw";
     "password" := JStr (digest "admin-secret" 10 "salt");
     "fullName" := JStr "Kagiso Admin"; "role" := JStr "admin";
     "phoneNumber" := JNull; "facilityName" := JNull; "district" := JNull;
     "isActive" := JBool true; "lastLoginAt" := JNull;
     "createdAt" := JDate t0; "updatedAt" := JDate t0 ]}.

(** A health worker whose account has been deactivated. *)
Definition worker : Row :=
  {[ "id" := JStr "u-worker"; "email" := JStr "thato@clinic.bw";
     "password" := JStr (digest "SecurePass123!" 10 "salt");
     "fullName" := JStr "Thato Molosiwa"; "role" := JStr "health_worker";
     "phoneNumber" := JStr "+26771234567";
     "facilityName" := JStr "Okavango District Clinic";
     "district" := JStr "Okavango";
     "isActive" := JBool false; "lastLoginAt" := JNull;
     "createdAt" := JDate t0; "updatedAt" := JDate t0 ]}.

Definition patient : Row :=
  {[ "id" := JStr "p-1"; "patientCode" := JStr "P2026-0001";
     "age" := JNum 7; "gender" := JStr "female";
     "district" := JStr "Okavango"; "facilityName" := JNull;
     "createdById" := JStr "u-worker";
     "createdAt" := JDate t0; "updatedAt" := JDate t0 ]}.

(** A diagnostic that has been verified. *)
Definition verified_diagnostic : Row :=
  <["id" := JStr "d-1"]>
  {[ "patientId" := JStr "p-1";
     "submittedById" := JStr "u-worker";
     "imageUrl" := JStr "http://localhost:5000/uploads/x_smear.png";
     "result" := JStr "positive"; "parasiteCount" := JNum 1250;
     "aiConfidenceScore" := JNum 94; "reviewStatus" := JStr "verified";
     "reviewedById" := JStr "u-admin"; "reviewedAt" := JDate t0;
     "reviewNotes" := JStr "confirmed"; "symptoms" := JNull;
     "testDate" := JDate t0; "createdAt" := JDate t0 ]}.

Definition notification (id status : string) (sentAt : JsVal) (retries : Z)
  : Row :=
  {[ "id" := JStr id; "userId" := JStr "u-worker";
     "diagnosticId" := JStr "d-1"; "type" := JStr "sms";
     "recipient" := JStr "+26771234567"; "subject" := JNull;
     "message" := JStr "Malaria test result: POSITIVE.";
     "status" := JStr status; "priority" := JStr "urgent";
     "sentAt" := sentAt; "errorMessage" := JNull;
     "retryCount" := JNum retries; "createdAt" := JDate t0 ]}.

(** A notification that was delivered, and one whose count of failed
    attempts has reached the largest value of its column. *)
Definition sent_notification : Row := notification "n-1" "sent" (JDate t0) 0.
Definition worn_notification : Row :=
  notification "n-2" "failed" JNull Pg.INT4_MAX.

(** A reset token issued to the health worker at [t0], not used yet. *)
Definition reset_token : Row :=
  {[ "id" := JStr "t-1"; "userId" := JStr "u-worker";
     "token" := JStr "reset-1"; "expiresAt" := JDate (t0 + 3600000);
     "usedAt" := JNull; "createdAt" := JDate t0 ]}.

Definition db : Db :=
  mkDb [admin; worker] [patient] [verified_diagnostic]
       [sent_notification; worn_notification] [reset_token].

(** One minute after [t0]. *)
Definition amb : Ambient := mkAmbient (t0 + 60000) "uuid-1" "nano-1" "salt".

Definition admin_token : string := sign admin_payload "test-secret".
Definition worker_token : string := sign worker_payload "test-secret".

Definition request (token : option string) (id : string) (body : Obj)
  : Request :=
  mkRequest ((fun t => "Bearer " +:+ t) <$> token) body id None None.

(** Stand-ins for the ordering and the limit of PostgreSQL: a merge sort, and
    a limit that refuses a negative count. *)
Definition postgres : Postgres :=
  {| order_desc := fun k l =>
       @merge_sort _ (fun r1 r2 => before_desc k r1 r2 = true)
         (fun r1 r2 => decide (before_desc k r1 r2 = true)) l;
     limit_rows := fun n l =>
       if bool_decide (0 ≤ n ≤ INT8_MAX) then Ok (take (Z.to_nat n) l)
       else Throw (PgError "invalid_row_count_in_limit_clause") |}.

(** A development host, and a host with the credentials of S3. *)
Definition env_dev : Env :=
  {[ "JWT_SECRET" := "test-secret"; "NODE_ENV" := "development" ]}.

Definition env_s3 : Env :=
  {[ "JWT_SECRET" := "test-secret"; "NODE_ENV" := "production";
     "AWS_ACCESS_KEY_ID" := "AKIAEXAMPLE";
     "AWS_SECRET_ACCESS_KEY" := "example-secret" ]}.

(** A store with the two identities and no record of theirs. *)
Definition staff : Db := mkDb [admin; worker] [] [] [] [].

End Sample.

(** ** Facts about the schemas and the store *)

Section Facts.

Context `{Libraries}.

Lemma bind_Ok {A B} (m : Result A) (k : A -> Result B) (b : B) :
  m ≫= k = Ok b ↔ ∃ a, m = Ok a ∧ k a = Ok b.
Proof.
  destruct m as [a|e]; simpl; split.
  - intros Hk. by exists a.
  - by intros (a' & [= ->] & Hk).
  - discriminate.
  - by intros (a' & [=] & _).
Qed.

Lemma parse_dom ie ti (s : Zod.Schema) (o r : Obj) (k : string) :
  Zod.parse ie ti s o = Ok r → is_Some (r !! k) → k ∈ s.*1.
Proof.
  revert r. induction s as [|[k0 f0] s IH]; intros r; simpl.
  - intros [= <-]. rewrite lookup_empty. by intros [? [=]].
  - destruct (Zod.parse_field ie ti f0 (o !! k0)) as [[v|]|]; [| |done].
    + intros (r' & Hr' & [= <-])%bind_Ok Hk.
      destruct (decide (k0 = k)) as [->|Hne]; [set_solver|].
      rewrite lookup_insert_ne in Hk by done. set_solver.
    + intros Hr Hk. set_solver.
Qed.

Lemma parse_stripped ie ti (s : Zod.Schema) (o r : Obj) (k : string) :
  Zod.parse ie ti s o = Ok r → k ∉ s.*1 → r !! k = None.
Proof.
  intros Hr Hk. destruct (r !! k) eqn:E; [|done].
  destruct Hk. eapply parse_dom; eauto.
Qed.

Lemma parse_lookup ie ti (s : Zod.Schema) (o r : Obj) k f :
  NoDup s.*1 → (k, f) ∈ s → Zod.parse ie ti s o = Ok r →
  Zod.parse_field ie ti f (o !! k) = Some (r !! k).
Proof.
  revert r. induction s as [|[k0 f0] s IH]; intros r Hnd Hin; simpl.
  { by apply elem_of_nil in Hin. }
  apply NoDup_cons in Hnd as [Hk0 Hnd]. simpl in Hk0.
  apply elem_of_cons in Hin as [[= -> ->]|Hin].
  - destruct (Zod.parse_field ie ti f0 (o !! k0)) as [[v|]|]; [| |done].
    + intros (r' & Hr' & [= <-])%bind_Ok. by rewrite lookup_insert_eq.
    + intros Hr. by rewrite (parse_stripped _ _ _ _ _ _ Hr Hk0).
  - assert (k ≠ k0) as Hne.
    { intros ->. apply Hk0. apply list_elem_of_fmap. by exists (k0, f). }
    destruct (Zod.parse_field ie ti f0 (o !! k0)) as [[v|]|]; [| |done].
    + intros (r' & Hr' & [= <-])%bind_Ok. rewrite lookup_insert_ne by done.
      by apply IH.
    + intros Hr. by apply IH.
Qed.

(** *** Lists *)

Lemma mapM_Ok {A B} (f : A -> Result B) (l : list A) (k : list B) :
  mapM f l = Ok k ↔ Forall2 (fun x y => f x = Ok y) l k.
Proof.
  revert k. induction l as [|x l IH]; intros k; simpl.
  - split; [intros [= <-]; constructor | by inversion 1].
  - split.
    + intros (y & Hy & (k' & Hk' & [= <-])%bind_Ok)%bind_Ok.
      constructor; [done | by apply IH].
    + inversion 1 as [|? y ? k' Hy Hk']; subst.
      apply bind_Ok. exists y. split; [done|].
      apply bind_Ok. exists k'. split; [by apply IH | done].
Qed.

Lemma head_filter_Forall2 {A} (R : A -> A -> Prop) (p q : A -> bool)
  (l k : list A) :
  Forall2 R l k → (∀ a b, R a b → p a = q b) →
  match head (filter (fun a => p a) l) with
  | Some a => ∃ b, head (filter (fun b => q b) k) = Some b ∧ R a b
  | None => head (filter (fun b => q b) k) = None
  end.
Proof.
  intros HR Hpq. induction HR as [|a b l k Hab HR IH]; [done|].
  rewrite !filter_cons. rewrite <- (Hpq a b Hab).
  destruct (p a); simpl; [by exists b | apply IH].
Qed.

(** *** Tables *)

Lemma rows_set_rows t l db : rows t (set_rows t l db) = l.
Proof. by destruct t. Qed.

Lemma rows_set_rows_ne t t' l db :
  t ≠ t' → rows t' (set_rows t l db) = rows t' db.
Proof. by destruct t, t'. Qed.

Lemma set_rows_rows t db : set_rows t (rows t db) db = db.
Proof. by destruct t, db. Qed.

Lemma columns_NoDup t : NoDup (Pg.name <$> Schema.columns t).
Proof. destruct t; apply (bool_decide_unpack _); by vm_compute. Qed.

(** *** Stored values *)

Lemma store_value_idem c x v : store_value c x = Ok v → store_value c v = Ok v.
Proof.
  unfold store_value.
  destruct x, (Pg.type c), (Pg.notNull c); intros Hx; simplify_eq; try done;
    repeat case_bool_decide; simplify_eq; simpl; try done;
    by rewrite bool_decide_true.
Qed.

Lemma store_value_text c s :
  Pg.type c = Pg.PgText ∨ Pg.type c = Pg.PgVarchar →
  store_value c (JStr s) = Ok (JStr s).
Proof. unfold store_value. by intros [-> | ->]. Qed.

Lemma store_value_date c t :
  Pg.type c = Pg.PgTimestamp → store_value c (JDate t) = Ok (JDate t).
Proof. unfold store_value. by intros ->. Qed.

Lemma store_value_null c :
  Pg.notNull c = false → store_value c JNull = Ok JNull.
Proof. unfold store_value. by intros ->. Qed.

(** *** Selection *)

Lemma matches_spec k v (r : Row) :
  matches k v r = true ↔ v ≠ JNull ∧ r !! k = Some v.
Proof. unfold matches. by rewrite bool_decide_eq_true. Qed.

Lemma head_select_elem t k v db r :
  head (select_where t k v db) = Some r →
  r ∈ rows t db ∧ r !! k = Some v ∧ v ≠ JNull.
Proof.
  intros Hh. apply head_Some_elem_of in Hh.
  apply list_elem_of_filter in Hh as [Hm Hin].
  apply Is_true_true, matches_spec in Hm. tauto.
Qed.

(** *** Insertion *)

Lemma insert_row_dom amb t db cols o r k :
  insert_row amb t db cols o = Ok r → is_Some (r !! k) → k ∈ Pg.name <$> cols.
Proof.
  revert r. induction cols as [|c cs IH]; intros r; simpl.
  - intros [= <-]. rewrite lookup_empty. by intros [? [=]].
  - intros (v & _ & (_ & _ & (_ & _ & (r' & Hr' & [= <-])%bind_Ok)%bind_Ok)
              %bind_Ok)%bind_Ok Hk.
    destruct (decide (Pg.name c = k)) as [->|Hne]; [set_solver|].
    rewrite lookup_insert_ne in Hk by done. set_solver.
Qed.

Lemma insert_row_lookup amb t db cols o r c :
  NoDup (Pg.name <$> cols) → c ∈ cols →
  insert_row amb t db cols o = Ok r →
  ∃ v, store_value c (insert_value amb c o) = Ok v
       ∧ check_unique t db c v = Ok ()
       ∧ check_reference db c v = Ok ()
       ∧ r !! Pg.name c = Some v.
Proof.
  revert r. induction cols as [|c0 cs IH]; intros r Hnd Hin; simpl.
  { by apply elem_of_nil in Hin. }
  rewrite fmap_cons in Hnd. apply NoDup_cons in Hnd as [Hc0 Hnd].
  intros (v & Hv & ([] & Hu & ([] & Hf & (r' & Hr' & [= <-])%bind_Ok)%bind_Ok)
            %bind_Ok)%bind_Ok.
  apply elem_of_cons in Hin as [->|Hin].
  - exists v. by rewrite lookup_insert_eq.
  - destruct (IH r' Hnd Hin Hr') as (v' & ? & ? & ? & ?).
    exists v'. rewrite lookup_insert_ne; [done|].
    intros Heq. apply Hc0. rewrite Heq. apply list_elem_of_fmap. by exists c.
Qed.

(** An inserted row conforms to its table. *)
Lemma insert_row_ok amb t db o r :
  insert_row amb t db (Schema.columns t) o = Ok r → row_ok t r = true.
Proof.
  intros Hr. apply forallb_forall. intros c Hc%list_elem_of_In.
  destruct (insert_row_lookup _ _ _ _ _ _ c (columns_NoDup t) Hc Hr)
    as (v & Hv & _ & _ & Hl).
  unfold column_ok. rewrite Hl. apply bool_decide_eq_true.
  by eapply store_value_idem.
Qed.

Lemma insert_Ok amb t o db r db' :
  insert amb t o db = Ok (r, db') ↔
  insert_row amb t db (Schema.columns t) o = Ok r
  ∧ db' = set_rows t (rows t db ++ [r]) db.
Proof.
  unfold insert. rewrite bind_Ok. split.
  - by intros (r' & Hr' & [= <- <-]).
  - intros [Hr ->]. by exists r.
Qed.

(** *** Conformance, column by column *)

Lemma row_ok_column t r c :
  row_ok t r = true → c ∈ Schema.columns t →
  ∃ v, r !! Pg.name c = Some v ∧ store_value c v = Ok v.
Proof.
  intros Hr Hc. unfold row_ok in Hr. rewrite forallb_forall in Hr.
  specialize (Hr c (proj1 (list_elem_of_In _ _) Hc)). unfold column_ok in Hr.
  destruct (r !! Pg.name c) as [v|]; [|done].
  exists v. split; [done|]. by apply bool_decide_eq_true in Hr.
Qed.

(** *** Update *)

Lemma update_row_other db cols set old r k :
  update_row db cols set old = Ok r → set !! k = None → r !! k = old !! k.
Proof.
  revert r. induction cols as [|c cs IH]; intros r; simpl.
  - by intros [= <-].
  - intros (r' & Hr' & Hc)%bind_Ok Hk.
    destruct (set !! Pg.name c) as [f|] eqn:Hf.
    + apply bind_Ok in Hc as (v & _ & (_ & _ & [= <-])%bind_Ok).
      rewrite lookup_insert_ne; [by apply IH | congruence].
    + injection Hc as <-. by apply IH.
Qed.

Lemma update_row_written db cols set old r c f :
  NoDup (Pg.name <$> cols) → c ∈ cols → set !! Pg.name c = Some f →
  update_row db cols set old = Ok r →
  ∃ v, store_value c (f old) = Ok v ∧ check_reference db c v = Ok ()
       ∧ r !! Pg.name c = Some v.
Proof.
  revert r. induction cols as [|c0 cs IH]; intros r Hnd Hin Hf; simpl.
  { by apply elem_of_nil in Hin. }
  rewrite fmap_cons in Hnd. apply NoDup_cons in Hnd as [Hc0 Hnd].
  intros (r' & Hr' & Hc)%bind_Ok.
  apply elem_of_cons in Hin as [->|Hin].
  - rewrite Hf in Hc.
    apply bind_Ok in Hc as (v & Hv & ([] & Hfk & [= <-])%bind_Ok).
    exists v. by rewrite lookup_insert_eq.
  - destruct (IH r' Hnd Hin Hf Hr') as (v & Hv & Hfk & Hl).
    exists v. split_and!; [done..|].
    assert (Pg.name c0 ≠ Pg.name c) as Hne.
    { intros Heq. apply Hc0. rewrite Heq. apply list_elem_of_fmap.
      by exists c. }
    destruct (set !! Pg.name c0) as [f0|].
    + apply bind_Ok in Hc as (v0 & _ & (_ & _ & [= <-])%bind_Ok).
      by rewrite lookup_insert_ne.
    + by injection Hc as <-.
Qed.

(** An update succeeds when each written column accepts its new value. *)
Lemma update_row_succeeds db cols set old :
  (∀ c f, c ∈ cols → set !! Pg.name c = Some f →
          ∃ v, store_value c (f old) = Ok v ∧ check_reference db c v = Ok ()) →
  ∃ r, update_row db cols set old = Ok r.
Proof.
  induction cols as [|c cs IH]; intros Hset; simpl; [by eexists|].
  destruct IH as [r' Hr'].
  { intros c' f Hc' Hf. apply Hset; [set_solver | done]. }
  rewrite Hr'. simpl.
  destruct (set !! Pg.name c) as [f|] eqn:Hf; [|by eexists].
  destruct (Hset c f) as (v & Hv & Hfk); [set_solver | done |].
  rewrite Hv. simpl. rewrite Hfk. simpl. by eexists.
Qed.

Lemma update_row_matches db cols set old r k v :
  update_row db cols set old = Ok r → set !! k = None →
  matches k v r = matches k v old.
Proof.
  intros Hr Hk. unfold matches. by rewrite (update_row_other _ _ _ _ _ _ Hr Hk).
Qed.

Lemma update_where_Ok t k v set db rs db' :
  update_where t k v set db = Ok (rs, db') ↔
  ∃ l, Forall2 (updated t k v set db) (rows t db) l
       ∧ rs = filter (fun r => matches k v r) l
       ∧ db' = set_rows t l db.
Proof.
  unfold update_where. rewrite bind_Ok. split.
  - intros (l & Hl & [= <- <-]). exists l. split; [|done].
    apply mapM_Ok in Hl. eapply Forall2_impl; [done|].
    intros old new. unfold updated. destruct (matches k v old); congruence.
  - intros (l & Hl & -> & ->). exists l. split; [|done].
    apply mapM_Ok. eapply Forall2_impl; [done|].
    intros old new. unfold updated. destruct (matches k v old); congruence.
Qed.

(** The first row an update returns is the first selected row, updated. *)
Lemma update_where_head t k v set db rs db' :
  set !! k = None →
  update_where t k v set db = Ok (rs, db') →
  match head (select_where t k v db) with
  | Some old =>
      ∃ new, head rs = Some new
             ∧ update_row db (Schema.columns t) set old = Ok new
  | None => head rs = None ∧ db' = db
  end.
Proof.
  intros Hk (l & Hl & -> & ->)%update_where_Ok.
  pose proof (head_filter_Forall2 (updated t k v set db)
                (matches k v) (matches k v) _ _ Hl) as Hh.
  unfold select_where.
  destruct (head (filter (λ r, matches k v r) (rows t db))) as [old|] eqn:Ho.
  - destruct Hh as (new & Hn & Hu).
    { intros a b. unfold updated. destruct (matches k v a) eqn:Ha.
      - intros Hb. by rewrite (update_row_matches _ _ _ _ _ _ _ Hb Hk).
      - by intros ->. }
    exists new. split; [done|]. unfold updated in Hu.
    apply head_Some_elem_of, list_elem_of_filter in Ho as [Hm _].
    apply Is_true_true in Hm. by rewrite Hm in Hu.
  - split.
    + apply Hh. intros a b. unfold updated. destruct (matches k v a) eqn:Ha.
      * intros Hb. by rewrite (update_row_matches _ _ _ _ _ _ _ Hb Hk).
      * by intros ->.
    + assert (l = rows t db) as ->; [|apply set_rows_rows].
      apply head_None in Ho.
      clear Hh. induction Hl as [|a b l1 l2 Hab Hl IH]; [done|].
      rewrite filter_cons in Ho. unfold updated in Hab.
      destruct (matches k v a) eqn:Ha; simpl in Ho; [done|].
      subst b. f_equal. by apply IH.
Qed.

(** *** Notifications: the status update *)

Lemma lit_lookup (o : Obj) k : lit o !! k = (fun v (_ : Row) => v) <$> o !! k.
Proof. apply lookup_fmap. Qed.

(** What a status update does to the retry count of a row it selects: the
    count was a number, and the new count is that number, plus one exactly
    when the new status is 'failed'. *)
Lemma update_row_retryCount amb db (status : JsVal) (em : option JsVal)
  (old new : Row) :
  update_row db Schema.notifications (statusSet amb status em) old = Ok new →
  ∃ k, old !! "retryCount" = Some (JNum k)
       ∧ new !! "retryCount"
         = Some (JNum (if bool_decide (status = JStr "failed")
                       then k + 1 else k))
       ∧ (if bool_decide (status = JStr "failed") then k + 1 else k)
         ≤ Pg.INT4_MAX.
Proof.
  intros Hu.
  set (c := Pg.with_default (Pg.DefaultLit (JNum 0))
              (Pg.with_notNull (Pg.col "retryCount" Pg.PgInteger))).
  assert (c ∈ Schema.notifications) as Hc
    by (apply (bool_decide_unpack _); by vm_compute).
  destruct (update_row_written _ _ _ _ _ c _
              (columns_NoDup Pg.Notifications) Hc (lookup_insert_eq _ _ _) Hu)
    as (v & Hv & _ & Hl).
  simpl in Hl. rewrite Hl. clear Hl.
  unfold store_value, retry_count_plus_1, retry_count in Hv. simpl in Hv.
  case_bool_decide; destruct (old !! "retryCount") as [[]|];
    simplify_eq; simpl in Hv; try done.
  all: case_bool_decide; simplify_eq.
  all: eexists; split_and!; [done | done | lia].
Qed.

(** A closed fact with a decision procedure, by running the procedure. *)
Ltac by_deciding := apply (bool_decide_unpack _); vm_compute; exact I.

Ltac columns_cases Hc :=
  repeat (apply elem_of_cons in Hc as [->|Hc]); [..|by apply elem_of_nil in Hc].

(** The text PostgreSQL stores for a value that is not NULL. *)
Lemma store_value_text_any c v :
  Pg.type c = Pg.PgText ∨ Pg.type c = Pg.PgVarchar → v ≠ JNull →
  ∃ s, store_value c v = Ok (JStr s) ∧ (∀ s', v = JStr s' → s = s').
Proof.
  unfold store_value. intros [-> | ->] Hv; destruct v; try done;
    eexists; (split; [done|]); by intros ? [=].
Qed.

Lemma js_or_null_text c v :
  Pg.type c = Pg.PgText → Pg.notNull c = false →
  ∃ w, store_value c (js_or v JNull) = Ok w.
Proof.
  intros Ht Hn. unfold js_or.
  destruct v as [v|]; [destruct (truthy (Some v)); destruct v|];
    unfold store_value; rewrite ?Ht, ?Hn; by eexists.
Qed.

(** A status update of a conforming row succeeds unless it would push the
    count past the range of the column. *)
Lemma status_update_succeeds amb db status em (old : Row) k :
  status ≠ JNull →
  old !! "retryCount" = Some (JNum k) →
  Pg.INT4_MIN ≤ k →
  (if bool_decide (status = JStr "failed") then k + 1 else k) ≤ Pg.INT4_MAX →
  ∃ new, update_row db Schema.notifications (statusSet amb status em) old
         = Ok new.
Proof.
  intros Hs Hk Hlo Hhi. apply update_row_succeeds. intros c f Hc Hf.
  unfold Schema.notifications in Hc. columns_cases Hc; simpl in Hf;
    unfold statusSet, lit in Hf; simplify_map_eq.
  - destruct status; try done; by eexists.
  - destruct (bool_decide (status = JStr "sent")); by eexists.
  - destruct (js_or_null_text (Pg.col "errorMessage" Pg.PgText) em)
      as [w Hw]; [done..|].
    by exists w.
  - unfold store_value. simpl.
    destruct (bool_decide (status = JStr "failed"));
      unfold retry_count_plus_1, retry_count; rewrite Hk;
      simpl; (rewrite bool_decide_true; [by eexists | lia]).
Qed.

Lemma update_where_select t k v set db rs db' :
  update_where t k v set db = Ok (rs, db') → select_where t k v db' = rs.
Proof.
  intros (l & _ & -> & ->)%update_where_Ok. unfold select_where.
  by rewrite rows_set_rows.
Qed.

Lemma update_where_rows t k v set db rs db' :
  update_where t k v set db = Ok (rs, db') →
  Forall2 (updated t k v set db) (rows t db) (rows t db').
Proof.
  intros (l & Hl & -> & ->)%update_where_Ok. by rewrite rows_set_rows.
Qed.

(** An update whose selected rows all accept their new values succeeds. *)
Lemma update_where_succeeds t k v set db :
  (∀ old, old ∈ rows t db → matches k v old = true →
          ∃ new, update_row db (Schema.columns t) set old = Ok new) →
  ∃ rs db', update_where t k v set db = Ok (rs, db').
Proof.
  intros Hall.
  assert (∃ l, Forall2 (updated t k v set db) (rows t db) l) as [l Hl].
  { induction (rows t db) as [|old l IH]; [by exists []|].
    destruct IH as [l' Hl'].
    { intros o Ho. apply Hall. set_solver. }
    unfold updated at 1. destruct (matches k v old) eqn:Hm.
    - destruct (Hall old) as [new Hnew]; [set_solver | done |].
      exists (new :: l'). constructor; [|done]. unfold updated. by rewrite Hm.
    - exists (old :: l'). constructor; [|done]. unfold updated. by rewrite Hm. }
  do 2 eexists. apply update_where_Ok. by exists l.
Qed.

(** The rows an update selects, before and after. *)
Lemma update_where_selected t k v set db rs db' :
  set !! k = None →
  update_where t k v set db = Ok (rs, db') →
  select_where t k v db' = rs
  ∧ Forall2 (fun old new => update_row db (Schema.columns t) set old = Ok new)
      (select_where t k v db) rs.
Proof.
  intros Hk Hu. split; [by eapply update_where_select|].
  apply update_where_Ok in Hu as (l & Hl & -> & ->). unfold select_where.
  induction Hl as [|a b l1 l2 Hab Hl IH]; [constructor|].
  rewrite !filter_cons. unfold updated in Hab.
  destruct (matches k v a) eqn:Ha.
  - rewrite (update_row_matches _ _ _ _ _ _ _ Hab Hk), Ha. simpl.
    by constructor.
  - subst b. by rewrite Ha.
Qed.

(** With a key that selects one row, an update that the row accepts changes
    that row and returns it. *)
Lemma update_where_one t k v set db old :
  set !! k = None →
  select_where t k v db = [old] →
  match update_where t k v set db with
  | Ok (rs, db') =>
      ∃ new, rs = [new] ∧ select_where t k v db' = [new]
             ∧ update_row db (Schema.columns t) set old = Ok new
  | Throw e =>
      ∃ e', update_row db (Schema.columns t) set old = Throw e'
  end.
Proof.
  intros Hk Hsel.
  destruct (update_where t k v set db) as [[rs db']|e] eqn:Hu.
  - destruct (update_where_selected _ _ _ _ _ _ _ Hk Hu) as [Hs HF].
    rewrite Hsel in HF. inversion HF as [|? new ? ? Hnew Hnil]; subst.
    inversion Hnil; subst. by exists new.
  - destruct (update_row db (Schema.columns t) set old) as [new|e'] eqn:Ho;
      [|by eexists].
    destruct (update_where_succeeds t k v set db) as (rs & db' & Hu').
    { intros o Ho' Hm. assert (o ∈ select_where t k v db) as Hin.
      { apply list_elem_of_filter. split; [by apply Is_true_true | done]. }
      rewrite Hsel in Hin. apply list_elem_of_singleton in Hin as ->.
      by exists new. }
    congruence.
Qed.

(** *** Middleware *)

Lemma authMiddleware_next env amb req req' :
  authMiddleware env amb req = inr req' →
  ∃ decoded, req' = with_user decoded req.
Proof.
  unfold authMiddleware. intros Hr. repeat case_match; simplify_eq. by eexists.
Qed.

Lemma authenticated_next env amb h req req' db :
  authMiddleware env amb req = inr req' →
  authenticated env amb h req db = h req' db.
Proof. unfold authenticated. by intros ->. Qed.

Lemma authenticated_stop env amb h req res db :
  authMiddleware env amb req = inl res →
  authenticated env amb h req db = (res, db).
Proof. unfold authenticated. by intros ->. Qed.

(** *** Notifications: no status update lowers a retry count *)

Lemma status_update_monotone amb id status em db rs db' :
  update_where Pg.Notifications "id" id (statusSet amb status em) db
  = Ok (rs, db') →
  Forall2 (fun n n' => retryCount_of n ≤ retryCount_of n')
    (t_notifications db) (t_notifications db').
Proof.
  intros Hu%update_where_rows. simpl in Hu.
  eapply Forall2_impl; [done|]. intros old new. unfold updated.
  destruct (matches "id" id old); [|by intros ->].
  intros (k & Ho & Hn & _)%update_row_retryCount.
  unfold retryCount_of. rewrite Ho, Hn. case_bool_decide; lia.
Qed.

Lemma Forall2_le_refl (l : list Row) :
  Forall2 (fun n n' => retryCount_of n ≤ retryCount_of n') l l.
Proof. induction l; constructor; [lia | done]. Qed.

Lemma updateNotificationStatus_Ok amb id status em db found db' :
  updateNotificationStatus amb id status em db = Ok (found, db') ↔
  ∃ rs, update_where Pg.Notifications "id" id (statusSet amb status em) db
        = Ok (rs, db') ∧ found = head rs.
Proof.
  unfold updateNotificationStatus. rewrite bind_Ok. split.
  - intros ([rs db''] & Hu & [= <- <-]). by exists rs.
  - intros (rs & Hu & ->). by exists (rs, db').
Qed.

(** The handler of PUT /api/notifications/:id/status, once the request is
    authenticated. *)
Lemma update_notification_status_run env amb req req' db :
  authMiddleware env amb req = inr req' →
  update_notification_status env amb req db =
  if negb (truthy (body req !! "status"))
  then (failure amb 400 "MISSING_STATUS" "Status is required", db)
  else
    match updateNotificationStatus amb (JStr (params_id req))
            (prop_of (body req !! "status")) (body req !! "errorMessage") db
    with
    | Ok (Some n, db') => (Success 200 (DataRow n) (now amb), db')
    | Ok (None, db') =>
        (failure amb 404 "NOTIFICATION_NOT_FOUND" "Notification not found",
         db')
    | Throw e =>
        (failure amb 400 "VALIDATION_ERROR"
           (message_or e "Invalid request data"), db)
    end.
Proof.
  intros Ha. unfold update_notification_status.
  rewrite (authenticated_next _ _ _ _ _ _ Ha).
  destruct (authMiddleware_next _ _ _ _ Ha) as [decoded ->]. simpl.
  unfold catch_400. destruct (truthy (body req !! "status")); simpl; [|done].
  unfold mbind, Handler_bind, exec.
  destruct (updateNotificationStatus _ _ _ _ _) as [[[n|] db']|e]; done.
Qed.

Lemma update_notification_status_monotone env amb req db :
  Forall2 (fun n n' => retryCount_of n ≤ retryCount_of n')
    (t_notifications db)
    (t_notifications (update_notification_status env amb req db).2).
Proof.
  destruct (authMiddleware env amb req) as [res|req'] eqn:Ha.
  - unfold update_notification_status.
    rewrite (authenticated_stop _ _ _ _ _ _ Ha). apply Forall2_le_refl.
  - rewrite (update_notification_status_run _ _ _ _ _ Ha).
    destruct (negb _); [apply Forall2_le_refl|].
    destruct (updateNotificationStatus _ _ _ _ _) as [[found db']|e] eqn:Hu.
    + apply updateNotificationStatus_Ok in Hu as (rs & Hu & ->).
      apply status_update_monotone in Hu. by destruct (head rs).
    + apply Forall2_le_refl.
Qed.

Lemma statusSet_id amb status em : statusSet amb status em !! "id" = None.
Proof. unfold statusSet, lit. by simplify_map_eq. Qed.

(** The retry count of a conforming notification is a number in the range
    of the column. *)
Lemma retryCount_conforming n :
  row_ok Pg.Notifications n = true →
  n !! "retryCount" = Some (JNum (retryCount_of n))
  ∧ Pg.INT4_MIN ≤ retryCount_of n ≤ Pg.INT4_MAX.
Proof.
  intros Hok.
  destruct (row_ok_column _ _
              (Pg.with_default (Pg.DefaultLit (JNum 0))
                 (Pg.with_notNull (Pg.col "retryCount" Pg.PgInteger)))
              Hok) as (v & Hv & Hst).
  { apply (bool_decide_unpack _). by vm_compute. }
  simpl in Hv. unfold store_value in Hst. simpl in Hst.
  destruct v; try done. case_bool_decide as Hrange; [|done].
  unfold retryCount_of. by rewrite Hv.
Qed.

(** The update of the notification a request selects. *)
Lemma update_notification_status_found env amb req req' db n status :
  authMiddleware env amb req = inr req' →
  body req !! "status" = Some status →
  truthy (Some status) = true →
  select_where Pg.Notifications "id" (JStr (params_id req)) db = [n] →
  row_ok Pg.Notifications n = true →
  (status = JStr "failed" → retryCount_of n < Pg.INT4_MAX) →
  ∃ n' db',
    update_notification_status env amb req db
    = (Success 200 (DataRow n') (now amb), db')
    ∧ update_row db Schema.notifications
        (statusSet amb status (body req !! "errorMessage")) n = Ok n'
    ∧ select_where Pg.Notifications "id" (JStr (params_id req)) db' = [n'].
Proof.
  intros Ha Hs Ht Hn Hok Hmax.
  rewrite (update_notification_status_run _ _ _ _ _ Ha), Hs, Ht.
  cbn [negb prop_of].
  destruct (retryCount_conforming _ Hok) as [Hc Hrange].
  destruct (status_update_succeeds amb db status (body req !! "errorMessage")
              n (retryCount_of n)) as [n' Hn']; [|done|lia|..].
  { intros ->. done. }
  { case_bool_decide; [|lia]. specialize (Hmax ltac:(done)). lia. }
  pose proof (update_where_one Pg.Notifications "id" (JStr (params_id req))
                (statusSet amb status (body req !! "errorMessage")) db n
                (statusSet_id _ _ _) Hn) as Hone.
  change (Schema.columns Pg.Notifications) with Schema.notifications in Hone.
  unfold updateNotificationStatus.
  destruct (update_where _ _ _ _ _) as [[rs db']|e].
  - destruct Hone as (new & -> & Hsel & Hnew).
    cbn [mbind Result_bind head]. by exists new, db'.
  - destruct Hone as [e' He']. congruence.
Qed.

(** A 'failed' update of a row whose count is at the top of the range is
    refused. *)
Lemma status_update_refused amb db em (old : Row) :
  old !! "retryCount" = Some (JNum Pg.INT4_MAX) →
  ∃ e, update_row db Schema.notifications
         (statusSet amb (JStr "failed") em) old = Throw e.
Proof.
  intros Hk.
  destruct (update_row _ _ _ _) as [new|e] eqn:Hu; [|by eexists].
  apply update_row_retryCount in Hu as (k & Hk' & _ & Hle).
  rewrite Hk in Hk'. injection Hk' as <-.
  rewrite bool_decide_true in Hle by done. unfold Pg.INT4_MAX in Hle. lia.
Qed.

(** *** Notifications: creation *)

(** A property that the schema does not name is absent from what [parse]
    returns. *)
Ltac stripped Hp :=
  symmetry + idtac;
  eapply parse_stripped;
  [exact Hp | apply (bool_decide_unpack _); by vm_compute].

Lemma catch_400_Ok amb (h : Handler Response) db res db' :
  h db = (Ok res, db') → catch_400 amb h db = (res, db').
Proof. unfold catch_400. by intros ->. Qed.

(** What POST /api/notifications/send leaves: an error and the store as it
    was, or the stored row, which is pending, never sent, with no failed
    attempt, whatever the body of the request says. *)
Lemma send_notification_created env amb req db :
  match send_notification env amb req db with
  | (Success s (DataRow n) ts, db') =>
      s = 201
      ∧ n !! "status" = Some (JStr "pending")
      ∧ n !! "sentAt" = Some JNull
      ∧ n !! "retryCount" = Some (JNum 0)
      ∧ t_notifications db' = t_notifications db ++ [n]
  | (Success _ _ _, _) => False
  | (Failure _ _ _ _, db') => db' = db
  end.
Proof.
  unfold send_notification, authenticated.
  destruct (authMiddleware env amb req) as [res|req'] eqn:Ha.
  { unfold authMiddleware in Ha. repeat case_match; by simplify_eq. }
  unfold catch_400, mbind, Handler_bind, pure, exec, createNotification.
  destruct (parse _ _) as [data|e] eqn:Hp; [|done].
  destruct (insert _ _ _ _) as [[n db']|e] eqn:Hi; [|done]. simpl.
  apply insert_Ok in Hi as [Hrow ->].
  assert (∀ c, c ∈ Schema.notifications → data !! Pg.name c = None →
               ∃ v, store_value c (insert_value amb c data) = Ok v
                    ∧ n !! Pg.name c = Some v) as Hcol.
  { intros c Hc _.
    destruct (insert_row_lookup _ _ _ _ _ _ c
                (columns_NoDup Pg.Notifications) Hc Hrow)
      as (v & Hv & _ & _ & Hl).
    by exists v. }
  split; [done|]. split_and!.
  - destruct (Hcol (Pg.with_default (Pg.DefaultLit (JStr "pending"))
                      (Pg.with_notNull (Pg.col "status" Pg.PgText))))
      as (v & Hv & Hl);
      [apply (bool_decide_unpack _); by vm_compute | by stripped Hp |].
    unfold insert_value in Hv. simpl in Hv, Hl.
    replace (data !! "status") with (@None JsVal) in Hv by (by stripped Hp).
    by injection Hv as <-.
  - destruct (Hcol (Pg.col "sentAt" Pg.PgTimestamp)) as (v & Hv & Hl);
      [apply (bool_decide_unpack _); by vm_compute | by stripped Hp |].
    unfold insert_value in Hv. simpl in Hv, Hl.
    replace (data !! "sentAt") with (@None JsVal) in Hv by (by stripped Hp).
    by injection Hv as <-.
  - destruct (Hcol (Pg.with_default (Pg.DefaultLit (JNum 0))
                      (Pg.with_notNull (Pg.col "retryCount" Pg.PgInteger))))
      as (v & Hv & Hl);
      [apply (bool_decide_unpack _); by vm_compute | by stripped Hp |].
    unfold insert_value in Hv. simpl in Hv, Hl.
    replace (data !! "retryCount") with (@None JsVal) in Hv
      by (by stripped Hp).
    by injection Hv as <-.
  - done.
Qed.

Lemma statusSet_status amb status em :
  statusSet amb status em !! "status" = Some (fun _ => status).
Proof.
  unfold statusSet. rewrite lookup_insert_ne by done.
  rewrite lit_lookup. by rewrite lookup_insert_eq.
Qed.

Lemma statusSet_sentAt amb status em :
  statusSet amb status em !! "sentAt"
  = Some (fun _ => if bool_decide (status = JStr "sent")
                   then JDate (now amb) else JNull).
Proof.
  unfold statusSet. rewrite lookup_insert_ne by done.
  rewrite lit_lookup. rewrite lookup_insert_ne by done.
  by rewrite lookup_insert_eq.
Qed.

(** *** Claims about notifications *)

(** C6, as amended.  The retry count of a notification is 0 when the
    notification is created, whatever the request carries; no status update
    lowers the count of any notification; and the update of the notification
    a request selects adds exactly 1 when the new status is 'failed' and the
    count is below 2147483647, leaves the count as it is for any other
    status, and is refused, leaving the store as it was, when the new status
    is 'failed' and the count is 2147483647. *)
Theorem retry_count_bookkeeping env amb :
  (∀ req db n ts db',
     send_notification env amb req db = (Success 201 (DataRow n) ts, db') →
     n !! "retryCount" = Some (JNum 0))
  ∧ (∀ req db,
       Forall2 (fun n n' => retryCount_of n ≤ retryCount_of n')
         (t_notifications db)
         (t_notifications (update_notification_status env amb req db).2))
  ∧ (∀ req req' db n status,
       authMiddleware env amb req = inr req' →
       body req !! "status" = Some status →
       truthy (Some status) = true →
       select_where Pg.Notifications "id" (JStr (params_id req)) db = [n] →
       row_ok Pg.Notifications n = true →
       let out := update_notification_status env amb req db in
       if bool_decide (status = JStr "failed"
                       ∧ retryCount_of n = Pg.INT4_MAX)
       then res_status out.1 = 400 ∧ out.2 = db
       else ∃ n', out.1 = Success 200 (DataRow n') (now amb)
                  ∧ select_where Pg.Notifications "id"
                      (JStr (params_id req)) out.2 = [n']
                  ∧ retryCount_of n'
                    = retryCount_of n
                      + (if bool_decide (status = JStr "failed")
                         then 1 else 0)).
Proof.
  split_and!.
  - intros req db n ts db' Hs.
    pose proof (send_notification_created env amb req db) as Hc.
    rewrite Hs in Hc. tauto.
  - apply update_notification_status_monotone.
  - intros req req' db n status Ha Hs Ht Hsel Hok out.
    destruct (retryCount_conforming _ Hok) as [Hc Hrange].
    case_bool_decide as Hmax.
    + destruct Hmax as [-> Hmax]. subst out.
      rewrite (update_notification_status_run _ _ _ _ _ Ha), Hs. simpl.
      pose proof (update_where_one Pg.Notifications "id"
                    (JStr (params_id req))
                    (statusSet amb (JStr "failed") (body req !! "errorMessage"))
                    db n (statusSet_id _ _ _) Hsel) as Hone.
      change (Schema.columns Pg.Notifications)
        with Schema.notifications in Hone.
      destruct (status_update_refused amb db (body req !! "errorMessage") n)
        as [e He]; [by rewrite Hc, Hmax|].
      unfold updateNotificationStatus.
      destruct (update_where _ _ _ _ _) as [[rs db']|e'].
      * destruct Hone as (new & _ & _ & Hnew). congruence.
      * done.
    + destruct (update_notification_status_found env amb req req' db n status)
        as (n' & db' & Hout & Hn' & Hsel'); [done..| |].
      { intros ->. destruct (decide (retryCount_of n = Pg.INT4_MAX)); [|lia].
        destruct Hmax. done. }
      subst out. rewrite Hout. simpl. exists n'. split_and!; [done..|].
      apply update_row_retryCount in Hn' as (k & Hk & Hk' & _).
      unfold retryCount_of. rewrite Hk, Hk'. case_bool_decide; lia.
Qed.

(** C2, as amended.  A status update is applied to a notification whatever
    its current status: on a notification that is 'sent' (a row that conforms
    to its table, the one the request selects) an authenticated update with a
    non-empty status string is accepted, stores the new status, and sets the
    sent time to the time of the update when the new status is 'sent' and to
    NULL otherwise.  The one update that is not covered is 'failed' for a
    notification whose retry count is 2147483647 already, which the column
    refuses (C6). *)
Theorem sent_is_not_terminal env amb req req' db n status :
  authMiddleware env amb req = inr req' →
  body req !! "status" = Some (JStr status) →
  status ≠ "" →
  select_where Pg.Notifications "id" (JStr (params_id req)) db = [n] →
  row_ok Pg.Notifications n = true →
  n !! "status" = Some (JStr "sent") →
  (status = "failed" → retryCount_of n < Pg.INT4_MAX) →
  ∃ n' db',
    update_notification_status env amb req db
    = (Success 200 (DataRow n') (now amb), db')
    ∧ select_where Pg.Notifications "id" (JStr (params_id req)) db' = [n']
    ∧ n' !! "status" = Some (JStr status)
    ∧ n' !! "sentAt"
      = Some (if bool_decide (status = "sent") then JDate (now amb)
              else JNull).
Proof.
  intros Ha Hs Hne Hsel Hok Hsent Hmax.
  destruct (update_notification_status_found env amb req req' db n
              (JStr status))
    as (n' & db' & Hout & Hn' & Hsel'); [done| done | | done..| |].
  { simpl. by destruct status. }
  { intros [= ->]. by apply Hmax. }
  exists n', db'. split_and!; [done..| |].
  - destruct (update_row_written _ _ _ _ _
                (Pg.with_default (Pg.DefaultLit (JStr "pending"))
                   (Pg.with_notNull (Pg.col "status" Pg.PgText)))
                (fun _ => JStr status)
                (columns_NoDup Pg.Notifications)
                ltac:(apply (bool_decide_unpack _); by vm_compute)
                (statusSet_status _ _ _) Hn')
      as (v & Hv & _ & Hl).
    by injection Hv as <-.
  - destruct (update_row_written _ _ _ _ _
                (Pg.col "sentAt" Pg.PgTimestamp)
                (fun _ => if bool_decide (JStr status = JStr "sent")
                          then JDate (now amb) else JNull)
                (columns_NoDup Pg.Notifications)
                ltac:(apply (bool_decide_unpack _); by vm_compute)
                (statusSet_sentAt _ _ _) Hn')
      as (v & Hv & _ & Hl).
    simpl in Hl. rewrite Hl. f_equal.
    repeat case_bool_decide; simplify_eq; by injection Hv as <-.
Qed.

(** *** Diagnostics: the review *)

Lemma reviewSet_id amb by_ status notes :
  reviewSet amb by_ status notes !! "id" = None.
Proof.
  unfold reviewSet. rewrite lit_lookup.
  destruct by_; simpl; by simplify_map_eq.
Qed.

Lemma reviewSet_lookup amb by_ status notes k :
  reviewSet amb (Some by_) status notes !! k
  = (fun v (_ : Row) => v) <$>
    ({[ "reviewedById" := by_; "reviewStatus" := status;
        "reviewedAt" := JDate (now amb);
        "reviewNotes" := js_or notes JNull ]} : Obj) !! k.
Proof. unfold reviewSet. by rewrite lit_lookup. Qed.

(** The handler of PUT /api/diagnostics/:id/review, once the request is
    authenticated and the role is admitted. *)
Lemma review_diagnostic_run env amb req req' db :
  authMiddleware env amb req = inr req' →
  requireRole ["admin"; "super_admin"] amb req' = inr req' →
  review_diagnostic env amb req db =
  if negb (truthy (body req !! "reviewStatus"))
  then (failure amb 400 "MISSING_STATUS" "Review status is required", db)
  else
    match updateDiagnosticReview amb (JStr (params_id req)) (user_id req')
            (prop_of (body req !! "reviewStatus")) (body req !! "reviewNotes")
            db
    with
    | Ok (Some d, db') => (Success 200 (DataRow d) (now amb), db')
    | Ok (None, db') =>
        (failure amb 404 "DIAGNOSTIC_NOT_FOUND" "Diagnostic not found", db')
    | Throw e =>
        (failure amb 400 "VALIDATION_ERROR"
           (message_or e "Invalid request data"), db)
    end.
Proof.
  intros Ha Hr. unfold review_diagnostic, authorized.
  rewrite (authenticated_next _ _ _ _ _ _ Ha), Hr.
  destruct (authMiddleware_next _ _ _ _ Ha) as [decoded ->]. simpl.
  unfold catch_400.
  destruct (truthy (body req !! "reviewStatus")); simpl; [|done].
  unfold mbind, Handler_bind, exec.
  destruct (updateDiagnosticReview _ _ _ _ _ _) as [[[d|] db']|e]; done.
Qed.

(** The review of a diagnostic by a reviewer who has a row in the users
    table is accepted by the store. *)
Lemma review_update_succeeds amb db uid u status notes (old : Row) :
  getUser (JStr uid) db = Some u →
  ∃ new, update_row db Schema.diagnostics
           (reviewSet amb (Some (JStr uid)) (JStr status) notes) old = Ok new.
Proof.
  intros Hu. apply update_row_succeeds. intros c f Hc Hf.
  rewrite reviewSet_lookup in Hf.
  unfold Schema.diagnostics in Hc. columns_cases Hc; simpl in Hf;
    simplify_map_eq.
  - by eexists.
  - exists (JStr uid). split; [done|].
    unfold check_reference. simpl. unfold getUser in Hu.
    by destruct (select_where Pg.Users "id" (JStr uid) db).
  - by eexists.
  - destruct (js_or_null_text (Pg.col "reviewNotes" Pg.PgText) notes)
      as [w Hw]; [done..|].
    by exists w.
Qed.

(** C1, as amended.  The review stores the status it is given, whatever the
    status of the record: for a request that is authenticated, carries the
    role admin or super_admin and a non-empty status string, from a reviewer
    who has a row in the users table, the record the request selects gets the
    new status, the reviewer, the time of the review and the notes (as text;
    NULL when the request has none, or empty ones), and keeps its other
    fields; the order pending < reviewed < verified is not consulted. *)
Theorem review_stores_the_requested_status
  env amb req req' db d uid u status :
  authMiddleware env amb req = inr req' →
  requireRole ["admin"; "super_admin"] amb req' = inr req' →
  user_id req' = Some (JStr uid) →
  getUser (JStr uid) db = Some u →
  body req !! "reviewStatus" = Some (JStr status) →
  status ≠ "" →
  select_where Pg.Diagnostics "id" (JStr (params_id req)) db = [d] →
  ∃ d' db',
    review_diagnostic env amb req db
    = (Success 200 (DataRow d') (now amb), db')
    ∧ select_where Pg.Diagnostics "id" (JStr (params_id req)) db' = [d']
    ∧ d' !! "reviewStatus" = Some (JStr status)
    ∧ d' !! "reviewedById" = Some (JStr uid)
    ∧ d' !! "reviewedAt" = Some (JDate (now amb))
    ∧ d' !! "reviewNotes"
      = Some match body req !! "reviewNotes" with
             | Some (JStr notes) =>
                 if String.eqb notes "" then JNull else JStr notes
             | Some v => if truthy (Some v) then JStr (pg_text v) else JNull
             | None => JNull
             end
    ∧ (∀ k, k ∉ ["reviewStatus"; "reviewedById"; "reviewedAt"; "reviewNotes"]
            → d' !! k = d !! k).
Proof.
  intros Ha Hr Hid Hu Hs Hne Hsel.
  rewrite (review_diagnostic_run _ _ _ _ _ Ha Hr), Hs, Hid.
  cbn [truthy prop_of].
  replace (negb (negb (String.eqb status ""))) with false
    by (by destruct status).
  destruct (review_update_succeeds amb db uid u status
              (body req !! "reviewNotes") d Hu) as [d' Hd'].
  pose proof (update_where_one Pg.Diagnostics "id" (JStr (params_id req))
                (reviewSet amb (Some (JStr uid)) (JStr status)
                   (body req !! "reviewNotes")) db d
                (reviewSet_id _ _ _ _) Hsel) as Hone.
  change (Schema.columns Pg.Diagnostics) with Schema.diagnostics in Hone.
  unfold updateDiagnosticReview.
  destruct (update_where _ _ _ _ _) as [[rs db']|e];
    [|destruct Hone as [e' He']; congruence].
  destruct Hone as (new & -> & Hsel' & Hnew).
  cbn [mbind Result_bind head].
  assert (new = d') as -> by congruence.
  exists d', db'. split_and!; [done | done | | | | |].
  - destruct (update_row_written _ _ _ _ _
                (Pg.with_default (Pg.DefaultLit (JStr "pending"))
                   (Pg.with_notNull (Pg.col "reviewStatus" Pg.PgText)))
                (fun _ => JStr status)
                (columns_NoDup Pg.Diagnostics)
                ltac:(by_deciding)
                ltac:(by rewrite reviewSet_lookup) Hd')
      as (v & Hv & _ & Hl).
    by injection Hv as <-.
  - destruct (update_row_written _ _ _ _ _
                (Pg.with_references Pg.Users "id"
                   (Pg.col "reviewedById" Pg.PgVarchar))
                (fun _ => JStr uid)
                (columns_NoDup Pg.Diagnostics)
                ltac:(by_deciding)
                ltac:(by rewrite reviewSet_lookup) Hd')
      as (v & Hv & _ & Hl).
    by injection Hv as <-.
  - destruct (update_row_written _ _ _ _ _
                (Pg.col "reviewedAt" Pg.PgTimestamp)
                (fun _ => JDate (now amb))
                (columns_NoDup Pg.Diagnostics)
                ltac:(by_deciding)
                ltac:(by rewrite reviewSet_lookup) Hd')
      as (v & Hv & _ & Hl).
    by injection Hv as <-.
  - destruct (update_row_written _ _ _ _ _
                (Pg.col "reviewNotes" Pg.PgText)
                (fun _ => js_or (body req !! "reviewNotes") JNull)
                (columns_NoDup Pg.Diagnostics)
                ltac:(by_deciding)
                ltac:(by rewrite reviewSet_lookup) Hd')
      as (v & Hv & _ & Hl).
    change (d' !! "reviewNotes" = Some v) in Hl. rewrite Hl. f_equal.
    clear -Hv. unfold js_or, store_value in Hv.
    destruct (body req !! "reviewNotes") as [[|b|z| |notes|t|r]|];
      cbn in Hv; try (by injection Hv as <-).
    + destruct b; cbn in Hv; by injection Hv as <-.
    + destruct (z =? 0); cbn in Hv; by injection Hv as <-.
    + destruct (String.eqb notes ""); cbn in Hv; by injection Hv as <-.
  - intros k Hk. eapply update_row_other; [exact Hd'|].
    rewrite reviewSet_lookup.
    apply not_elem_of_cons in Hk as [? Hk].
    apply not_elem_of_cons in Hk as [? Hk].
    apply not_elem_of_cons in Hk as [? Hk].
    apply not_elem_of_cons in Hk as [? _].
    rewrite !lookup_insert_ne by done. by rewrite lookup_singleton_ne.
Qed.

(** *** Authentication *)

Lemma substring_all (s : string) : String.substring 0 (String.length s) s = s.
Proof. induction s as [|c s IH]; simpl; [done | by rewrite IH]. Qed.

Lemma bearer_header (token : string) :
  let authHeader := "Bearer " +:+ token in
  negb (String.eqb authHeader "") && String.prefix "Bearer " authHeader = true
  ∧ String.substring 7 (String.length authHeader - 7) authHeader = token.
Proof.
  split; [simpl; by destruct token|]. simpl.
  change ("" +:+ token) with token. rewrite Nat.sub_0_r. apply substring_all.
Qed.

(** [authMiddleware] hands on every request whose token has a valid
    signature and is within its time of validity; it reads nothing else. *)
Lemma authMiddleware_accepts env amb req token payload :
  authorization req = Some ("Bearer " +:+ token) →
  jwt_verify token (JWT_SECRET env) = Some payload →
  not_before_ok (now amb / 1000) payload = true →
  not_expired (now amb / 1000) payload = true →
  authMiddleware env amb req = inr (with_user payload req).
Proof.
  intros Hh Hv Hn He. unfold authMiddleware. rewrite Hh.
  destruct (bearer_header token) as [-> ->].
  unfold verifyToken. by rewrite Hv, Hn, He.
Qed.

(** An expired token is refused. *)
Lemma authMiddleware_expired env amb req token payload e :
  authorization req = Some ("Bearer " +:+ token) →
  jwt_verify token (JWT_SECRET env) = Some payload →
  payload !! "exp" = Some (JNum e) →
  e ≤ now amb / 1000 →
  authMiddleware env amb req
  = inl (failure amb 401 "INVALID_TOKEN" "Invalid or expired token").
Proof.
  intros Hh Hv He Hle. unfold authMiddleware. rewrite Hh.
  destruct (bearer_header token) as [-> ->].
  unfold verifyToken, not_expired. rewrite Hv, He.
  rewrite (bool_decide_false (now amb / 1000 < e)) by lia.
  by rewrite andb_false_r.
Qed.

(** The handler of GET /api/users/profile, once the request is
    authenticated. *)
Lemma get_profile_run env amb req req' db :
  authMiddleware env amb req = inr req' →
  get_profile env amb req db =
  match getUser (user_id_param req') db with
  | Some u => (Success 200 (DataRow (userWithoutPassword u)) (now amb), db)
  | None => (failure amb 404 "USER_NOT_FOUND" "User not found", db)
  end.
Proof.
  intros Ha. unfold get_profile. rewrite (authenticated_next _ _ _ _ _ _ Ha).
  unfold catch_500, mbind, Handler_bind, query.
  by destruct (getUser _ _).
Qed.

(** C3, as amended.  The validation of a session token does not read the
    active flag of the identity: a request whose token has a valid signature
    and is within its time of validity is authenticated also when the
    identity the token names has active = false, and get-profile then serves
    that identity's profile; the token is refused once it has expired. *)
Theorem deactivated_identity_is_authenticated
  env amb req token payload uid u db :
  authorization req = Some ("Bearer " +:+ token) →
  jwt_verify token (JWT_SECRET env) = Some payload →
  payload !! "id" = Some (JStr uid) →
  getUser (JStr uid) db = Some u →
  u !! "isActive" = Some (JBool false) →
  (not_before_ok (now amb / 1000) payload = true →
   not_expired (now amb / 1000) payload = true →
   authMiddleware env amb req = inr (with_user payload req)
   ∧ get_profile env amb req db
     = (Success 200 (DataRow (userWithoutPassword u)) (now amb), db))
  ∧ (∀ e, payload !! "exp" = Some (JNum e) → e ≤ now amb / 1000 →
          authMiddleware env amb req
          = inl (failure amb 401 "INVALID_TOKEN" "Invalid or expired token")).
Proof.
  intros Hh Hv Hid Hu Hact. split.
  - intros Hn He.
    pose proof (authMiddleware_accepts _ _ _ _ _ Hh Hv Hn He) as Ha.
    split; [done|]. rewrite (get_profile_run _ _ _ _ _ Ha).
    unfold user_id_param, user_id. simpl. by rewrite Hid, Hu.
  - intros e He Hle. by eapply authMiddleware_expired.
Qed.

(** *** The senders *)

(** A sender that is not configured reports success. *)
Lemma sendSMS_unconfigured env to message :
  isTwilioConfigured env = false →
  sendSMS env to message
  = ("[SMS] Twilio not configured - SMS would be sent:",
     mkSendResult true None).
Proof. unfold sendSMS. by intros ->. Qed.

Lemma sendEmail_unconfigured env to subject message :
  isSendGridConfigured env = false →
  sendEmail env to subject message
  = ("[Email] SendGrid not configured - Email would be sent:",
     mkSendResult true None).
Proof. unfold sendEmail. by intros ->. Qed.

(** *** Password reset *)

(** A column written with a constant holds what PostgreSQL stores for the
    constant. *)
Lemma update_row_lit db t (o : Obj) old new c v :
  update_row db (Schema.columns t) (lit o) old = Ok new →
  c ∈ Schema.columns t →
  o !! Pg.name c = Some v →
  ∃ w, store_value c v = Ok w ∧ new !! Pg.name c = Some w.
Proof.
  intros Hu Hc Hv.
  destruct (update_row_written _ _ _ _ _ c (fun _ => v) (columns_NoDup t) Hc
              ltac:(by rewrite lit_lookup, Hv) Hu) as (w & Hw & _ & Hl).
  by exists w.
Qed.

(** The entry of an object at a given column. *)
Ltac lookup_at :=
  cbn [Pg.name Pg.col Pg.with_notNull Pg.with_default Pg.with_unique
       Pg.with_primaryKey Pg.with_references];
  rewrite ?lookup_insert_ne by done;
  first [ rewrite lookup_insert_eq
        | rewrite lookup_singleton_eq
        | rewrite lookup_singleton_ne by done ];
  done.

Ltac lit_lookup_at := rewrite lit_lookup; lookup_at.

Lemma parse_reset (b : Obj) token newPassword :
  b !! "token" = Some (JStr token) → token ≠ "" →
  b !! "newPassword" = Some (JStr newPassword) →
  (8 ≤ String.length newPassword)%nat →
  parse Schema.resetPasswordSchema b
  = Ok (<["token" := JStr token]> {["newPassword" := JStr newPassword]}).
Proof.
  intros Ht Hne Hp Hlen. unfold parse, Schema.resetPasswordSchema. simpl.
  rewrite Ht, Hp. simpl.
  rewrite (bool_decide_true (1 ≤ String.length token)%nat)
    by (destruct token; [done | simpl; lia]).
  by rewrite (bool_decide_true (8 ≤ String.length newPassword)%nat).
Qed.

(** The update of a password is accepted for every row. *)
Lemma updateUser_password amb id hash db :
  ∃ found db',
    updateUser amb id {["password" := JStr hash]} db = Ok (found, db')
    ∧ Forall2 (updated Pg.Users "id" id
                 (lit (<["updatedAt" := JDate (now amb)]>
                         {["password" := JStr hash]})) db)
        (t_users db) (t_users db')
    ∧ t_passwordResetTokens db' = t_passwordResetTokens db.
Proof.
  destruct (update_where_succeeds Pg.Users "id" id
              (lit (<["updatedAt" := JDate (now amb)]>
                      {["password" := JStr hash]})) db)
    as (rs & db' & Hu).
  { intros old _ _. apply update_row_succeeds. intros c f Hc Hf.
    rewrite lit_lookup in Hf. simpl in Hc. unfold Schema.users in Hc.
    columns_cases Hc; simpl in Hf; simplify_map_eq; by eexists. }
  exists (head rs), db'. unfold updateUser. rewrite Hu. split; [done|].
  split; [by apply update_where_rows in Hu|].
  apply update_where_Ok in Hu as (l & _ & _ & ->). done.
Qed.

(** Marking a token as used is accepted for every row. *)
Lemma markTokenAsUsed_succeeds amb id db :
  ∃ db',
    markTokenAsUsed amb id db = Ok ((), db')
    ∧ Forall2 (updated Pg.PasswordResetTokens "id" id
                 (lit {["usedAt" := JDate (now amb)]}) db)
        (t_passwordResetTokens db) (t_passwordResetTokens db')
    ∧ t_users db' = t_users db.
Proof.
  destruct (update_where_succeeds Pg.PasswordResetTokens "id" id
              (lit {["usedAt" := JDate (now amb)]}) db)
    as (rs & db' & Hu).
  { intros old _ _. apply update_row_succeeds. intros c f Hc Hf.
    rewrite lit_lookup in Hf. simpl in Hc.
    unfold Schema.passwordResetTokens in Hc.
    columns_cases Hc; simpl in Hf; simplify_map_eq; by eexists. }
  exists db'. unfold markTokenAsUsed. rewrite Hu. split; [done|].
  split; [by apply update_where_rows in Hu|].
  apply update_where_Ok in Hu as (l & _ & _ & ->). done.
Qed.

(** The handler of POST /api/auth/reset-password at a body that passes
    validation. *)
Lemma reset_password_run amb req db token newPassword :
  body req !! "token" = Some (JStr token) → token ≠ "" →
  body req !! "newPassword" = Some (JStr newPassword) →
  (8 ≤ String.length newPassword)%nat →
  reset_password amb req db =
  match getPasswordResetToken (JStr token) db with
  | None =>
      (failure amb 400 "INVALID_TOKEN" "Invalid or expired reset token", db)
  | Some resetToken =>
      if truthy (resetToken !! "usedAt")
      then (failure amb 400 "INVALID_TOKEN" "Invalid or expired reset token",
            db)
      else if date_after (now amb) (resetToken !! "expiresAt")
      then (failure amb 400 "TOKEN_EXPIRED" "Reset token has expired", db)
      else
        match updateUser amb (prop resetToken "userId")
                {["password" := JStr (hashPassword amb newPassword)]} db with
        | Ok (_, db1) =>
            match markTokenAsUsed amb (prop resetToken "id") db1 with
            | Ok (_, db2) =>
                (Success 200 (DataMessage "Password successfully reset" None)
                   (now amb), db2)
            | Throw e =>
                (failure amb 400 "VALIDATION_ERROR"
                   (message_or e "Invalid request data"), db1)
            end
        | Throw e =>
            (failure amb 400 "VALIDATION_ERROR"
               (message_or e "Invalid request data"), db)
        end
  end.
Proof.
  intros Ht Hne Hp Hlen. unfold reset_password, catch_400.
  rewrite (parse_reset _ _ _ Ht Hne Hp Hlen).
  unfold mbind, Handler_bind, pure, query, exec, prop.
  rewrite lookup_insert_eq.
  rewrite lookup_insert_ne, lookup_singleton_eq by done.
  destruct (getPasswordResetToken (JStr token) db) as [rt|]; [|done].
  destruct (truthy (rt !! "usedAt")); [done|].
  destruct (date_after (now amb) (rt !! "expiresAt")); [done|].
  cbn [js_string].
  destruct (updateUser _ _ _ _) as [[found db1]|e]; [|done].
  by destruct (markTokenAsUsed _ _ _) as [[[] db2]|e].
Qed.

(** Selection by a column that an update does not write: the first selected
    row after the update is the first selected row before it, as the update
    left it. *)
Lemma updated_head t k v set db (l l' : list Row) k2 v2 :
  Forall2 (updated t k v set db) l l' →
  set !! k2 = None →
  match head (filter (fun r => matches k2 v2 r) l) with
  | Some old =>
      ∃ new, head (filter (fun r => matches k2 v2 r) l') = Some new
             ∧ updated t k v set db old new
  | None => head (filter (fun r => matches k2 v2 r) l') = None
  end.
Proof.
  intros Hl Hk2.
  apply (head_filter_Forall2 _ (matches k2 v2) (matches k2 v2) _ _ Hl).
  intros a b. unfold updated. destruct (matches k v a).
  - intros Hb. by rewrite (update_row_matches _ _ _ _ _ _ _ Hb Hk2).
  - by intros ->.
Qed.

(** C5.  For a call of reset-password whose body passes validation: the
    answer is INVALID_TOKEN when no reset token has the token string or when
    the token's used-at is set; TOKEN_EXPIRED when the token is unused and now
    is past its expires-at; otherwise the call succeeds, the password of the
    identity the token belongs to becomes the bcrypt digest of the new
    password (10 rounds, with the salt drawn for the request) while the rows
    of the other identities stay as they were, the token's used-at is set,
    and every later call with the same token string answers
    INVALID_TOKEN. *)
Theorem consumeReset_outcomes amb req db token newPassword :
  body req !! "token" = Some (JStr token) → token ≠ "" →
  body req !! "newPassword" = Some (JStr newPassword) →
  (8 ≤ String.length newPassword)%nat →
  (getPasswordResetToken (JStr token) db = None →
   reset_password amb req db
   = (failure amb 400 "INVALID_TOKEN" "Invalid or expired reset token", db))
  ∧ (∀ rt,
       getPasswordResetToken (JStr token) db = Some rt →
       (∀ usedAt,
          rt !! "usedAt" = Some (JDate usedAt) →
          reset_password amb req db
          = (failure amb 400 "INVALID_TOKEN" "Invalid or expired reset token",
             db))
       ∧ (∀ expiresAt,
            rt !! "usedAt" = Some JNull →
            rt !! "expiresAt" = Some (JDate expiresAt) →
            if bool_decide (expiresAt < now amb)
            then reset_password amb req db
                 = (failure amb 400 "TOKEN_EXPIRED" "Reset token has expired",
                    db)
            else
              ∀ id, rt !! "id" = Some (JStr id) →
              ∃ db',
                reset_password amb req db
                = (Success 200 (DataMessage "Password successfully reset" None)
                     (now amb), db')
                ∧ (∀ u, getUser (prop rt "userId") db = Some u →
                        ∃ u', getUser (prop rt "userId") db' = Some u'
                              ∧ u' !! "password"
                                = Some (JStr (bcrypt_hash newPassword
                                                BCRYPT_ROUNDS (salt amb))))
                ∧ Forall2 (fun u u' : Row =>
                             u !! "id" ≠ Some (prop rt "userId") → u' = u)
                    (t_users db) (t_users db')
                ∧ (∃ rt', getPasswordResetToken (JStr token) db' = Some rt'
                          ∧ rt' !! "usedAt" = Some (JDate (now amb)))
                ∧ (∀ amb2 req2 newPassword2,
                     body req2 !! "token" = Some (JStr token) →
                     body req2 !! "newPassword" = Some (JStr newPassword2) →
                     (8 ≤ String.length newPassword2)%nat →
                     reset_password amb2 req2 db'
                     = (failure amb2 400 "INVALID_TOKEN"
                          "Invalid or expired reset token", db')))).
Proof.
  intros Ht Hne Hp Hlen.
  rewrite (reset_password_run _ _ _ _ _ Ht Hne Hp Hlen).
  split; [by intros ->|].
  intros rt Hrt. rewrite Hrt. split.
  { intros usedAt Hused. by rewrite Hused. }
  intros expiresAt Hused Hexp. rewrite Hused, Hexp. cbn [truthy date_after].
  case_bool_decide as Hpast; [done|].
  intros id Hid.
  assert (prop rt "id" = JStr id) as Hpid by (unfold prop; by rewrite Hid).
  destruct (updateUser_password amb (prop rt "userId")
              (hashPassword amb newPassword) db)
    as (found & db1 & -> & Husers & Htokens1).
  destruct (markTokenAsUsed_succeeds amb (prop rt "id") db1)
    as (db2 & -> & Htokens & Husers2).
  exists db2. split; [done|].
  assert (∃ rt', getPasswordResetToken (JStr token) db2 = Some rt'
                 ∧ rt' !! "usedAt" = Some (JDate (now amb))) as Hmarked.
  { pose proof (updated_head _ _ _ _ _ _ _ "token" (JStr token) Htokens
                  ltac:(lit_lookup_at)) as Hh.
    change (head (filter (λ r, matches "token" (JStr token) r)
                    (t_passwordResetTokens db1)))
      with (getPasswordResetToken (JStr token) db1) in Hh.
    assert (getPasswordResetToken (JStr token) db1 = Some rt) as Hrt1.
    { unfold getPasswordResetToken, select_where in *. simpl in *.
      by rewrite Htokens1. }
    rewrite Hrt1 in Hh. destruct Hh as (rt' & Hrt' & Hup).
    exists rt'. split; [done|]. unfold updated in Hup.
    replace (matches "id" (prop rt "id") rt) with true in Hup
      by (symmetry; apply matches_spec; by rewrite Hpid).
    destruct (update_row_lit _ _ _ _ _
                (Pg.col "usedAt" Pg.PgTimestamp) (JDate (now amb)) Hup)
      as (v & Hv & Hl); [by_deciding | lookup_at |].
    by injection Hv as <-. }
  split_and!; [| |done|].
  2:{ rewrite Husers2. eapply Forall2_impl; [exact Husers|].
      intros u u' Hup Hother. unfold updated in Hup.
      destruct (matches "id" (prop rt "userId") u) eqn:Hm; [|done].
      apply matches_spec in Hm as [_ Hm]. done. }
  - intros u Hu.
    pose proof (updated_head _ _ _ _ _ _ _ "id" (prop rt "userId") Husers
                  ltac:(lit_lookup_at)) as Hh.
    change (head (filter (λ r, matches "id" (prop rt "userId") r)
                    (t_users db)))
      with (getUser (prop rt "userId") db) in Hh.
    rewrite Hu in Hh. destruct Hh as (u' & Hu' & Hup).
    exists u'. split.
    { unfold getUser, select_where. simpl. by rewrite Husers2. }
    unfold updated in Hup.
    destruct (head_select_elem _ _ _ _ _ Hu) as (_ & Huid & Hnn).
    replace (matches "id" (prop rt "userId") u) with true in Hup
      by (symmetry; by apply matches_spec).
    destruct (update_row_lit _ _ _ _ _
                (Pg.with_notNull (Pg.col "password" Pg.PgText))
                (JStr (hashPassword amb newPassword)) Hup)
      as (v & Hv & Hl); [by_deciding | lookup_at |].
    by injection Hv as <-.
  - intros amb2 req2 newPassword2 Ht2 Hp2 Hlen2.
    rewrite (reset_password_run _ _ _ _ _ Ht2 Hne Hp2 Hlen2).
    destruct Hmarked as (rt' & -> & Hused'). by rewrite Hused'.
Qed.

(** *** Dates *)

(** A time value is made of its day and its time within the day. *)
Lemma MakeDate_parts (t : Z) :
  MakeDate (Day t)
    (MakeTime (HourFromTime t) (MinFromTime t) (SecFromTime t) (msFromTime t))
  = t.
Proof.
  unfold MakeDate, MakeTime, Day, HourFromTime, MinFromTime, SecFromTime,
    msFromTime, msPerDay, msPerHour, msPerMinute, msPerSecond.
  Z.div_mod_to_equations. lia.
Qed.

(** On a host whose offset from UTC is constant, [setHours(getHours() + 1)]
    moves a date forward by one hour. *)
Lemma setHours_next_hour (t offset : Z) :
  (∀ t' isUTC, LocalTZA t' isUTC = offset) →
  Z.abs (t + msPerHour) ≤ 8640000000000000 →
  setHours t (getHours t + 1) = Some (t + msPerHour).
Proof.
  intros Hzone Hrange. unfold setHours, getHours, UTC, LocalTime, TimeClip.
  rewrite !Hzone.
  assert (MakeDate (Day (t + offset))
            (MakeTime (HourFromTime (t + offset) + 1)
               (MinFromTime (t + offset)) (SecFromTime (t + offset))
               (msFromTime (t + offset)))
          = t + offset + msPerHour) as ->.
  { pose proof (MakeDate_parts (t + offset)) as Hparts.
    unfold MakeDate, MakeTime in *. lia. }
  replace (t + offset + msPerHour - offset) with (t + msPerHour) by lia.
  by rewrite bool_decide_true.
Qed.

(** An insertion succeeds when each column accepts its value. *)
Lemma insert_row_succeeds amb t db cols o :
  (∀ c, c ∈ cols →
        ∃ v, store_value c (insert_value amb c o) = Ok v
             ∧ check_unique t db c v = Ok ()
             ∧ check_reference db c v = Ok ()) →
  ∃ r, insert_row amb t db cols o = Ok r.
Proof.
  induction cols as [|c cs IH]; intros Hall; simpl; [by eexists|].
  destruct (Hall c) as (v & Hv & Hu & Hf); [set_solver|].
  destruct IH as [r Hr]; [intros c' Hc'; apply Hall; set_solver|].
  rewrite Hv. simpl. rewrite Hu. simpl. rewrite Hf. simpl. rewrite Hr.
  by eexists.
Qed.

Lemma check_unique_fresh t db c v :
  select_where t (Pg.name c) v db = [] → check_unique t db c v = Ok ().
Proof. unfold check_unique. intros ->. by destruct (Pg.unique c). Qed.

Lemma check_reference_found db c t k v r :
  Pg.references c = Some (t, k) → r ∈ rows t db → r !! k = Some v →
  check_reference db c v = Ok ().
Proof.
  intros Hc Hr Hk. unfold check_reference. rewrite Hc.
  destruct (decide (v = JNull)) as [->|Hv]; [done|].
  assert (r ∈ select_where t k v db) as Hin.
  { apply list_elem_of_filter. split; [|done].
    apply Is_true_true, matches_spec. done. }
  destruct (select_where t k v db); [by apply elem_of_nil in Hin|].
  by destruct v.
Qed.

(** *** Password reset: the request *)

Lemma parse_forgot (b : Obj) email :
  b !! "email" = Some (JStr email) → is_email email = true →
  parse Schema.forgotPasswordSchema b = Ok {["email" := JStr email]}.
Proof.
  intros Hb He. unfold parse, Schema.forgotPasswordSchema. simpl.
  rewrite Hb. simpl. by rewrite He.
Qed.

(** The handler of POST /api/auth/forgot-password at a body that passes
    validation. *)
Lemma forgot_password_run env amb req db email :
  body req !! "email" = Some (JStr email) → is_email email = true →
  forgot_password env amb req db =
  match getUserByEmail (JStr email) db with
  | None =>
      (Success 200
         (DataMessage
            "If an account exists with that email, password reset instructions have been sent"
            None) (now amb), db)
  | Some user =>
      match setHours (now amb) (getHours (now amb) + 1) with
      | Some expiresAt =>
          match createPasswordResetToken amb
                  (set_prop "userId" (user !! "id")
                     (<["token" := JStr (nano amb)]>
                        {["expiresAt" := JDate expiresAt]})) db with
          | Ok (_, db') =>
              (Success 200
                 (DataMessage "Password reset instructions sent to your email"
                    (if bool_decide (env !! "NODE_ENV" = Some "development")
                     then Some (nano amb) else None)) (now amb), db')
          | Throw e =>
              (failure amb 400 "VALIDATION_ERROR"
                 (message_or e "Invalid request data"), db)
          end
      | None =>
          (failure amb 400 "VALIDATION_ERROR"
             (message_or RangeError "Invalid request data"), db)
      end
  end.
Proof.
  intros Hb He. unfold forgot_password, catch_400.
  rewrite (parse_forgot _ _ Hb He).
  unfold mbind, Handler_bind, pure, query, exec, prop.
  rewrite lookup_singleton_eq.
  destruct (getUserByEmail (JStr email) db) as [u|]; [|done].
  destruct (setHours _ _) as [expiresAt|]; [|done].
  by destruct (createPasswordResetToken _ _ _) as [[row db']|e].
Qed.

(** What forgot-password does at a well-formed e-mail address, on a host
    whose offset from UTC is constant.  The answer is a success whether or
    not an identity has the address; without an identity the store is
    unchanged, and with one a reset token is added for it, unused, that
    expires one hour after the request (the token string and the identifier
    drawn for it being new). *)
Lemma forgot_password_outcomes env amb req db email offset :
  body req !! "email" = Some (JStr email) → is_email email = true →
  (∀ t isUTC, LocalTZA t isUTC = offset) →
  Z.abs (now amb + msPerHour) ≤ 8640000000000000 →
  match getUserByEmail (JStr email) db with
  | None =>
      ∃ message,
        forgot_password env amb req db
        = (Success 200 (DataMessage message None) (now amb), db)
  | Some user =>
      ∀ uid,
        user !! "id" = Some (JStr uid) →
        select_where Pg.PasswordResetTokens "id" (JStr (uuid amb)) db = [] →
        select_where Pg.PasswordResetTokens "token" (JStr (nano amb)) db = [] →
        ∃ message row db',
          forgot_password env amb req db
          = (Success 200 message (now amb), db')
          ∧ t_passwordResetTokens db' = t_passwordResetTokens db ++ [row]
          ∧ row !! "userId" = Some (JStr uid)
          ∧ row !! "token" = Some (JStr (nano amb))
          ∧ row !! "usedAt" = Some JNull
          ∧ row !! "expiresAt" = Some (JDate (now amb + msPerHour))
  end.
Proof.
  intros Hb He Hzone Hrange. rewrite (forgot_password_run _ _ _ _ _ Hb He).
  destruct (getUserByEmail (JStr email) db) as [user|] eqn:Huser;
    [|by eexists].
  intros uid Hid Hfresh_id Hfresh_token.
  rewrite (setHours_next_hour _ _ Hzone Hrange), Hid. cbn [set_prop].
  set (o := <["userId" := JStr uid]>
              (<["token" := JStr (nano amb)]>
                 {["expiresAt" := JDate (now amb + msPerHour)]}) : Obj).
  destruct (head_select_elem _ _ _ _ _ Huser) as (Hin & _ & _).
  destruct (insert_row_succeeds amb Pg.PasswordResetTokens db
              Schema.passwordResetTokens o) as [row Hrow].
  { intros c Hc. unfold Schema.passwordResetTokens in Hc.
    columns_cases Hc; unfold insert_value, o; simpl;
      rewrite ?lookup_insert_ne by done;
      rewrite ?lookup_insert_eq, ?lookup_singleton_eq,
        ?lookup_singleton_ne by done;
      eexists; (split; [reflexivity|]); (split; [|try done]);
      try done.
    - by apply check_unique_fresh.
    - eapply (check_reference_found _ _ Pg.Users "id"); [done | exact Hin | done].
    - by apply check_unique_fresh. }
  unfold createPasswordResetToken, insert.
  change (Schema.columns Pg.PasswordResetTokens)
    with Schema.passwordResetTokens.
  rewrite Hrow. cbn [mbind Result_bind].
  eexists _, row, _. split; [reflexivity|]. split; [done|].
  assert (∀ c, c ∈ Schema.passwordResetTokens →
               ∃ v, store_value c (insert_value amb c o) = Ok v
                    ∧ row !! Pg.name c = Some v) as Hcol.
  { intros c Hc.
    destruct (insert_row_lookup _ _ _ _ _ _ c
                (columns_NoDup Pg.PasswordResetTokens) Hc Hrow)
      as (v & Hv & _ & _ & Hl).
    by exists v. }
  split_and!.
  - destruct (Hcol (Pg.with_references Pg.Users "id"
                      (Pg.with_notNull (Pg.col "userId" Pg.PgVarchar))))
      as (v & Hv & Hl); [by_deciding|].
    unfold insert_value, o in Hv. simpl in Hv, Hl.
    rewrite lookup_insert_eq in Hv. by injection Hv as <-.
  - destruct (Hcol (Pg.with_unique
                      (Pg.with_notNull (Pg.col "token" Pg.PgText))))
      as (v & Hv & Hl); [by_deciding|].
    unfold insert_value, o in Hv. simpl in Hv, Hl.
    rewrite lookup_insert_ne, lookup_insert_eq in Hv by done.
    by injection Hv as <-.
  - destruct (Hcol (Pg.col "usedAt" Pg.PgTimestamp))
      as (v & Hv & Hl); [by_deciding|].
    unfold insert_value, o in Hv. simpl in Hv, Hl.
    rewrite !lookup_insert_ne, lookup_singleton_ne in Hv by done.
    by injection Hv as <-.
  - destruct (Hcol (Pg.with_notNull (Pg.col "expiresAt" Pg.PgTimestamp)))
      as (v & Hv & Hl); [by_deciding|].
    unfold insert_value, o in Hv. simpl in Hv, Hl.
    rewrite !lookup_insert_ne, lookup_singleton_eq in Hv by done.
    by injection Hv as <-.
Qed.

(** *** Diagnostics: submission *)

(** C8: POST /api/diagnostics/submit stores no diagnostic.  What the handler
    aims at does what the claim says: an object that passes
    [insertDiagnosticSchema] is stored by [createDiagnostic] with review
    status 'pending' and no review time, whatever review status it carried.
    But the handler hands the test date on as text ([req.body.testDate], or
    [new Date().toISOString()] for a request without one), and the field of
    the schema for the timestamp column [testDate] is [z.date()], which takes
    a Date and nothing else.  So, for a request whose body holds no Date
    object (none can: the fields of a form are text), validation fails: every
    request is answered an error and leaves the store as it was, and the
    request with a valid token and an image is answered 400 VALIDATION_ERROR,
    where the claim, and the documentation of the route, have a record
    created with review status 'pending'. *)
Theorem submission_is_never_stored env amb :
  (∀ o data db d db',
     parse Schema.insertDiagnosticSchema o = Ok data →
     createDiagnostic amb data db = Ok (d, db') →
     d !! "reviewStatus" = Some (JStr "pending")
     ∧ d !! "reviewedAt" = Some JNull
     ∧ t_diagnostics db' = t_diagnostics db ++ [d])
  ∧ (∀ req db,
       (∀ v, is_Some (timestamp_in v) → ∃ t, v = JDate t) →
       (∀ t, body req !! "testDate" ≠ Some (JDate t)) →
       let out := submit_diagnostic env amb req db in
       res_success out.1 = false
       ∧ out.2 = db
       ∧ ∀ req' f,
           authMiddleware env amb req = inr req' → file req = Some f →
           res_status out.1 = 400
           ∧ res_code out.1 = Some "VALIDATION_ERROR").
Proof.
  split.
  - intros o data db d db' Hp Hi. unfold createDiagnostic in Hi.
    apply insert_Ok in Hi as [Hrow ->].
    assert (∀ c, c ∈ Schema.diagnostics →
                 ∃ v, store_value c (insert_value amb c data) = Ok v
                      ∧ d !! Pg.name c = Some v) as Hcol.
    { intros c Hc.
      destruct (insert_row_lookup _ _ _ _ _ _ c
                  (columns_NoDup Pg.Diagnostics) Hc Hrow)
        as (v & Hv & _ & _ & Hl).
      by exists v. }
    split_and!; [| |done].
    + destruct (Hcol (Pg.with_default (Pg.DefaultLit (JStr "pending"))
                        (Pg.with_notNull (Pg.col "reviewStatus" Pg.PgText))))
        as (v & Hv & Hl); [by_deciding|].
      unfold insert_value in Hv. simpl in Hv, Hl.
      replace (data !! "reviewStatus") with (@None JsVal) in Hv
        by (by stripped Hp).
      by injection Hv as <-.
    + destruct (Hcol (Pg.col "reviewedAt" Pg.PgTimestamp))
        as (v & Hv & Hl); [by_deciding|].
      unfold insert_value in Hv. simpl in Hv, Hl.
      replace (data !! "reviewedAt") with (@None JsVal) in Hv
        by (by stripped Hp).
      by injection Hv as <-.
  - intros req db Hdate Hbody out. subst out.
    unfold submit_diagnostic, authenticated.
    destruct (authMiddleware env amb req) as [res|req'] eqn:Ha.
    { unfold authMiddleware in Ha. repeat case_match; simplify_eq; done. }
    destruct (authMiddleware_next _ _ _ _ Ha) as [decoded ->].
    change (file (with_user decoded req)) with (file req).
    change (body (with_user decoded req)) with (body req).
    unfold catch_400.
    destruct (file req) as [f|] eqn:Hf.
    2:{ split_and!; [done..|]. by intros ? ? [= <-]. }
    unfold mbind, Handler_bind, pure, exec.
    destruct (if isS3Configured env then _ else _) as [imageUrl|e];
      [|split_and!; [done..|by intros ? ? _ _]].
    destruct (if truthy (body req !! "symptoms") then _ else _)
      as [symptoms|e]; [|split_and!; [done..|by intros ? ? _ _]].
    destruct (parse Schema.insertDiagnosticSchema _) as [data|e] eqn:Hp;
      [|split_and!; [done..|by intros ? ? _ _]].
    exfalso.
    assert (NoDup Schema.insertDiagnosticSchema.*1) as Hnd by by_deciding.
    pose proof (parse_lookup _ _ _ _ _ "testDate"
                  (Zod.mkField Zod.ZTimestamp true false) Hnd
                  ltac:(by_deciding) Hp) as Hfield.
    assert (∀ k v (o : Obj) k', k ≠ k' → set_prop k v o !! k' = o !! k')
      as Hne.
    { intros k v o k' Hk. destruct v; simpl;
        [by apply lookup_insert_ne | by apply lookup_delete_ne]. }
    rewrite !Hne, !lookup_insert_ne, lookup_singleton_eq in Hfield by done.
    unfold Zod.parse_field, js_or in Hfield.
    destruct (body req !! "testDate") as [v|] eqn:Hv.
    + destruct (truthy (Some v)) eqn:Ht.
      * destruct v; try done; try (by eapply Hbody); simpl in Hfield;
          match type of Hfield with
          | Some <$> timestamp_in ?x = _ =>
              destruct (timestamp_in x) as [w|] eqn:Hw; [|done];
              by destruct (Hdate x ltac:(by rewrite Hw)) as [t' Hx]
          end.
      * simpl in Hfield.
        destruct (timestamp_in _) as [w|] eqn:Hw; [|done].
        by destruct (Hdate _ ltac:(by rewrite Hw)) as [t Hx].
    + simpl in Hfield.
      destruct (timestamp_in _) as [w|] eqn:Hw; [|done].
      by destruct (Hdate _ ltac:(by rewrite Hw)) as [t Hx].
Qed.

(** *** Registration *)

(** What [parse] hands on for a field that accepts text, and for a boolean
    field. *)
Lemma parsed_text ie ti f x y :
  text_kind (Zod.kind f) = true →
  Zod.parse_field ie ti f x = Some y →
  match y with
  | None => Zod.optional f = true
  | Some JNull => Zod.nullable f = true
  | Some (JStr _) => True
  | Some _ => False
  end.
Proof.
  unfold Zod.parse_field. intros Hk Hy.
  destruct x as [[]|]; repeat case_match; simplify_eq; try done;
    destruct (Zod.kind f); simpl in *; try done;
    repeat case_match; by simplify_eq.
Qed.

Lemma parsed_boolean ie ti f x y :
  Zod.kind f = Zod.ZBoolean →
  Zod.parse_field ie ti f x = Some y →
  match y with
  | None => Zod.optional f = true
  | Some JNull => Zod.nullable f = true
  | Some (JBool _) => True
  | Some _ => False
  end.
Proof.
  unfold Zod.parse_field. intros Hk Hy. rewrite Hk in Hy.
  destruct x as [[]|]; repeat case_match; by simplify_eq.
Qed.

Lemma parsed_enum ie ti vals o n x y :
  Zod.parse_field ie ti (Zod.mkField (Zod.ZEnum vals) o n) x = Some (Some y) →
  y = JNull ∨ ∃ s, y = JStr s ∧ s ∈ vals.
Proof.
  unfold Zod.parse_field. intros Hy.
  destruct x as [[]|]; simpl in Hy; repeat case_match; simplify_eq;
    try (by left).
  simpl in Hy. injection Hy as <-. right. exists s. split; [done|].
  by eapply bool_decide_eq_true.
Qed.

(** A field that is not a timestamp hands on the value it accepts. *)
Lemma parse_field_same ie ti f x y :
  Zod.kind f ≠ Zod.ZTimestamp →
  Zod.parse_field ie ti f x = Some y → y = x.
Proof.
  unfold Zod.parse_field. intros Hk Hy.
  destruct x as [[]|]; repeat case_match; simplify_eq; try done;
    destruct (Zod.kind f); simpl in *; try done;
    repeat case_match; simplify_eq; try done.
  all: simpl in Hy; by injection Hy as <-.
Qed.

(** The handler of POST /api/auth/register at a body that passes
    validation. *)
Lemma register_run env amb req db data :
  parse Schema.registerSchema (body req) = Ok data →
  register env amb req db =
  match getUserByEmail (prop data "email") db with
  | Some _ =>
      (failure amb 400 "USER_EXISTS" "User with this email already exists",
       db)
  | None =>
      match createUser amb
              (<["password" :=
                   JStr (hashPassword amb (js_string (data !! "password")))]>
                 data) db with
      | Ok (user, db') =>
          (Success 201
             (DataUserToken (userWithoutPassword user)
                (generateToken env amb user)) (now amb), db')
      | Throw e =>
          (failure amb 400 "VALIDATION_ERROR"
             (message_or e "Invalid request data"), db)
      end
  end.
Proof.
  intros Hp. unfold register, catch_400. rewrite Hp.
  unfold mbind, Handler_bind, pure, query, exec.
  destruct (getUserByEmail _ _); [done|].
  by destruct (createUser _ _ _) as [[user db']|e].
Qed.

(** A registration that passes validation, for an address and an identifier
    that are new, is accepted by the store. *)
Lemma register_insert_succeeds amb db (b data : Obj) hash :
  parse Schema.registerSchema b = Ok data →
  b !! "updatedAt" = None →
  getUserByEmail (prop data "email") db = None →
  select_where Pg.Users "id" (JStr (uuid amb)) db = [] →
  ∃ row, insert_row amb Pg.Users db Schema.users
           (<["password" := JStr hash]> data) = Ok row.
Proof.
  intros Hp Hupd Hemail Hid.
  assert (NoDup Schema.registerSchema.*1) as Hnd by by_deciding.
  pose proof (fun k f Hin => parse_lookup _ _ _ _ _ k f Hnd Hin Hp) as Hf.
  apply insert_row_succeeds. intros c Hc. unfold Schema.users in Hc.
  columns_cases Hc; unfold insert_value; simpl;
    rewrite ?lookup_insert_eq, ?lookup_insert_ne by done.
  - replace (data !! "id") with (@None JsVal) by (by stripped Hp).
    eexists. split; [reflexivity|]. split; [|done].
    by apply check_unique_fresh.
  - specialize (Hf "email" (Zod.mkField Zod.ZEmail false false)
                  ltac:(by_deciding)).
    apply parsed_text in Hf; [|done].
    unfold getUserByEmail, prop in Hemail.
    destruct (data !! "email") as [[]|]; try done.
    eexists. split; [reflexivity|]. split; [|done].
    apply check_unique_fresh. by apply head_None.
  - by eexists.
  - specialize (Hf "fullName" (Zod.mkField (Zod.ZString 2) false false)
                  ltac:(by_deciding)).
    apply parsed_text in Hf; [|done].
    destruct (data !! "fullName") as [[]|]; try done. by eexists.
  - specialize (Hf "role"
                  (Zod.mkField
                     (Zod.ZEnum ["health_worker"; "admin"; "super_admin"])
                     true false)
                  ltac:(by_deciding)).
    apply parsed_text in Hf; [|done].
    destruct (data !! "role") as [[]|]; try done; by eexists.
  - specialize (Hf "phoneNumber" (Zod.mkField (Zod.ZString 0) true true)
                  ltac:(by_deciding)).
    apply parsed_text in Hf; [|done].
    destruct (data !! "phoneNumber") as [[]|]; try done; by eexists.
  - specialize (Hf "facilityName" (Zod.mkField (Zod.ZString 0) true true)
                  ltac:(by_deciding)).
    apply parsed_text in Hf; [|done].
    destruct (data !! "facilityName") as [[]|]; try done; by eexists.
  - specialize (Hf "district" (Zod.mkField (Zod.ZString 0) true true)
                  ltac:(by_deciding)).
    apply parsed_text in Hf; [|done].
    destruct (data !! "district") as [[]|]; try done; by eexists.
  - specialize (Hf "isActive" (Zod.mkField Zod.ZBoolean true false)
                  ltac:(by_deciding)).
    apply parsed_boolean in Hf; [|done].
    destruct (data !! "isActive") as [[]|]; try done; by eexists.
  - replace (data !! "lastLoginAt") with (@None JsVal) by (by stripped Hp).
    by eexists.
  - replace (data !! "createdAt") with (@None JsVal) by (by stripped Hp).
    by eexists.
  - specialize (Hf "updatedAt" (Zod.mkField Zod.ZTimestamp true false)
                  ltac:(by_deciding)).
    rewrite Hupd in Hf. injection Hf as <-. by eexists.
Qed.

(** C9.  Registration takes the role from the request.  A registration that
    passes validation, for an address and an identifier that are new, creates
    the identity and answers 201; the role of the created identity is the
    role the request supplies, which is one of health_worker, admin and
    super_admin, and is 'health_worker' when the request supplies none.  The
    handler does not read the credentials of the request: a caller who is not
    authenticated creates an admin or super_admin identity this way. *)
Theorem register_takes_the_role_of_the_request env amb req db data :
  parse Schema.registerSchema (body req) = Ok data →
  body req !! "updatedAt" = None →
  getUserByEmail (prop data "email") db = None →
  select_where Pg.Users "id" (JStr (uuid amb)) db = [] →
  ∃ row db',
    register env amb req db
    = (Success 201
         (DataUserToken (userWithoutPassword row) (generateToken env amb row))
         (now amb), db')
    ∧ t_users db' = t_users db ++ [row]
    ∧ (∀ r, body req !! "role" = Some r →
            r ∈ [JStr "health_worker"; JStr "admin"; JStr "super_admin"]
            ∧ row !! "role" = Some r)
    ∧ (body req !! "role" = None →
       row !! "role" = Some (JStr "health_worker"))
    ∧ (∀ authorization user,
         register env amb
           (mkRequest authorization (body req) (params_id req) (file req)
              user) db
         = register env amb req db).
Proof.
  intros Hp Hupd Hemail Hid.
  destruct (register_insert_succeeds amb db (body req) data
              (hashPassword amb (js_string (data !! "password")))
              Hp Hupd Hemail Hid) as [row Hrow].
  exists row, (set_rows Pg.Users (t_users db ++ [row]) db).
  split.
  { rewrite (register_run _ _ _ _ _ Hp), Hemail.
    unfold createUser, insert.
    change (Schema.columns Pg.Users) with Schema.users.
    by rewrite Hrow. }
  split; [done|].
  assert (NoDup Schema.registerSchema.*1) as Hnd by by_deciding.
  pose proof (parse_lookup _ _ _ _ _ "role"
                (Zod.mkField
                   (Zod.ZEnum ["health_worker"; "admin"; "super_admin"])
                   true false) Hnd ltac:(by_deciding) Hp) as Hrole.
  pose proof Hrole as Hsame. apply parse_field_same in Hsame; [|done].
  destruct (insert_row_lookup _ _ _ _ _ _
              (Pg.with_default (Pg.DefaultLit (JStr "health_worker"))
                 (Pg.with_notNull (Pg.col "role" Pg.PgText)))
              (columns_NoDup Pg.Users) ltac:(by_deciding) Hrow)
    as (v & Hv & _ & _ & Hl).
  unfold insert_value in Hv. simpl in Hv, Hl.
  rewrite lookup_insert_ne in Hv by done.
  split_and!; [| |done].
  - intros r Hr. rewrite Hr in Hsame. rewrite Hsame in Hrole, Hv.
    rewrite Hr in Hrole.
    pose proof Hrole as Htext. apply parsed_text in Htext; [|done].
    destruct (parsed_enum _ _ _ _ _ _ _ Hrole) as [->|(s & -> & Hs)];
      [done|].
    split; [|by injection Hv as <-].
    change (JStr s ∈ JStr <$> ["health_worker"; "admin"; "super_admin"]).
    apply list_elem_of_fmap. by exists s.
  - intros Hr. rewrite Hr in Hsame. rewrite Hsame in Hv.
    by injection Hv as <-.
Qed.

(** *** User objects in responses *)

Lemma userWithoutPassword_password (row : Row) :
  userWithoutPassword row !! "password" = None.
Proof. apply lookup_delete_eq. Qed.

Lemma userWithoutPassword_other (row : Row) k :
  k ≠ "password" → userWithoutPassword row !! k = row !! k.
Proof. intros Hk. by apply lookup_delete_ne. Qed.

Lemma insert_elem amb t o db r db' :
  insert amb t o db = Ok (r, db') → r ∈ rows t db'.
Proof.
  intros [_ ->]%insert_Ok. rewrite rows_set_rows. set_solver.
Qed.

Lemma register_user env amb req db o :
  response_user (register env amb req db).1 = Some o →
  ∃ row, o = userWithoutPassword row
         ∧ row ∈ t_users (register env amb req db).2.
Proof.
  unfold register, catch_400, mbind, Handler_bind, pure, query, exec.
  destruct (parse _ _) as [data|e]; [|done].
  destruct (getUserByEmail _ _); [done|].
  destruct (createUser _ _ _) as [[user db']|e] eqn:Hc; [|done].
  simpl. intros [= <-]. exists user. split; [done|].
  by apply insert_elem in Hc.
Qed.

Lemma login_user env amb req db o :
  response_user (login env amb req db).1 = Some o →
  ∃ row, o = userWithoutPassword row ∧ row ∈ t_users db.
Proof.
  unfold login, catch_400, mbind, Handler_bind, pure, query, exec.
  destruct (parse _ _) as [data|e]; [|done].
  destruct (getUserByEmail _ _) as [user|] eqn:Hu; [|done].
  destruct (negb _); [done|].
  destruct (updateLastLogin _ _ _) as [[[] db']|e]; [|done].
  simpl. intros [= <-]. exists user. split; [done|].
  by destruct (head_select_elem _ _ _ _ _ Hu) as [Hin _].
Qed.

Lemma get_profile_user env amb req db o :
  response_user (get_profile env amb req db).1 = Some o →
  ∃ row, o = userWithoutPassword row ∧ row ∈ t_users db.
Proof.
  unfold get_profile, authenticated.
  destruct (authMiddleware env amb req) as [res|req'] eqn:Ha.
  { unfold authMiddleware in Ha. repeat case_match; by simplify_eq. }
  unfold catch_500, mbind, Handler_bind, query.
  destruct (getUser _ _) as [user|] eqn:Hu; [|done].
  simpl. intros [= <-]. exists user. split; [done|].
  by destruct (head_select_elem _ _ _ _ _ Hu) as [Hin _].
Qed.

Lemma update_profile_user env amb req db o :
  response_user (update_profile env amb req db).1 = Some o →
  ∃ row, o = userWithoutPassword row
         ∧ row ∈ t_users (update_profile env amb req db).2.
Proof.
  unfold update_profile, authenticated.
  destruct (authMiddleware env amb req) as [res|req'] eqn:Ha.
  { unfold authMiddleware in Ha. repeat case_match; by simplify_eq. }
  unfold catch_400, mbind, Handler_bind, pure, exec.
  destruct (parse _ _) as [data|e]; [|done].
  destruct (updateUser _ _ _ _) as [[[user|] db']|e] eqn:Hu; [|done..].
  simpl. intros [= <-]. exists user. split; [done|].
  unfold updateUser in Hu.
  apply bind_Ok in Hu as ([rs db''] & Hu & [= Hh <-]).
  apply update_where_select in Hu. subst rs.
  apply head_Some_elem_of in Hh.
  by apply list_elem_of_filter in Hh as [_ Hin].
Qed.

(** C10.  The user object of a response to register, login, get-profile or
    update-profile is a row of the users table without its password field:
    it has no password property (and its other properties are those of the
    row, see [userWithoutPassword_other]), for every request and every
    store. *)
Theorem user_objects_carry_no_password env amb req db :
  (∀ o, response_user (register env amb req db).1 = Some o →
        o !! "password" = None
        ∧ ∃ row, o = userWithoutPassword row
                 ∧ row ∈ t_users (register env amb req db).2)
  ∧ (∀ o, response_user (login env amb req db).1 = Some o →
          o !! "password" = None
          ∧ ∃ row, o = userWithoutPassword row ∧ row ∈ t_users db)
  ∧ (∀ o, response_user (get_profile env amb req db).1 = Some o →
          o !! "password" = None
          ∧ ∃ row, o = userWithoutPassword row ∧ row ∈ t_users db)
  ∧ (∀ o, response_user (update_profile env amb req db).1 = Some o →
          o !! "password" = None
          ∧ ∃ row, o = userWithoutPassword row
                   ∧ row ∈ t_users (update_profile env amb req db).2).
Proof.
  split_and!; intros o Ho.
  - destruct (register_user _ _ _ _ _ Ho) as (row & -> & Hrow).
    split; [apply userWithoutPassword_password | by exists row].
  - destruct (login_user _ _ _ _ _ Ho) as (row & -> & Hrow).
    split; [apply userWithoutPassword_password | by exists row].
  - destruct (get_profile_user _ _ _ _ _ Ho) as (row & -> & Hrow).
    split; [apply userWithoutPassword_password | by exists row].
  - destruct (update_profile_user _ _ _ _ _ Ho) as (row & -> & Hrow).
    split; [apply userWithoutPassword_password | by exists row].
Qed.

End Facts.

(** ** The claims on the sample deployment *)

(** A closed equation between values with decidable equality, by running
    the decision. *)
Ltac by_running := apply (bool_decide_unpack _); vm_compute; exact I.

(** C6, as stated, fails: the claim says that every status update to 'failed'
    adds exactly 1 to the retry count; the notification whose count is
    2147483647 cannot take one more, the update is refused and the count
    stays. *)
Lemma retry_count_stops_at_int4_max :
  ¬ (∀ (L : Libraries) env amb req req' db n,
       authMiddleware env amb req = inr req' →
       body req !! "status" = Some (JStr "failed") →
       select_where Pg.Notifications "id" (JStr (params_id req)) db = [n] →
       row_ok Pg.Notifications n = true →
       ∃ n',
         select_where Pg.Notifications "id" (JStr (params_id req))
           (update_notification_status env amb req db).2 = [n']
         ∧ retryCount_of n' = retryCount_of n + 1).
Proof.
  intros Hclaim.
  pose (req := Sample.request (Some Sample.worker_token) "n-2"
                 {[ "status" := JStr "failed" ]}).
  destruct (Hclaim Sample.libs Sample.env Sample.amb req
              (with_user Sample.worker_payload req) Sample.db
              Sample.worn_notification) as (n' & Hsel & Hcount);
    [by_running..|].
  assert (select_where Pg.Notifications "id" (JStr (params_id req))
            (@update_notification_status Sample.libs Sample.env Sample.amb
               req Sample.db).2 = [Sample.worn_notification]) as Hsame
    by by_running.
  rewrite Hsame in Hsel. injection Hsel as <-. lia.
Qed.

Lemma retry_count_bookkeeping_witness :
  let req := Sample.request (Some Sample.worker_token) "n-1"
               {[ "status" := JStr "failed" ]} in
  ∃ n',
    (@update_notification_status Sample.libs Sample.env Sample.amb req
       Sample.db).1 = Success 200 (DataRow n') (now Sample.amb)
    ∧ retryCount_of n' = 1.
Proof.
  intros req.
  pose proof (proj2 (proj2 (@retry_count_bookkeeping Sample.libs Sample.env
                              Sample.amb))
                req (with_user Sample.worker_payload req) Sample.db
                Sample.sent_notification (JStr "failed")
                ltac:(by_running) ltac:(by_running)
                ltac:(reflexivity) ltac:(by_running)
                ltac:(by_running)) as Hw.
  cbv zeta in Hw. rewrite bool_decide_false in Hw by (by intros [_ [=]]).
  destruct Hw as (n' & Hres & _ & Hcount).
  exists n'. split; [done|]. rewrite Hcount. reflexivity.
Defined.

(** C2, as stated, fails: the claim says that a status transition on a
    notification that is 'sent' is rejected and leaves it unchanged; the
    handler accepts 'failed' for the sent notification of the sample, which
    becomes 'failed', loses its sent time and gains a failed attempt. *)
Lemma sent_notification_can_be_failed :
  ¬ (∀ (L : Libraries) env amb req req' db n,
       authMiddleware env amb req = inr req' →
       select_where Pg.Notifications "id" (JStr (params_id req)) db = [n] →
       n !! "status" = Some (JStr "sent") →
       res_success (update_notification_status env amb req db).1 = false
       ∧ (update_notification_status env amb req db).2 = db).
Proof.
  intros Hclaim.
  pose (req := Sample.request (Some Sample.worker_token) "n-1"
                 {[ "status" := JStr "failed";
                    "errorMessage" := JStr "handset unreachable" ]}).
  destruct (Hclaim Sample.libs Sample.env Sample.amb req
              (with_user Sample.worker_payload req) Sample.db
              Sample.sent_notification) as [Hres _]; [by_running..|].
  assert (res_success
            (@update_notification_status Sample.libs Sample.env Sample.amb
               req Sample.db).1 = true) as Hok by by_running.
  congruence.
Qed.

Lemma sent_is_not_terminal_witness :
  let req := Sample.request (Some Sample.worker_token) "n-1"
               {[ "status" := JStr "failed";
                  "errorMessage" := JStr "handset unreachable" ]} in
  ∃ n' db',
    @update_notification_status Sample.libs Sample.env Sample.amb req
      Sample.db = (Success 200 (DataRow n') (now Sample.amb), db')
    ∧ n' !! "status" = Some (JStr "failed")
    ∧ n' !! "sentAt" = Some JNull.
Proof.
  intros req.
  destruct (@sent_is_not_terminal Sample.libs Sample.env Sample.amb req
              (with_user Sample.worker_payload req) Sample.db
              Sample.sent_notification "failed"
              ltac:(by_running) ltac:(by_running) ltac:(done)
              ltac:(by_running) ltac:(by_running)
              ltac:(by_running) ltac:(intros _; reflexivity))
    as (n' & db' & Hout & _ & Hstatus & Hsent).
  exists n', db'. split_and!; assumption.
Defined.

(** C1, as stated, fails: the claim says that a review never moves a record
    backward along pending < reviewed < verified; the administrator of the
    sample sets the verified diagnostic back to 'pending'. *)
Lemma verified_diagnostic_set_back_to_pending :
  ¬ (∀ (L : Libraries) env amb req db d d' r r',
       select_where Pg.Diagnostics "id" (JStr (params_id req)) db = [d] →
       select_where Pg.Diagnostics "id" (JStr (params_id req))
         (review_diagnostic env amb req db).2 = [d'] →
       review_rank (d !! "reviewStatus") = Some r →
       review_rank (d' !! "reviewStatus") = Some r' →
       (r ≤ r')%nat).
Proof.
  intros Hclaim.
  pose (req := Sample.request (Some Sample.admin_token) "d-1"
                 {[ "reviewStatus" := JStr "pending" ]}).
  pose (d' := <["reviewStatus" := JStr "pending"]>
                (<["reviewedAt" := JDate (now Sample.amb)]>
                   (<["reviewNotes" := JNull]> Sample.verified_diagnostic))).
  specialize (Hclaim Sample.libs Sample.env Sample.amb req Sample.db
                Sample.verified_diagnostic d' 2%nat 0%nat
                ltac:(by_running) ltac:(by_running)
                ltac:(reflexivity) ltac:(reflexivity)).
  lia.
Qed.

Lemma review_stores_the_requested_status_witness :
  let req := Sample.request (Some Sample.admin_token) "d-1"
               {[ "reviewStatus" := JStr "pending" ]} in
  Sample.verified_diagnostic !! "reviewStatus" = Some (JStr "verified")
  ∧ ∃ d' db',
      @review_diagnostic Sample.libs Sample.env Sample.amb req Sample.db
      = (Success 200 (DataRow d') (now Sample.amb), db')
      ∧ d' !! "reviewStatus" = Some (JStr "pending").
Proof.
  intros req. split; [reflexivity|].
  destruct (@review_stores_the_requested_status Sample.libs Sample.env
              Sample.amb req (with_user Sample.admin_payload req) Sample.db
              Sample.verified_diagnostic "u-admin" Sample.admin "pending"
              ltac:(by_running) ltac:(by_running) ltac:(reflexivity)
              ltac:(by_running) ltac:(by_running) ltac:(done)
              ltac:(by_running))
    as (d' & db' & Hout & _ & Hstatus & _).
  exists d', db'. split; assumption.
Defined.

(** C3, as stated, fails: the claim says that the token of an identity whose
    active flag is false is rejected; the token issued at [t0] to the
    deactivated health worker of the sample is accepted a minute later. *)
Lemma deactivated_worker_is_not_rejected :
  ¬ (∀ (L : Libraries) env issued amb req u db,
       getUser (prop u "id") db = Some u →
       u !! "isActive" = Some (JBool false) →
       authorization req = Some ("Bearer " +:+ generateToken env issued u) →
       ∃ res, authMiddleware env amb req = inl res).
Proof.
  intros Hclaim.
  pose (issued := mkAmbient Sample.t0 "" "" "").
  pose (req := Sample.request
                 (Some (@generateToken Sample.libs Sample.env issued
                          Sample.worker)) "" ∅).
  destruct (Hclaim Sample.libs Sample.env issued Sample.amb req Sample.worker
              Sample.db) as [res Hres]; [by_running..|].
  assert (@authMiddleware Sample.libs Sample.env Sample.amb req
          = inr (with_user Sample.worker_payload req)) as Hnext by by_running.
  congruence.
Qed.

Lemma deactivated_identity_is_authenticated_witness :
  let req := Sample.request (Some Sample.worker_token) "" ∅ in
  Sample.worker !! "isActive" = Some (JBool false)
  ∧ @get_profile Sample.libs Sample.env Sample.amb req Sample.db
    = (Success 200 (DataRow (userWithoutPassword Sample.worker))
         (now Sample.amb), Sample.db).
Proof.
  intros req. split; [reflexivity|].
  apply (@deactivated_identity_is_authenticated Sample.libs Sample.env
           Sample.amb req Sample.worker_token Sample.worker_payload
           "u-worker" Sample.worker Sample.db);
    first [reflexivity | by_running].
Defined.

(** C4: the handler of POST /api/notifications/send at a valid request for an
    urgent SMS, on a host where Twilio is not configured.  The sender would
    report success, but the handler does not call it: the notification is
    stored and returned with status 'pending', no sent time and retry count
    0, where the claim says 'sent'. *)
Lemma send_leaves_the_notification_pending :
  let req := Sample.request (Some Sample.worker_token) ""
               {[ "type" := JStr "sms"; "recipient" := JStr "+26771234567";
                  "message" := JStr "Malaria test result: POSITIVE.";
                  "priority" := JStr "urgent";
                  "diagnosticId" := JStr "d-1" ]} in
  let n := <["createdAt" := JDate (now Sample.amb)]>
             (Sample.notification (uuid Sample.amb) "pending" JNull 0) in
  isTwilioConfigured Sample.env = false
  ∧ (sendSMS Sample.env "+26771234567" "Malaria test result: POSITIVE.").2
    = mkSendResult true None
  ∧ @send_notification Sample.libs Sample.env Sample.amb req Sample.db
    = (Success 201 (DataRow n) (now Sample.amb),
       set_rows Pg.Notifications (t_notifications Sample.db ++ [n]) Sample.db)
  ∧ n !! "status" = Some (JStr "pending")
  ∧ n !! "sentAt" = Some JNull
  ∧ n !! "retryCount" = Some (JNum 0).
Proof. intros req n. split_and!; first [reflexivity | by_running]. Qed.

Lemma consumeReset_outcomes_witness :
  let req := Sample.request None ""
               {[ "token" := JStr "reset-1";
                  "newPassword" := JStr "N3w-Secret!" ]} in
  ∃ db',
    @reset_password Sample.libs Sample.amb req Sample.db
    = (Success 200 (DataMessage "Password successfully reset" None)
         (now Sample.amb), db')
    ∧ @reset_password Sample.libs Sample.amb req db'
      = (failure Sample.amb 400 "INVALID_TOKEN"
           "Invalid or expired reset token", db').
Proof.
  intros req.
  pose proof (proj2 (@consumeReset_outcomes Sample.libs Sample.amb req
                       Sample.db "reset-1" "N3w-Secret!"
                       ltac:(reflexivity) ltac:(done) ltac:(reflexivity)
                       ltac:(by_running))
                Sample.reset_token ltac:(by_running)) as [_ Hunused].
  specialize (Hunused (Sample.t0 + 3600000) ltac:(reflexivity)
                ltac:(reflexivity)).
  rewrite bool_decide_false in Hunused by by_running.
  destruct (Hunused "t-1" ltac:(reflexivity))
    as (db' & Hok & _ & _ & _ & Hagain).
  exists db'. split; [exact Hok|].
  apply (Hagain Sample.amb req "N3w-Secret!"); first [reflexivity | by_running].
Defined.

(** C7: the handler of POST /api/auth/forgot-password for a registered
    address on the host of the sample whose zone leaves daylight saving time,
    at 2024-11-03T05:30:00Z (01:30 local time, before the clocks go back).
    [getHours() + 1] is 2, and 02:30 local time of that day is 07:30 UTC: the
    reset token expires two hours after the request, where the claim (and the
    comment of the handler) say one hour.  On the host in UTC the same request
    gives a token that expires one hour after it. *)
Lemma reset_token_expires_two_hours_later_when_clocks_go_back :
  let amb := mkAmbient 1730611800000 "uuid-1" "nano-1" "salt" in
  let req := Sample.request None "" {[ "email" := JStr "thato@clinic.bw" ]} in
  let token expiresAt : Row :=
    {[ "id" := JStr "uuid-1"; "userId" := JStr "u-worker";
       "token" := JStr "nano-1"; "expiresAt" := JDate expiresAt;
       "usedAt" := JNull; "createdAt" := JDate (now amb) ]} in
  let answer tokens :=
    (Success 200
       (DataMessage "Password reset instructions sent to your email" None)
       (now amb),
     set_rows Pg.PasswordResetTokens tokens Sample.db) in
  @forgot_password Sample.libs_eastern Sample.env amb req Sample.db
  = answer [Sample.reset_token; token (now amb + 2 * 3600000)]
  ∧ @forgot_password Sample.libs Sample.env amb req Sample.db
    = answer [Sample.reset_token; token (now amb + 3600000)].
Proof. intros amb req token answer. split; by_running. Qed.

(** C8 on the sample: the health worker submits an image with the fields of
    the integration guide, and a review status of their own.  The answer is
    400 VALIDATION_ERROR for the test date and nothing is stored; the same
    record with a Date for the test date is stored by [createDiagnostic] as
    'pending'. *)
Lemma submission_is_never_stored_witness :
  let req := mkRequest (Some ("Bearer " +:+ Sample.worker_token))
               {[ "patientId" := JStr "p-1"; "result" := JStr "positive";
                  "parasiteCount" := JStr "1250";
                  "aiConfidenceScore" := JStr "94";
                  "reviewStatus" := JStr "verified" ]}
               "" (Some (mkFile "smear.png" "")) None in
  let out := @submit_diagnostic Sample.libs Sample.env Sample.amb req
               Sample.db in
  let o : Obj :=
    {[ "patientId" := JStr "p-1"; "submittedById" := JStr "u-worker";
       "imageUrl" := JStr "http://localhost:5000/uploads/nano-1_smear.png";
       "result" := JStr "positive"; "parasiteCount" := JNum 1250;
       "aiConfidenceScore" := JNum 94; "reviewStatus" := JStr "verified";
       "testDate" := JDate Sample.t0 ]} in
  out.1 = failure Sample.amb 400 "VALIDATION_ERROR" "Invalid input: testDate"
  ∧ res_success out.1 = false
  ∧ out.2 = Sample.db
  ∧ ∃ data d db',
      @parse Sample.libs Schema.insertDiagnosticSchema o = Ok data
      ∧ @createDiagnostic Sample.libs Sample.amb data Sample.db = Ok (d, db')
      ∧ d !! "reviewStatus" = Some (JStr "pending").
Proof.
  intros req out o.
  destruct (@submission_is_never_stored Sample.libs Sample.env Sample.amb)
    as [Hattempt Hslip].
  destruct (Hslip req Sample.db) as (Hfail & Hdb & _).
  { intros v [w Hw]. destruct v; try discriminate Hw. by eexists. }
  { intros t. by_running. }
  split; [by_running|]. split; [exact Hfail|]. split; [exact Hdb|].
  pose (data := delete "reviewStatus" o).
  pose (d := <["submittedById" := JStr "u-worker"]>
               ({[ "id" := JStr "uuid-1"; "patientId" := JStr "p-1";
                   "imageUrl"
                     := JStr "http://localhost:5000/uploads/nano-1_smear.png";
                   "result" := JStr "positive"; "parasiteCount" := JNum 1250;
                   "aiConfidenceScore" := JNum 94;
                   "reviewStatus" := JStr "pending"; "reviewedById" := JNull;
                   "reviewedAt" := JNull; "reviewNotes" := JNull;
                   "symptoms" := JNull; "testDate" := JDate Sample.t0;
                   "createdAt" := JDate (now Sample.amb) ]} : Row)).
  assert (@parse Sample.libs Schema.insertDiagnosticSchema o = Ok data)
    as Hp by by_running.
  assert (@createDiagnostic Sample.libs Sample.amb data Sample.db
          = Ok (d, set_rows Pg.Diagnostics (t_diagnostics Sample.db ++ [d])
                     Sample.db)) as Hc by by_running.
  exists data, d,
    (set_rows Pg.Diagnostics (t_diagnostics Sample.db ++ [d]) Sample.db).
  split; [exact Hp|]. split; [exact Hc|].
  exact (proj1 (Hattempt o data Sample.db d _ Hp Hc)).
Defined.

Lemma register_takes_the_role_of_the_request_witness :
  let req := Sample.request None ""
               {[ "email" := JStr "mallory@example.org";
                  "password" := JStr "Sup3r-Secret";
                  "fullName" := JStr "Mallory";
                  "role" := JStr "super_admin" ]} in
  authorization req = None
  ∧ ∃ row db',
      @register Sample.libs Sample.env Sample.amb req Sample.db
      = (Success 201
           (DataUserToken (userWithoutPassword row)
              (@generateToken Sample.libs Sample.env Sample.amb row))
           (now Sample.amb), db')
      ∧ row !! "role" = Some (JStr "super_admin").
Proof.
  intros req. split; [reflexivity|].
  destruct (@register_takes_the_role_of_the_request Sample.libs Sample.env
              Sample.amb req Sample.db (body req)
              ltac:(by_running) ltac:(reflexivity) ltac:(by_running)
              ltac:(by_running))
    as (row & db' & Hout & _ & Hrole & _).
  exists row, db'. split; [exact Hout|].
  by apply (Hrole (JStr "super_admin")).
Defined.

Lemma user_objects_carry_no_password_witness :
  let req := Sample.request None ""
               {[ "email" := JStr "admin@moh.bw";
                  "password" := JStr "admin-secret" ]} in
  Sample.admin !! "password"
  = Some (JStr (Sample.digest "admin-secret" 10 "salt"))
  ∧ ∃ o,
      response_user (@login Sample.libs Sample.env Sample.amb req Sample.db).1
      = Some o
      ∧ o !! "password" = None.
Proof.
  intros req. split; [reflexivity|].
  exists (userWithoutPassword Sample.admin).
  assert (response_user
            (@login Sample.libs Sample.env Sample.amb req Sample.db).1
          = Some (userWithoutPassword Sample.admin)) as Hres by by_running.
  split; [exact Hres|].
  apply (proj1 (proj2 (@user_objects_carry_no_password Sample.libs Sample.env
                         Sample.amb req Sample.db)) _ Hres).
Defined.

(** ** Tactics for the schemas

    The cases of a column of a table, and a property that a schema does not
    name. *)

Ltac columns_cases Hc :=
  repeat (apply elem_of_cons in Hc as [->|Hc]); [..|by apply elem_of_nil in Hc].

Ltac stripped Hp :=
  symmetry + idtac;
  eapply parse_stripped;
  [exact Hp | apply (bool_decide_unpack _); by vm_compute].


(** ** The store stays consistent *)

Section Consistency.

Context `{Libraries} `{Postgres}.

Lemma rows_set_rows_at t t' l db :
  rows t' (set_rows t l db) = if decide (t = t') then l else rows t' db.
Proof.
  case_decide as Ht; [subst; apply rows_set_rows | by apply rows_set_rows_ne].
Qed.

Lemma insert_rows amb t o db r db' t' :
  insert amb t o db = Ok (r, db') →
  rows t' db' = if decide (t = t') then rows t' db ++ [r] else rows t' db.
Proof.
  intros [_ ->]%insert_Ok. rewrite rows_set_rows_at. by case_decide; subst.
Qed.

(** *** Deletion *)

Lemma referenced_spec t r db :
  referenced t r db = true ↔
  ∃ t' c r', c ∈ Schema.columns t' ∧ r' ∈ rows t' db
             ∧ refers_to t r c r' = true.
Proof.
  unfold referenced. rewrite existsb_exists. split.
  - intros (t' & _ & (c & Hc & (r' & Hr & Hx)%existsb_exists)%existsb_exists).
    exists t', c, r'. by rewrite <- !list_elem_of_In in *.
  - intros (t' & c & r' & Hc & Hr & Hx). exists t'. split.
    { destruct t'; simpl; tauto. }
    apply existsb_exists. exists c. rewrite <- list_elem_of_In. split; [done|].
    apply existsb_exists. exists r'. by rewrite <- list_elem_of_In.
Qed.

Lemma refers_to_spec t r c r' :
  refers_to t r c r' = true ↔
  ∃ k v, Pg.references c = Some (t, k) ∧ r' !! Pg.name c = Some v
         ∧ v ≠ JNull ∧ r !! k = Some v.
Proof.
  unfold refers_to. split.
  - destruct (Pg.references c) as [[t' k]|]; [|done].
    destruct (r' !! Pg.name c) as [v|]; [|done].
    intros (-> & Hv & Hr)%bool_decide_eq_true. by exists k, v.
  - intros (k & v & -> & -> & Hv & Hr). by apply bool_decide_eq_true.
Qed.

Lemma delete_where_Ok t k v db db' :
  delete_where t k v db = Ok db' ↔
  (∀ r, r ∈ select_where t k v db → referenced t r db = false)
  ∧ db' = set_rows t (filter (fun r => negb (matches k v r)) (rows t db)) db.
Proof.
  unfold delete_where.
  destruct (existsb _ _) eqn:He.
  - split; [done|]. intros [Hn _].
    apply existsb_exists in He as (r & Hr%list_elem_of_In & Hx).
    by rewrite (Hn r Hr) in Hx.
  - split.
    + intros [= <-]. split; [|done]. intros r Hr.
      destruct (referenced t r db) eqn:Hx; [|done].
      assert (existsb (fun r => referenced t r db) (select_where t k v db)
              = true) as Ht; [|by rewrite Ht in He].
      apply existsb_exists. exists r. by rewrite <- list_elem_of_In.
    + by intros [_ ->].
Qed.

Lemma delete_rows t k v db db' t' r :
  delete_where t k v db = Ok db' → r ∈ rows t' db' →
  r ∈ rows t' db ∧ (t' = t → matches k v r = false).
Proof.
  intros [_ ->]%delete_where_Ok. rewrite rows_set_rows_at.
  case_decide as Ht.
  - subst. intros [Hm Hr]%list_elem_of_filter. split; [done|].
    intros _. by destruct (matches k v r).
  - done.
Qed.

Lemma delete_rows_kept t k v db db' t' r :
  delete_where t k v db = Ok db' → r ∈ rows t' db →
  (t' = t → matches k v r = false) → r ∈ rows t' db'.
Proof.
  intros [_ ->]%delete_where_Ok Hr Hm. rewrite rows_set_rows_at.
  case_decide as Ht; [|done]. subst.
  apply list_elem_of_filter. split; [|done]. by rewrite Hm.
Qed.

(** *** Conformance *)

Lemma update_row_ok db t set old new :
  row_ok t old = true →
  update_row db (Schema.columns t) set old = Ok new →
  row_ok t new = true.
Proof.
  intros Hok Hup. unfold row_ok. apply forallb_forall.
  intros c Hc%list_elem_of_In. unfold column_ok.
  destruct (set !! Pg.name c) as [f|] eqn:Hs.
  - destruct (update_row_written _ _ _ _ _ _ _ (columns_NoDup t) Hc Hs Hup)
      as (v & Hv & _ & ->).
    apply bool_decide_eq_true. by eapply store_value_idem.
  - rewrite (update_row_other _ _ _ _ _ _ Hup Hs).
    destruct (row_ok_column _ _ _ Hok Hc) as (v & -> & Hv).
    by apply bool_decide_eq_true.
Qed.

Lemma Forall2_elem_r {A B} (R : A -> B -> Prop) l k b :
  Forall2 R l k → b ∈ k → ∃ a, a ∈ l ∧ R a b.
Proof.
  induction 1 as [|x y l k Hxy _ IH]; [by intros ?%elem_of_nil|].
  intros [->|Hb]%elem_of_cons.
  - exists x. split; [left | done].
  - destruct (IH Hb) as (a & Ha & HR). exists a. split; [by right | done].
Qed.

Lemma Forall2_elem_l {A B} (R : A -> B -> Prop) l k a :
  Forall2 R l k → a ∈ l → ∃ b, b ∈ k ∧ R a b.
Proof.
  induction 1 as [|x y l k Hxy _ IH]; [by intros ?%elem_of_nil|].
  intros [->|Ha]%elem_of_cons.
  - exists y. split; [left | done].
  - destruct (IH Ha) as (b & Hb & HR). exists b. split; [by right | done].
Qed.

Lemma update_rows t k v set db rs db' t' :
  update_where t k v set db = Ok (rs, db') →
  if decide (t = t')
  then Forall2 (updated t k v set db) (rows t' db) (rows t' db')
  else rows t' db' = rows t' db.
Proof.
  intros Hup. case_decide as Ht.
  - subst. by eapply update_where_rows.
  - apply update_where_Ok in Hup as (l & _ & _ & ->).
    by apply rows_set_rows_ne.
Qed.

Lemma conforms_kept : Kept conforms.
Proof.
  split.
  - intros amb t o db r db' HP Hi t' r' Hr'.
    rewrite (insert_rows _ _ _ _ _ _ t' Hi) in Hr'.
    case_decide as Ht; [subst t'|by apply HP].
    apply elem_of_app in Hr' as [Hr'|Hr'%list_elem_of_singleton];
      [by apply HP|subst r'].
    apply insert_Ok in Hi as [Hi _]. by eapply insert_row_ok.
  - intros t k v set db rs db' _ HP Hup t' r' Hr'.
    pose proof (update_rows _ _ _ _ _ _ _ t' Hup) as Hrows.
    case_decide as Ht; [subst t'|rewrite Hrows in Hr'; by apply HP].
    destruct (Forall2_elem_r _ _ _ _ Hrows Hr') as (old & Hold & Hu).
    unfold updated in Hu. destruct (matches k v old).
    + eapply update_row_ok; [|exact Hu]. by apply HP.
    + subst r'. by apply HP.
  - intros t k v db db' HP Hd t' r' Hr'.
    destruct (delete_rows _ _ _ _ _ _ _ Hd Hr') as [Hr _]. by apply HP.
Qed.

(** *** Unique columns *)

Lemma filter_length_app (p : Row -> bool) (l k : list Row) :
  length (filter (fun r => p r) (l ++ k))
  = (length (filter (fun r => p r) l) + length (filter (fun r => p r) k))%nat.
Proof. by rewrite filter_app, length_app. Qed.

Lemma Forall2_filter_length {A} (R : A -> A -> Prop) (p q : A -> bool) l k :
  Forall2 R l k → (∀ a b, R a b → p a = q b) →
  length (filter (fun a => p a) l) = length (filter (fun b => q b) k).
Proof.
  intros HF Hpq. induction HF as [|x y l k Hxy _ IH]; [done|].
  rewrite !filter_cons, <- (Hpq _ _ Hxy).
  destruct (p x); simpl; by rewrite IH.
Qed.

Lemma filter_filter_length (p q : Row -> bool) (l : list Row) :
  (length (filter (fun r => p r) (filter (fun r => q r) l))
   ≤ length (filter (fun r => p r) l))%nat.
Proof.
  induction l as [|x l IH]; [done|].
  rewrite !filter_cons. destruct (q x), (p x) eqn:Hp; simpl;
    rewrite ?filter_cons, ?Hp; simpl; lia.
Qed.

Lemma updated_matches t k v set db old new k' v' :
  set !! k' = None → updated t k v set db old new →
  matches k' v' old = matches k' v' new.
Proof.
  intros Hs Hu. unfold updated in Hu. destruct (matches k v old).
  - symmetry. by eapply update_row_matches.
  - by subst.
Qed.

Lemma keys_unique_kept : Kept keys_unique.
Proof.
  split.
  - intros amb t o db r db' HP Hi t' c v Hc Hu.
    unfold select_where. rewrite (insert_rows _ _ _ _ _ _ t' Hi).
    case_decide as Ht; [subst t'|by apply HP].
    rewrite filter_length_app.
    destruct (matches (Pg.name c) v r) eqn:Hm.
    + apply insert_Ok in Hi as [Hi _].
      destruct (insert_row_lookup _ _ _ _ _ _ c (columns_NoDup t) Hc Hi)
        as (w & _ & Hq & _ & Hw).
      pose proof Hm as [_ Hm']%matches_spec.
      assert (w = v) as -> by congruence.
      unfold check_unique in Hq. rewrite Hu in Hq.
      unfold select_where in Hq.
      destruct (filter _ (rows t db)) eqn:Hf; [|done].
      rewrite filter_cons, Hm. simpl. lia.
    + rewrite filter_cons, Hm. simpl.
      specialize (HP t c v Hc Hu). unfold select_where in HP. lia.
  - intros t k v set db rs db' Hset HP Hup t' c w Hc Hu.
    pose proof (update_rows _ _ _ _ _ _ _ t' Hup) as Hrows.
    unfold select_where.
    case_decide as Ht; [subst t'|rewrite Hrows; by apply HP].
    rewrite <- (Forall2_filter_length _ (matches (Pg.name c) w)
                  (matches (Pg.name c) w) _ _ Hrows).
    + by apply HP.
    + intros a b Hab. eapply updated_matches; [|exact Hab]. by apply Hset.
  - intros t k v db db' HP Hd t' c w Hc Hu.
    apply delete_where_Ok in Hd as [_ ->].
    unfold select_where. rewrite rows_set_rows_at.
    case_decide as Ht; [subst t'|by apply HP].
    etrans; [apply filter_filter_length|]. by apply HP.
Qed.

(** *** Foreign keys *)

Lemma check_reference_Ok db c v t k :
  check_reference db c v = Ok () → Pg.references c = Some (t, k) →
  v ≠ JNull → ∃ r, r ∈ rows t db ∧ r !! k = Some v.
Proof.
  unfold check_reference. intros Hc Href Hv. rewrite Href in Hc.
  assert (select_where t k v db ≠ []) as Hs.
  { destruct v; try done; by destruct (select_where _ _ _ _). }
  destruct (select_where t k v db) as [|r l] eqn:Hsel; [done|].
  assert (r ∈ select_where t k v db) as Hr by (rewrite Hsel; left).
  apply list_elem_of_filter in Hr as [Hm%Is_true_true Hr].
  apply matches_spec in Hm as [_ Hm]. by exists r.
Qed.

(** Every foreign key of the schema refers to a unique column. *)
Lemma references_unique t c t' k :
  c ∈ Schema.columns t → Pg.references c = Some (t', k) →
  ∃ c', c' ∈ Schema.columns t' ∧ Pg.name c' = k ∧ Pg.unique c' = true.
Proof.
  intros Hc Hr.
  assert (k = "id") as ->.
  { destruct t; simpl in Hc; columns_cases Hc; cbv in Hr; by simplify_eq. }
  exists (Pg.with_default Pg.DefaultUuid
            (Pg.with_primaryKey (Pg.col "id" Pg.PgVarchar))).
  split; [|done]. destruct t'; left.
Qed.

Lemma references_hold_kept : Kept references_hold.
Proof.
  split.
  - intros amb t o db r db' HP Hi t1 c t' k r1 v Hc Href Hr1 Hv Hn.
    assert (∃ r', r' ∈ rows t' db ∧ r' !! k = Some v) as (r' & Hr' & Hk).
    { rewrite (insert_rows _ _ _ _ _ _ t1 Hi) in Hr1.
      case_decide as Ht; [subst t1|by eapply HP].
      apply elem_of_app in Hr1 as [Hr1|Hr1%list_elem_of_singleton];
        [by eapply HP|subst r1].
      apply insert_Ok in Hi as [Hi _].
      destruct (insert_row_lookup _ _ _ _ _ _ c (columns_NoDup t) Hc Hi)
        as (w & _ & _ & Hq & Hw).
      assert (w = v) as -> by congruence.
      by eapply check_reference_Ok. }
    exists r'. split; [|done].
    rewrite (insert_rows _ _ _ _ _ _ t' Hi).
    case_decide; [|done]. apply elem_of_app. by left.
  - intros t k0 v0 set db rs db' Hset HP Hup t1 c t' k r1 v Hc Href Hr1 Hv Hn.
    assert (∃ r', r' ∈ rows t' db ∧ r' !! k = Some v) as (r' & Hr' & Hk).
    { pose proof (update_rows _ _ _ _ _ _ _ t1 Hup) as Hrows.
      case_decide as Ht; [subst t1|rewrite Hrows in Hr1; by eapply HP].
      destruct (Forall2_elem_r _ _ _ _ Hrows Hr1) as (old & Hold & Hu).
      unfold updated in Hu. destruct (matches k0 v0 old).
      - destruct (set !! Pg.name c) as [f|] eqn:Hs.
        + destruct (update_row_written _ _ _ _ _ _ _ (columns_NoDup t) Hc Hs Hu)
            as (w & _ & Hq & Hw).
          assert (w = v) as -> by congruence.
          by eapply check_reference_Ok.
        + rewrite (update_row_other _ _ _ _ _ _ Hu Hs) in Hv. by eapply HP.
      - subst r1. by eapply HP. }
    pose proof (update_rows _ _ _ _ _ _ _ t' Hup) as Hrows.
    case_decide as Ht; [subst t'|rewrite Hrows; by exists r'].
    destruct (Forall2_elem_l _ _ _ _ Hrows Hr') as (new & Hnew & Hu).
    exists new. split; [done|].
    destruct (references_unique _ _ _ _ Hc Href) as (c' & Hc' & <- & Hu').
    unfold updated in Hu. destruct (matches k0 v0 r'); [|by subst].
    rewrite (update_row_other _ _ _ _ _ _ Hu); [done|]. by apply Hset.
  - intros t k0 v0 db db' HP Hd t1 c t' k r1 v Hc Href Hr1 Hv Hn.
    destruct (delete_rows _ _ _ _ _ _ _ Hd Hr1) as [Hr1' _].
    destruct (HP _ _ _ _ _ _ Hc Href Hr1' Hv Hn) as (r' & Hr' & Hk).
    exists r'. split; [|done].
    eapply delete_rows_kept; [done..|]. intros ->.
    destruct (matches k0 v0 r') eqn:Hm; [|done].
    pose proof Hd as [Hno _]%delete_where_Ok.
    rewrite <- (Hno r').
    + symmetry. apply referenced_spec. exists t1, c, r1.
      split_and!; [done..|]. apply refers_to_spec. by exists k, v.
    + apply list_elem_of_filter. by rewrite Hm.
Qed.

(** *** The statements of the handlers *)

(** The unique columns of each table. *)
Lemma unique_names t c :
  c ∈ Schema.columns t → Pg.unique c = true →
  Pg.name c ∈ match t with
              | Pg.Users => ["id"; "email"]
              | Pg.Patients => ["id"; "patientCode"]
              | Pg.PasswordResetTokens => ["id"; "token"]
              | _ => ["id"]
              end.
Proof.
  intros Hc Hu.
  destruct t; simpl in Hc; columns_cases Hc; cbv in Hu; try discriminate Hu;
    cbn [Pg.name Pg.col Pg.with_notNull Pg.with_default Pg.with_unique
         Pg.with_primaryKey Pg.with_references]; set_solver.
Qed.

Section Kept.

Context (P : Db -> Prop) (HK : Kept P).

Lemma insert_keeps amb t o db r db' :
  P db → insert amb t o db = Ok (r, db') → P db'.
Proof. apply HK. Qed.

Lemma updateUser_keeps amb id (data : Obj) db found db' :
  data !! "id" = None → data !! "email" = None →
  P db → updateUser amb id data db = Ok (found, db') → P db'.
Proof.
  intros Hid Hem HP ([rs db''] & Hu & [= _ <-])%bind_Ok.
  eapply (kept_update P HK); [|done..].
  intros c Hc Hq. rewrite lit_lookup.
  apply (unique_names _ _ Hc) in Hq.
  apply elem_of_cons in Hq as [->|[->|[]%elem_of_nil]%elem_of_cons];
    by rewrite lookup_insert_ne, ?Hid, ?Hem.
Qed.

Lemma updateLastLogin_keeps amb id db u db' :
  P db → updateLastLogin amb id db = Ok (u, db') → P db'.
Proof.
  intros HP ([rs db''] & Hu & [= _ <-])%bind_Ok.
  eapply (kept_update P HK); [|done..].
  intros c Hc Hq. rewrite lit_lookup.
  apply (unique_names _ _ Hc) in Hq.
  apply elem_of_cons in Hq as [->|[->|[]%elem_of_nil]%elem_of_cons];
    by rewrite lookup_singleton_ne.
Qed.

Lemma markTokenAsUsed_keeps amb id db u db' :
  P db → markTokenAsUsed amb id db = Ok (u, db') → P db'.
Proof.
  intros HP ([rs db''] & Hu & [= _ <-])%bind_Ok.
  eapply (kept_update P HK); [|done..].
  intros c Hc Hq. rewrite lit_lookup.
  apply (unique_names _ _ Hc) in Hq.
  apply elem_of_cons in Hq as [->|[->|[]%elem_of_nil]%elem_of_cons];
    by rewrite lookup_singleton_ne.
Qed.

Lemma updateDiagnosticReview_keeps amb id by_ st notes db found db' :
  P db → updateDiagnosticReview amb id by_ st notes db = Ok (found, db') →
  P db'.
Proof.
  intros HP ([rs db''] & Hu & [= _ <-])%bind_Ok.
  eapply (kept_update P HK); [|done..].
  intros c Hc Hq.
  apply (unique_names _ _ Hc) in Hq.
  apply list_elem_of_singleton in Hq as ->. apply reviewSet_id.
Qed.

Lemma updateNotificationStatus_keeps amb id st em db found db' :
  P db → updateNotificationStatus amb id st em db = Ok (found, db') → P db'.
Proof.
  intros HP ([rs db''] & Hu & [= _ <-])%bind_Ok.
  eapply (kept_update P HK); [|done..].
  intros c Hc Hq.
  apply (unique_names _ _ Hc) in Hq.
  apply list_elem_of_singleton in Hq as ->. apply statusSet_id.
Qed.

Lemma deleteUser_keeps id db u db' :
  P db → deleteUser id db = Ok (u, db') → P db'.
Proof.
  intros HP (db'' & Hd & [= _ <-])%bind_Ok. by eapply (kept_delete P HK).
Qed.

Lemma updateUser_password_keeps amb id hash db found db' :
  P db → updateUser amb id {["password" := hash]} db = Ok (found, db') → P db'.
Proof. by apply updateUser_keeps. Qed.

Lemma updateUser_profile_keeps amb id (b data : Obj) db found db' :
  parse Schema.updateProfileSchema b = Ok data →
  P db → updateUser amb id data db = Ok (found, db') → P db'.
Proof. intros Hp. apply updateUser_keeps; by stripped Hp. Qed.

Ltac keep :=
  first
    [ assumption
    | match goal with
      | Hi : insert _ _ _ _ = Ok (_, ?d) |- P ?d =>
          eapply insert_keeps; [|exact Hi]
      | Hi : updateUser _ _ {[ _ := _ ]} _ = Ok (_, ?d) |- P ?d =>
          eapply updateUser_password_keeps; [|exact Hi]
      | Hp : parse Schema.updateProfileSchema _ = Ok ?a,
        Hi : updateUser _ _ ?a _ = Ok (_, ?d) |- P ?d =>
          eapply (updateUser_profile_keeps _ _ _ _ _ _ _ Hp); [|exact Hi]
      | Hi : updateLastLogin _ _ _ = Ok (_, ?d) |- P ?d =>
          eapply updateLastLogin_keeps; [|exact Hi]
      | Hi : markTokenAsUsed _ _ _ = Ok (_, ?d) |- P ?d =>
          eapply markTokenAsUsed_keeps; [|exact Hi]
      | Hi : updateDiagnosticReview _ _ _ _ _ _ = Ok (_, ?d) |- P ?d =>
          eapply updateDiagnosticReview_keeps; [|exact Hi]
      | Hi : updateNotificationStatus _ _ _ _ _ = Ok (_, ?d) |- P ?d =>
          eapply updateNotificationStatus_keeps; [|exact Hi]
      | Hi : deleteUser _ _ = Ok (_, ?d) |- P ?d =>
          eapply deleteUser_keeps; [|exact Hi]
      end; keep ].

Ltac run :=
  unfold authorized, catch_400, catch_500, catch_500_list, authenticated,
    authenticated_list, plain, mbind, mret, Handler_bind,
    Handler_ret, pure, query, exec, read;
  repeat case_match; simplify_eq; cbn [snd fst];
  unfold createUser, createPatient, createDiagnostic, createNotification,
    createPasswordResetToken in *;
  keep.

(** Every handler keeps a property that the statements keep. *)
Lemma routes_keep route env amb q req db :
  P db → P (registerRoutes route env amb q req db).2.
Proof.
  intros HP. destruct route; unfold registerRoutes.
  - unfold register. by run.
  - unfold login. by run.
  - unfold forgot_password. by run.
  - unfold reset_password. by run.
  - unfold get_profile. by run.
  - unfold update_profile. by run.
  - unfold delete_account. by run.
  - unfold create_patient. by run.
  - unfold get_patients. by run.
  - unfold get_patient. by run.
  - unfold submit_diagnostic. by run.
  - unfold diagnostics_history. by run.
  - unfold get_diagnostic. by run.
  - unfold review_diagnostic. by run.
  - unfold send_notification. by run.
  - unfold notifications_history. by run.
  - unfold update_notification_status. by run.
  - done.
  - done.
Qed.

End Kept.


(** X1.  Each handler of [registerRoutes] (the nineteen of
    [Route]) leaves a store whose rows conform to their tables (each column
    present, of the type of the column, within its range, not NULL where the
    column is not null) when it finds one, whatever the request. *)
Theorem routes_keep_rows_conforming route env amb q req db :
  conforms db → conforms (registerRoutes route env amb q req db).2.
Proof. apply routes_keep, conforms_kept. Qed.

(** X2.  Each handler of [registerRoutes] (the nineteen of [Route])
    keeps the unique columns unique, whatever the request: no two rows of a
    table share an identifier, and no two identities an e-mail address, no two
    patients a patient code, no two reset tokens a token string. *)
Theorem routes_keep_keys_unique route env amb q req db :
  keys_unique db → keys_unique (registerRoutes route env amb q req db).2.
Proof. apply routes_keep, keys_unique_kept. Qed.

(** X3.  Each handler of [registerRoutes] (the nineteen of
    [Route]) keeps the foreign keys pointing at rows that exist, whatever the
    request: the creator of a patient, the patient, the submitter and the
    reviewer of a diagnostic, the identity and the diagnostic of a
    notification, the identity of a reset token. *)
Theorem routes_keep_references route env amb q req db :
  references_hold db →
  references_hold (registerRoutes route env amb q req db).2.
Proof. apply routes_keep, references_hold_kept. Qed.

(** *** Testing consistency *)

Lemma keys_unique_NoDup db :
  (∀ t c, c ∈ Schema.columns t → Pg.unique c = true →
          NoDup ((fun r : Row => r !! Pg.name c) <$> rows t db)) →
  keys_unique db.
Proof.
  intros Hnd t c v Hc Hu. specialize (Hnd t c Hc Hu).
  unfold select_where. induction (rows t db) as [|r l IH]; [simpl; lia|].
  rewrite fmap_cons in Hnd. apply NoDup_cons in Hnd as [Hr Hl].
  rewrite filter_cons. destruct (matches (Pg.name c) v r) eqn:Hm; simpl;
    [|by apply IH].
  assert (filter (fun r0 : Row => matches (Pg.name c) v r0) l = []) as ->;
    [|done].
  apply matches_spec in Hm as [_ Hm].
  destruct (filter (fun r0 : Row => matches (Pg.name c) v r0) l)
    as [|x l'] eqn:Hf; [done|].
  exfalso. apply Hr.
  assert (x ∈ filter (fun r0 : Row => matches (Pg.name c) v r0) l) as Hx
    by (rewrite Hf; left).
  apply list_elem_of_filter in Hx as [Hx%Is_true_true Hin].
  apply matches_spec in Hx as [_ Hx].
  apply list_elem_of_fmap. exists x. split; [simpl; congruence | done].
Qed.

Lemma references_check_sound db :
  references_check db = true → references_hold db.
Proof.
  intros Hck t c t' k r v Hc Href Hr Hv Hn.
  unfold references_check in Hck.
  rewrite forallb_forall in Hck.
  assert (In t [Pg.Users; Pg.Patients; Pg.Diagnostics; Pg.Notifications;
                Pg.PasswordResetTokens]) as Ht by (destruct t; simpl; tauto).
  specialize (Hck t Ht). rewrite forallb_forall in Hck.
  apply list_elem_of_In in Hc. specialize (Hck c Hc). rewrite Href in Hck.
  rewrite forallb_forall in Hck.
  apply list_elem_of_In in Hr. specialize (Hck r Hr). rewrite Hv in Hck.
  apply orb_true_iff in Hck as [Hck|Hck].
  - by apply bool_decide_eq_true in Hck.
  - apply existsb_exists in Hck as (r' & Hr' & Hk).
    exists r'. split; [by apply list_elem_of_In|].
    by apply bool_decide_eq_true in Hk.
Qed.

End Consistency.

(** ** Sessions, login and registration *)

Section Sessions.

Context `{Libraries} `{Postgres}.

Lemma lookup_set_prop_ne k v (o : Obj) k' :
  k ≠ k' → set_prop k v o !! k' = o !! k'.
Proof.
  intros Hk. destruct v; simpl;
    [by apply lookup_insert_ne | by apply lookup_delete_ne].
Qed.

Lemma lookup_set_prop_eq k v (o : Obj) : set_prop k v o !! k = v.
Proof.
  destruct v; simpl; [apply lookup_insert_eq | apply lookup_delete_eq].
Qed.

(** X4.  A session token is good for 24 hours, counted in whole
    seconds: the token [generateToken] issues for an identity is accepted by
    [authMiddleware], which attaches the id, e-mail and role of the identity
    to the request, as long as the clock has not reached the second of issue
    plus 86400; from then on the answer is 401 INVALID_TOKEN.  (jsonwebtoken
    is taken to verify what it has signed.) *)
Theorem session_token_lasts_24_hours env issued amb (u : Row) req :
  let payload : Obj :=
    set_prop "id" (u !! "id")
      (set_prop "email" (u !! "email")
         (set_prop "role" (u !! "role")
            (<["iat" := JNum (now issued / 1000)]>
               {["exp" := JNum (now issued / 1000 + 86400)]}))) in
  jwt_verify (jwt_sign payload (JWT_SECRET env)) (JWT_SECRET env)
  = Some payload →
  authorization req = Some ("Bearer " +:+ generateToken env issued u) →
  authMiddleware env amb req
  = if bool_decide (now amb / 1000 < now issued / 1000 + 86400)
    then inr (with_user payload req)
    else inl (failure amb 401 "INVALID_TOKEN" "Invalid or expired token").
Proof.
  intros payload Hv Hh.
  assert (payload !! "exp" = Some (JNum (now issued / 1000 + 86400))) as He.
  { unfold payload. rewrite !lookup_set_prop_ne by done.
    by rewrite lookup_insert_ne, lookup_singleton_eq. }
  assert (payload !! "nbf" = None) as Hn.
  { unfold payload. rewrite !lookup_set_prop_ne by done.
    by rewrite lookup_insert_ne, lookup_singleton_ne. }
  case_bool_decide as Ht.
  - eapply authMiddleware_accepts; [exact Hh | exact Hv | |].
    + unfold not_before_ok. by rewrite Hn.
    + unfold not_expired. rewrite He. by apply bool_decide_eq_true.
  - eapply authMiddleware_expired; [exact Hh | exact Hv | exact He | lia].
Qed.

(** The routes behind [authMiddleware], and the routes that are open. *)
Lemma protected_route route env amb q req db res :
  route ∉ open_routes →
  authMiddleware env amb req = inl res →
  registerRoutes route env amb q req db = (Plain res, db).
Proof.
  intros Hr Ha. unfold open_routes in Hr.
  destruct route; try (exfalso; apply Hr; by_running); clear Hr;
    unfold registerRoutes, get_profile, update_profile, delete_account,
      create_patient, get_patients, get_patient, submit_diagnostic,
      diagnostics_history, get_diagnostic, review_diagnostic, authorized,
      send_notification, notifications_history, update_notification_status,
      authenticated, authenticated_list, plain;
    by rewrite Ha.
Qed.

(** X5.  Thirteen routes stand behind [authMiddleware]: a request with
    no Authorization header, or one that does not start with "Bearer ", is
    answered 401 UNAUTHORIZED, and one whose token does not verify is answered
    401 INVALID_TOKEN, in both cases without a look at the store.  The six
    other routes (register, login, forgot-password, reset-password, health
    and status) do not read the credentials of the request. *)
Theorem routes_and_credentials env amb q req db :
  (∀ route,
     route ∉ open_routes →
     (∀ h, authorization req = Some h → String.prefix "Bearer " h = false) →
     registerRoutes route env amb q req db
     = (Plain (failure amb 401 "UNAUTHORIZED" "Authorization token required"),
        db))
  ∧ (∀ route token,
       route ∉ open_routes →
       authorization req = Some ("Bearer " +:+ token) →
       verifyToken env amb token = None →
       registerRoutes route env amb q req db
       = (Plain (failure amb 401 "INVALID_TOKEN" "Invalid or expired token"),
          db))
  ∧ (∀ route authorization user,
       route ∈ open_routes →
       registerRoutes route env amb q
         (mkRequest authorization (body req) (params_id req) (file req) user)
         db
       = registerRoutes route env amb q req db).
Proof.
  split_and!.
  - intros route Hr Hh. apply protected_route; [done|].
    unfold authMiddleware. destruct (authorization req) as [h|]; [|done].
    by rewrite (Hh h), andb_false_r.
  - intros route token Hr Hh Hv. apply protected_route; [done|].
    unfold authMiddleware. rewrite Hh.
    destruct (bearer_header token) as [-> ->]. by rewrite Hv.
  - intros route a u Hr. unfold open_routes in Hr.
    repeat (apply elem_of_cons in Hr as [->|Hr]); [..|by apply elem_of_nil in Hr];
      reflexivity.
Qed.

(** X6.  After [authMiddleware], [requireRole] never answers 401: the
    review of a diagnostic by a caller whose token carries another role than
    admin or super_admin (or none) is answered 403 FORBIDDEN, and the store
    stays as it was. *)
Theorem review_is_for_admins env amb req req' db :
  authMiddleware env amb req = inr req' →
  (∀ r, r ∈ ["admin"; "super_admin"] →
        user req' ≫= (fun u => u !! "role") ≠ Some (JStr r)) →
  review_diagnostic env amb req db
  = (failure amb 403 "FORBIDDEN" "Insufficient permissions", db).
Proof.
  intros Ha Hrole.
  unfold review_diagnostic, authorized, authenticated. rewrite Ha.
  destruct (authMiddleware_next _ _ _ _ Ha) as [decoded ->].
  unfold requireRole. simpl in *.
  destruct (decoded !! "role") as [[| | | |r| |]|]; try done.
  case_bool_decide as Hin; [|done]. by destruct (Hrole r Hin).
Qed.

(** *** Login *)

Lemma parse_login (b : Obj) email password :
  b !! "email" = Some (JStr email) → is_email email = true →
  b !! "password" = Some (JStr password) → password ≠ "" →
  parse Schema.loginSchema b
  = Ok (<["email" := JStr email]> {["password" := JStr password]}).
Proof.
  intros He Hie Hp Hne. unfold parse, Schema.loginSchema. simpl.
  rewrite He, Hp. simpl. rewrite Hie. simpl.
  by rewrite (bool_decide_true (1 ≤ String.length password)%nat)
    by (destruct password; [done | simpl; lia]).
Qed.

(** An update that writes no column of the table leaves the row. *)
Lemma update_row_untouched db cols set old :
  (∀ c, c ∈ cols → set !! Pg.name c = None) →
  update_row db cols set old = Ok old.
Proof.
  induction cols as [|c cs IH]; [done|]. intros Hset. simpl.
  rewrite IH by (intros c' Hc'; apply Hset; by right). simpl.
  by rewrite Hset by left.
Qed.

(** An update that writes one column with a value the column stores as it
    is. *)
Lemma update_row_single db cols c v old :
  NoDup (Pg.name <$> cols) → c ∈ cols →
  store_value c v = Ok v → check_reference db c v = Ok () →
  update_row db cols (lit {[Pg.name c := v]}) old
  = Ok (<[Pg.name c := v]> old).
Proof.
  intros Hnd Hc Hv Hr. induction cols as [|c0 cs IH]; [by apply elem_of_nil in Hc|].
  rewrite fmap_cons in Hnd. apply NoDup_cons in Hnd as [Hc0 Hnd]. simpl.
  apply elem_of_cons in Hc as [<-|Hc].
  - rewrite update_row_untouched.
    + cbn [mbind Result_bind]. rewrite lit_lookup, lookup_singleton_eq.
      cbn [fmap option_fmap option_map]. rewrite Hv.
      cbn [mbind Result_bind]. by rewrite Hr.
    + intros c' Hc'. rewrite lit_lookup, lookup_singleton_ne; [done|].
      intros Heq. apply Hc0. rewrite Heq. by apply list_elem_of_fmap_2.
  - rewrite (IH Hnd Hc). simpl.
    rewrite lit_lookup, lookup_singleton_ne; [done|].
    intros Heq. apply Hc0. rewrite <- Heq. by apply list_elem_of_fmap_2.
Qed.

Lemma mapM_fmap_Ok {A B} (f : A -> Result B) (g : A -> B) (l : list A) :
  (∀ a, a ∈ l → f a = Ok (g a)) → mapM f l = Ok (g <$> l).
Proof.
  intros Hfg. apply mapM_Ok. induction l as [|a l IH]; [constructor|].
  rewrite fmap_cons. constructor; [apply Hfg; left|].
  apply IH. intros a' Ha'. apply Hfg. by right.
Qed.

(** The time of the last login as [updateLastLogin] stores it. *)
Lemma updateLastLogin_Ok amb id db :
  updateLastLogin amb id db
  = Ok ((), set_rows Pg.Users
              ((fun old : Row =>
                  if matches "id" id old
                  then <["lastLoginAt" := JDate (now amb)]> old else old)
                 <$> t_users db) db).
Proof.
  unfold updateLastLogin, update_where.
  rewrite (mapM_fmap_Ok _
             (fun old : Row =>
                if matches "id" id old
                then <["lastLoginAt" := JDate (now amb)]> old else old)).
  { done. }
  intros old _. destruct (matches "id" id old); [|done].
  by apply (update_row_single db Schema.users
              (Pg.col "lastLoginAt" Pg.PgTimestamp) (JDate (now amb)) old
              (columns_NoDup Pg.Users) ltac:(by_running)).
Qed.

(** The handler of POST /api/auth/login at a body that passes validation. *)
Lemma login_run env amb req db email password :
  body req !! "email" = Some (JStr email) → is_email email = true →
  body req !! "password" = Some (JStr password) → password ≠ "" →
  login env amb req db =
  match getUserByEmail (JStr email) db with
  | None =>
      (failure amb 401 "INVALID_CREDENTIALS" "Invalid email or password", db)
  | Some user =>
      if verifyPassword password (js_string (user !! "password"))
      then (Success 200
              (DataUserToken (userWithoutPassword user)
                 (generateToken env amb user)) (now amb),
            set_rows Pg.Users
              ((fun old : Row =>
                  if matches "id" (prop user "id") old
                  then <["lastLoginAt" := JDate (now amb)]> old else old)
                 <$> t_users db) db)
      else (failure amb 401 "INVALID_CREDENTIALS" "Invalid email or password",
            db)
  end.
Proof.
  intros He Hie Hp Hne.
  unfold login, catch_400, mbind, Handler_bind, pure, query, exec.
  rewrite (parse_login _ _ _ He Hie Hp Hne).
  unfold prop. rewrite lookup_insert_eq.
  destruct (getUserByEmail (JStr email) db) as [user|]; [|done].
  rewrite lookup_insert_ne, lookup_singleton_eq by done.
  cbn [js_string].
  destruct (verifyPassword password (js_string (user !! "password")));
    [|done].
  cbn [negb]. by rewrite updateLastLogin_Ok.
Qed.

(** X7.  A login that fails on the credentials tells nothing
    more: for a body that passes validation, the answer when no identity has
    the address and the answer when the password does not match are the same
    401 INVALID_CREDENTIALS with the same message, and the store stays as it
    was. *)
Theorem failed_logins_look_alike env amb req db email password :
  body req !! "email" = Some (JStr email) → is_email email = true →
  body req !! "password" = Some (JStr password) → password ≠ "" →
  match getUserByEmail (JStr email) db with
  | None => True
  | Some user =>
      verifyPassword password (js_string (user !! "password")) = false
  end →
  login env amb req db
  = (failure amb 401 "INVALID_CREDENTIALS" "Invalid email or password", db).
Proof.
  intros He Hie Hp Hne Hu. rewrite (login_run _ _ _ _ _ _ He Hie Hp Hne).
  destruct (getUserByEmail (JStr email) db); [by rewrite Hu | done].
Qed.

(** X8.  A login with the password of the identity answers 200 with a
    token for the identity and the identity as it was read before the login
    was recorded: the store then holds the time of this login in lastLoginAt
    of the rows with the id of the identity, and is otherwise as it was, while
    the user object of the answer still carries the time of the login
    before. *)
Theorem login_answers_the_row_read_before env amb req db email password user :
  body req !! "email" = Some (JStr email) → is_email email = true →
  body req !! "password" = Some (JStr password) → password ≠ "" →
  getUserByEmail (JStr email) db = Some user →
  verifyPassword password (js_string (user !! "password")) = true →
  login env amb req db
  = (Success 200
       (DataUserToken (userWithoutPassword user) (generateToken env amb user))
       (now amb),
     set_rows Pg.Users
       ((fun old : Row =>
           if matches "id" (prop user "id") old
           then <["lastLoginAt" := JDate (now amb)]> old else old)
          <$> t_users db) db)
  ∧ (∀ stored,
       getUser (prop user "id") (login env amb req db).2 = Some stored →
       stored !! "lastLoginAt" = Some (JDate (now amb)))
  ∧ userWithoutPassword user !! "lastLoginAt" = user !! "lastLoginAt".
Proof.
  intros He Hie Hp Hne Hu Hv. rewrite (login_run _ _ _ _ _ _ He Hie Hp Hne).
  rewrite Hu, Hv. split; [done|]. split; [|by apply lookup_delete_ne].
  intros stored Hs. cbn [snd] in Hs.
  apply head_select_elem in Hs as (Hin & Hid & Hn).
  rewrite rows_set_rows in Hin.
  apply list_elem_of_fmap in Hin as (old & -> & _).
  destruct (matches "id" (prop user "id") old) eqn:Hm.
  - apply lookup_insert_eq.
  - assert (matches "id" (prop user "id") old = true) as Hm';
      [by apply matches_spec | congruence].
Qed.

(** *** Registration, then login *)

Lemma parsed_email ie ti x y :
  Zod.parse_field ie ti (Zod.mkField Zod.ZEmail false false) x = Some y →
  ∃ e, x = Some (JStr e) ∧ y = Some (JStr e) ∧ ie e = true.
Proof.
  unfold Zod.parse_field. simpl.
  destruct x as [[| | | |e| |]|]; simpl; try done.
  destruct (ie e) eqn:Hie; simpl; [|done].
  intros [= <-]. by exists e.
Qed.

Lemma parsed_string ie ti n x y :
  Zod.parse_field ie ti (Zod.mkField (Zod.ZString n) false false) x = Some y →
  ∃ s, x = Some (JStr s) ∧ y = Some (JStr s) ∧ (n ≤ String.length s)%nat.
Proof.
  unfold Zod.parse_field. simpl.
  destruct x as [[| | | |s| |]|]; simpl; try done.
  case_bool_decide as Hn; simpl; [|done].
  intros [= <-]. by exists s.
Qed.

(** What a registration stores: the address and the digest of the
    password. *)
Lemma register_stored env amb req db data :
  parse Schema.registerSchema (body req) = Ok data →
  body req !! "updatedAt" = None →
  getUserByEmail (prop data "email") db = None →
  select_where Pg.Users "id" (JStr (uuid amb)) db = [] →
  ∃ row email password,
    body req !! "email" = Some (JStr email) ∧ is_email email = true
    ∧ body req !! "password" = Some (JStr password)
    ∧ (8 ≤ String.length password)%nat
    ∧ register env amb req db
      = (Success 201
           (DataUserToken (userWithoutPassword row)
              (generateToken env amb row)) (now amb),
         set_rows Pg.Users (t_users db ++ [row]) db)
    ∧ row !! "email" = Some (JStr email)
    ∧ row !! "password" = Some (JStr (hashPassword amb password))
    ∧ getUserByEmail (JStr email)
        (set_rows Pg.Users (t_users db ++ [row]) db) = Some row.
Proof.
  intros Hp Hupd Hemail Hid.
  assert (NoDup Schema.registerSchema.*1) as Hnd by by_running.
  destruct (parsed_email _ _ _ _
              (parse_lookup _ _ _ _ _ "email"
                 (Zod.mkField Zod.ZEmail false false) Hnd ltac:(by_running)
                 Hp)) as (email & Hbe & Hde & Hie).
  destruct (parsed_string _ _ _ _ _
              (parse_lookup _ _ _ _ _ "password"
                 (Zod.mkField (Zod.ZString 8) false false) Hnd
                 ltac:(by_running) Hp)) as (password & Hbp & Hdp & Hlen).
  destruct (register_insert_succeeds amb db (body req) data
              (hashPassword amb (js_string (data !! "password")))
              Hp Hupd Hemail Hid) as [row Hrow].
  exists row, email, password. split_and!; try done.
  - rewrite (register_run _ _ _ _ _ Hp), Hemail.
    unfold createUser, insert.
    change (Schema.columns Pg.Users) with Schema.users.
    by rewrite Hrow.
  - destruct (insert_row_lookup _ _ _ _ _ _
                (Pg.with_unique (Pg.with_notNull (Pg.col "email" Pg.PgText)))
                (columns_NoDup Pg.Users) ltac:(by_running) Hrow)
      as (v & Hv & _ & _ & Hl).
    unfold insert_value in Hv. cbn [Pg.name Pg.with_unique Pg.with_notNull Pg.col] in Hv, Hl.
    rewrite lookup_insert_ne, Hde in Hv by done.
    cbv in Hv. by injection Hv as <-.
  - destruct (insert_row_lookup _ _ _ _ _ _
                (Pg.with_notNull (Pg.col "password" Pg.PgText))
                (columns_NoDup Pg.Users) ltac:(by_running) Hrow)
      as (v & Hv & _ & _ & Hl).
    unfold insert_value in Hv. cbn [Pg.name Pg.with_notNull Pg.col] in Hv, Hl.
    rewrite lookup_insert_eq in Hv. rewrite Hdp in Hv. cbn [js_string] in Hv.
    unfold store_value in Hv. cbn in Hv. by injection Hv as <-.
  - unfold getUserByEmail, select_where in *. rewrite rows_set_rows.
    unfold prop in Hemail. rewrite Hde in Hemail.
    apply head_None in Hemail. cbn [rows] in Hemail.
    rewrite filter_app, Hemail, app_nil_l.
    rewrite filter_cons_True; [done|].
    apply Is_true_true, matches_spec. split; [done|].
    destruct (insert_row_lookup _ _ _ _ _ _
                (Pg.with_unique (Pg.with_notNull (Pg.col "email" Pg.PgText)))
                (columns_NoDup Pg.Users) ltac:(by_running) Hrow)
      as (v & Hv & _ & _ & Hl).
    unfold insert_value in Hv.
    cbn [Pg.name Pg.with_unique Pg.with_notNull Pg.col] in Hv, Hl.
    rewrite lookup_insert_ne, Hde in Hv by done.
    cbv in Hv. by injection Hv as <-.
Qed.

(** X9.  Registration and login fit together: after a
    registration that is accepted, a login with the same address and the same
    password answers 200 with the identity that was created and a token for
    it.  (bcrypt is taken to recognise the digests it makes.) *)
Theorem register_then_login env amb req db data amb2 req2 :
  parse Schema.registerSchema (body req) = Ok data →
  body req !! "updatedAt" = None →
  getUserByEmail (prop data "email") db = None →
  select_where Pg.Users "id" (JStr (uuid amb)) db = [] →
  (∀ password,
     bcrypt_compare password (bcrypt_hash password BCRYPT_ROUNDS (salt amb))
     = true) →
  body req2 !! "email" = body req !! "email" →
  body req2 !! "password" = body req !! "password" →
  ∃ row db',
    register env amb req db
    = (Success 201
         (DataUserToken (userWithoutPassword row) (generateToken env amb row))
         (now amb), db')
    ∧ (login env amb2 req2 db').1
      = Success 200
          (DataUserToken (userWithoutPassword row)
             (generateToken env amb2 row)) (now amb2).
Proof.
  intros Hp Hupd Hemail Hid Hbc He2 Hp2.
  destruct (register_stored env amb req db data Hp Hupd Hemail Hid)
    as (row & email & password & Hbe & Hie & Hbp & Hlen & Hreg & Hre & Hrp
        & Hget).
  exists row, (set_rows Pg.Users (t_users db ++ [row]) db).
  split; [done|].
  rewrite Hbe in He2. rewrite Hbp in Hp2.
  rewrite (login_run _ _ _ _ _ _ He2 Hie Hp2)
    by (intros ->; simpl in Hlen; lia).
  rewrite Hget, Hrp. cbn [js_string]. unfold verifyPassword, hashPassword.
  by rewrite Hbc.
Qed.

(** X10.  An address is registered once: after a registration
    that is accepted, every registration with the same address that passes
    validation is answered 400 USER_EXISTS and leaves the store as it is. *)
Theorem address_is_registered_once env amb req db data amb2 req2 data2 :
  parse Schema.registerSchema (body req) = Ok data →
  body req !! "updatedAt" = None →
  getUserByEmail (prop data "email") db = None →
  select_where Pg.Users "id" (JStr (uuid amb)) db = [] →
  parse Schema.registerSchema (body req2) = Ok data2 →
  body req2 !! "email" = body req !! "email" →
  ∃ res db',
    register env amb req db = (res, db')
    ∧ res_status res = 201
    ∧ register env amb2 req2 db'
      = (failure amb2 400 "USER_EXISTS" "User with this email already exists",
         db').
Proof.
  intros Hp Hupd Hemail Hid Hp2 He2.
  destruct (register_stored env amb req db data Hp Hupd Hemail Hid)
    as (row & email & password & Hbe & Hie & Hbp & Hlen & Hreg & Hre & Hrp
        & Hget).
  eexists _, _. split; [exact Hreg|]. split; [done|].
  rewrite (register_run _ _ _ _ _ Hp2).
  assert (NoDup Schema.registerSchema.*1) as Hnd by by_running.
  destruct (parsed_email _ _ _ _
              (parse_lookup _ _ _ _ _ "email"
                 (Zod.mkField Zod.ZEmail false false) Hnd ltac:(by_running)
                 Hp2)) as (email2 & Hbe2 & Hde2 & _).
  assert (email2 = email) as -> by congruence.
  unfold prop. by rewrite Hde2, Hget.
Qed.

End Sessions.

(** ** Profiles, password resets and accounts *)

Section Accounts.

Context `{Libraries} `{Postgres}.

Lemma Forall2_same {A} (R : A -> A -> Prop) (l : list A) :
  (∀ a, R a a) → Forall2 R l l.
Proof. intros HR. induction l; by constructor. Qed.

(** X11.  A profile update changes nothing but fullName, phoneNumber,
    facilityName, district and updatedAt of rows of the users table, whatever
    the request carries: role, e-mail address, password, active flag and id
    of every identity, and all other tables, are as before. *)
Theorem profile_update_writes_profile_fields_only env amb req db :
  let db' := (update_profile env amb req db).2 in
  Forall2 (fun u u' : Row =>
             ∀ k, k ∉ ["fullName"; "phoneNumber"; "facilityName"; "district";
                       "updatedAt"] → u' !! k = u !! k)
    (t_users db) (t_users db')
  ∧ db' = set_rows Pg.Users (t_users db') db.
Proof.
  cbn zeta.
  assert (Forall2 (fun u u' : Row =>
             ∀ k, k ∉ ["fullName"; "phoneNumber"; "facilityName"; "district";
                       "updatedAt"] → u' !! k = u !! k)
            (t_users db) (t_users db)
          ∧ db = set_rows Pg.Users (t_users db) db) as Hsame.
  { split; [by apply Forall2_same | by destruct db]. }
  unfold update_profile, authenticated.
  destruct (authMiddleware env amb req) as [res|req']; [done|].
  unfold catch_400, mbind, mret, Handler_bind, Handler_ret, pure, exec.
  destruct (parse _ _) as [data|e] eqn:Hp; [|done].
  destruct (updateUser _ _ _ _) as [[found db']|e] eqn:Hu; [|done].
  assert (Forall2 (fun u u' : Row =>
             ∀ k, k ∉ ["fullName"; "phoneNumber"; "facilityName"; "district";
                       "updatedAt"] → u' !! k = u !! k)
            (t_users db) (t_users db')
          ∧ db' = set_rows Pg.Users (t_users db') db) as Hnew;
    [|by destruct found].
  clear Hsame.
  apply bind_Ok in Hu as ([rs db''] & Hu & [= _ <-]).
  split.
  - pose proof (update_where_rows _ _ _ _ _ _ _ Hu) as Hrows.
    cbn [rows] in Hrows.
    eapply Forall2_impl; [exact Hrows|].
    intros u u' Hupd k Hk. unfold updated in Hupd.
    destruct (matches "id" (user_id_param req') u); [|by subst].
    apply (update_row_other _ _ _ _ _ _ Hupd).
    rewrite !not_elem_of_cons in Hk.
    destruct Hk as (H1 & H2 & H3 & H4 & H5 & _).
    rewrite lit_lookup, lookup_insert_ne by done.
    rewrite (parse_stripped _ _ _ _ _ k Hp); [done|].
    cbn. rewrite !not_elem_of_cons. split_and!; try done.
    apply not_elem_of_nil.
  - by apply update_where_Ok in Hu as (l & _ & _ & ->).
Qed.

(** *** Password reset: what the answer tells *)

(** X12.  The answer to forgot-password carries the reset token
    only on a host where NODE_ENV is 'development'; the token it carries is
    the string drawn for this request. *)
Theorem reset_token_is_disclosed_in_development_only
  env amb req db status message token ts :
  (forgot_password env amb req db).1
  = Success status (DataMessage message (Some token)) ts →
  env !! "NODE_ENV" = Some "development" ∧ token = nano amb.
Proof.
  unfold forgot_password, catch_400, mbind, mret, Handler_bind, Handler_ret,
    pure, query, exec.
  destruct (parse _ _) as [data|e]; [|done].
  destruct (getUserByEmail _ _) as [user|]; [|done].
  destruct (setHours _ _) as [expiresAt|]; [|done].
  destruct (createPasswordResetToken _ _ _) as [[row db']|e]; [|done].
  cbn [fst]. case_bool_decide as Henv; [|done]. by intros [= _ _ <- _].
Qed.

(** X13.  The answer to forgot-password differs with the existence
    of the account: for the same request, the answer of a store in which an
    identity has the address is never the answer of a store in which none
    has. *)
Theorem forgot_password_tells_a_registered_address
  env amb req db1 db2 email user :
  body req !! "email" = Some (JStr email) → is_email email = true →
  getUserByEmail (JStr email) db1 = None →
  getUserByEmail (JStr email) db2 = Some user →
  (forgot_password env amb req db1).1 ≠ (forgot_password env amb req db2).1.
Proof.
  intros He Hie H1 H2.
  rewrite !(forgot_password_run _ _ _ _ _ He Hie), H1, H2.
  destruct (setHours _ _) as [expiresAt|]; [|done].
  destruct (createPasswordResetToken _ _ _) as [[row db']|e]; [|done].
  cbn [fst]. by intros [=].
Qed.

(** *** Accounts: deletion *)

(** The handler of DELETE /api/users/account, once the request is
    authenticated. *)
Lemma delete_account_run env amb req req' db :
  authMiddleware env amb req = inr req' →
  delete_account env amb req db =
  match delete_where Pg.Users "id" (user_id_param req') db with
  | Ok db' =>
      (Success 200 (DataMessage "Account successfully deleted" None)
         (now amb), db')
  | Throw e => (failure amb 500 "SERVER_ERROR" "Failed to delete account", db)
  end.
Proof.
  intros Ha. unfold delete_account, authenticated. rewrite Ha.
  unfold catch_500, mbind, mret, Handler_bind, Handler_ret, exec, deleteUser.
  by destruct (delete_where _ _ _ _).
Qed.

(** X14.  An identity that any record refers to cannot delete
    its account: when a patient it created, a diagnostic it submitted or
    reviewed, a notification or a password reset token of its own exists, the
    answer is 500 SERVER_ERROR and the store stays as it was. *)
Theorem account_with_records_is_not_deleted
  env amb req req' db uid (u : Row) t c (r : Row) :
  authMiddleware env amb req = inr req' →
  user_id req' = Some (JStr uid) →
  u ∈ t_users db → u !! "id" = Some (JStr uid) →
  c ∈ Schema.columns t → Pg.references c = Some (Pg.Users, "id") →
  r ∈ rows t db → r !! Pg.name c = Some (JStr uid) →
  delete_account env amb req db
  = (failure amb 500 "SERVER_ERROR" "Failed to delete account", db).
Proof.
  intros Ha Hid Hu Huid Hc Href Hr Hrc.
  rewrite (delete_account_run _ _ _ _ _ Ha).
  unfold user_id_param. rewrite Hid.
  destruct (delete_where _ _ _ _) as [db'|e] eqn:Hd; [|done].
  apply delete_where_Ok in Hd as [Hno _].
  assert (referenced Pg.Users u db = true) as Hyes.
  { apply referenced_spec. exists t, c, r. split_and!; [done..|].
    apply refers_to_spec. by exists "id", (JStr uid). }
  rewrite Hno in Hyes; [done|].
  apply list_elem_of_filter. split; [|done].
  by apply Is_true_true, matches_spec.
Qed.

(** X15.  An account that no record refers to is deleted: the answer is
    200, the rows of the users table with the id of the caller are removed
    and nothing else changes; the answer is the same when no identity has the
    id.  The token stays valid (it is not kept in the store): get-profile
    with a token for the id is then answered 404 USER_NOT_FOUND. *)
Theorem deleted_account_is_gone env amb req req' db uid :
  authMiddleware env amb req = inr req' →
  user_id req' = Some (JStr uid) →
  (∀ u, u ∈ select_where Pg.Users "id" (JStr uid) db →
        referenced Pg.Users u db = false) →
  let db' :=
    set_rows Pg.Users
      (filter (fun u => negb (matches "id" (JStr uid) u)) (t_users db)) db in
  delete_account env amb req db
  = (Success 200 (DataMessage "Account successfully deleted" None) (now amb),
     db')
  ∧ getUser (JStr uid) db' = None
  ∧ (∀ amb2 req2 req2',
       authMiddleware env amb2 req2 = inr req2' →
       user_id req2' = Some (JStr uid) →
       get_profile env amb2 req2 db'
       = (failure amb2 404 "USER_NOT_FOUND" "User not found", db')).
Proof.
  intros Ha Hid Hno db'.
  assert (getUser (JStr uid) db' = None) as Hgone.
  { unfold getUser, select_where, db'. rewrite rows_set_rows.
    apply head_None.
    destruct (filter _ (filter _ _)) as [|x l] eqn:Hf; [done|].
    assert (x ∈ x :: l) as Hx by left. rewrite <- Hf in Hx.
    apply list_elem_of_filter in Hx as [Hm Hx].
    apply list_elem_of_filter in Hx as [Hm' _].
    by destruct (matches "id" (JStr uid) x). }
  split_and!; [|done|].
  - rewrite (delete_account_run _ _ _ _ _ Ha).
    unfold user_id_param. rewrite Hid.
    destruct (delete_where _ _ _ _) as [db''|e] eqn:Hd.
    + by apply delete_where_Ok in Hd as [_ ->].
    + assert (delete_where Pg.Users "id" (JStr uid) db = Ok db') as Hok;
        [|congruence].
      by apply delete_where_Ok.
  - intros amb2 req2 req2' Ha2 Hid2.
    rewrite (get_profile_run _ _ _ _ _ Ha2).
    unfold user_id_param. by rewrite Hid2, Hgone.
Qed.

End Accounts.

(** ** Patients and lists *)

Section Lists.

Context `{Libraries} `{Postgres} `{!PostgresLaws}.

(** *** The size of a page *)

(** The size of a page is the number the [limit] parameter starts with, and
    20 when the parameter is absent, empty, not a number or 0. *)
Lemma query_page_size (q : Query) :
  limit_of (query_limit q)
  = match q !! "limit" with
    | Some s =>
        if String.eqb s "" then 20
        else match parseInt (JStr s) with
             | Some n => if n =? 0 then 20 else n
             | None => 20
             end
    | None => 20
    end.
Proof.
  unfold query_limit, query_text.
  destruct (q !! "limit") as [s|]; [|done]. cbn.
  destruct (String.eqb s ""); [done|]. cbn.
  by destruct (parseInt (JStr s)).
Qed.

(** *** What a list query returns *)

Lemma where_eq_elem k v (l : list Row) r :
  r ∈ where_eq k v l ↔
  r ∈ l ∧ (truthy v = true → r !! k = v ∧ v ≠ Some JNull).
Proof.
  unfold where_eq. destruct (truthy v) eqn:Hv.
  - rewrite list_elem_of_filter, Is_true_true, matches_spec.
    destruct v as [x|]; [|done]. simpl. split.
    + intros [[Hn Hk] Hr]. split; [done|]. intros _. split; [done|].
      by intros [= ->].
    + intros [Hr Hk]. destruct (Hk eq_refl) as [Hk' Hn]. split; [|done].
      split; [|done]. by intros ->.
  - split; [by intros Hr; split|by intros [Hr _]].
Qed.

(** The page of a list: the first rows of the selection in the order of the
    query. *)
Lemma page_spec k n (l page : list Row) :
  0 ≤ n ≤ INT8_MAX →
  limit_rows n (order_desc k l) = Ok page →
  (length page ≤ Z.to_nat n)%nat
  ∧ (∀ r, r ∈ page → r ∈ l)
  ∧ StronglySorted (fun r1 r2 => before_desc k r1 r2 = true) page
  ∧ (∃ rest, page ++ rest ≡ₚ l
             ∧ (rest ≠ [] → length page = Z.to_nat n)
             ∧ ∀ r r', r ∈ page → r' ∈ rest → before_desc k r r' = true).
Proof.
  intros Hn Hl. rewrite limit_rows_take in Hl by done. injection Hl as <-.
  pose proof (order_desc_perm k l) as Hperm.
  pose proof (order_desc_sorted k l) as Hsorted.
  rewrite <- (take_drop (Z.to_nat n) (order_desc k l)) in Hperm, Hsorted.
  split_and!.
  - rewrite length_take. lia.
  - intros r Hr. rewrite <- Hperm. apply elem_of_app. by left.
  - by apply StronglySorted_app_1_l in Hsorted.
  - exists (drop (Z.to_nat n) (order_desc k l)). split_and!; [done| |].
    + intros Hrest. rewrite length_take.
      destruct (decide (Z.to_nat n ≤ length (order_desc k l))%nat); [lia|].
      rewrite drop_ge in Hrest by lia. done.
    + intros r r' Hr Hr'.
      by apply (StronglySorted_app_1_elem_of _ _ _ _ _ Hsorted).
Qed.

(** X16.  GET /api/patients answers, to an authenticated
    request whose page size is a row count, the patients of the district
    asked for (all patients when no district is given), newest first, cut to
    the size of the page: every row of the answer is a patient of the store
    in that district, the rows are in descending order of creation, and the
    rows left out are patients that the order puts after every row of the
    answer, left out only when the page is full. *)
Theorem patients_list env amb q req req' db :
  authMiddleware env amb req = inr req' →
  0 ≤ limit_of (query_limit q) ≤ INT8_MAX →
  ∃ page,
    get_patients env amb q req db = (Many page (now amb), db)
    ∧ (length page ≤ Z.to_nat (limit_of (query_limit q)))%nat
    ∧ (∀ p, p ∈ page →
            p ∈ t_patients db
            ∧ ∀ d, q !! "district" = Some d → d ≠ "" →
                   p !! "district" = Some (JStr d))
    ∧ StronglySorted (fun r1 r2 => before_desc "createdAt" r1 r2 = true) page
    ∧ ∃ rest,
        page ++ rest
        ≡ₚ where_eq "district" (query_text q "district") (t_patients db)
        ∧ (rest ≠ [] → length page = Z.to_nat (limit_of (query_limit q)))
        ∧ ∀ r r', r ∈ page → r' ∈ rest →
                  before_desc "createdAt" r r' = true.
Proof.
  intros Ha Hn.
  unfold get_patients, authenticated_list. rewrite Ha.
  unfold catch_500_list, mbind, mret, Handler_bind, Handler_ret, read,
    getPatients.
  rewrite limit_rows_take by done.
  eexists. split; [reflexivity|].
  destruct (page_spec "createdAt" _ _ _ Hn
              (limit_rows_take _
                 (order_desc "createdAt"
                    (where_eq "district" (query_text q "district")
                       (t_patients db))) Hn))
    as (Hlen & Hin & Hsorted & Hrest).
  split_and!; [done| |done..].
  intros p Hp. apply Hin, where_eq_elem in Hp as [Hp Hd].
  split; [done|]. intros d Hq Hne.
  unfold query_text in Hd. rewrite Hq in Hd. simpl in Hd.
  apply Hd. by destruct d.
Qed.

(** X17.  GET /api/diagnostics/history answers, to an
    authenticated request whose page size is a row count, the diagnostics
    that have the patient and the result asked for (each filter applies when
    it is given), latest test first, cut to the size of the page. *)
Theorem diagnostics_list env amb q req req' db :
  authMiddleware env amb req = inr req' →
  0 ≤ limit_of (query_limit q) ≤ INT8_MAX →
  ∃ page,
    diagnostics_history env amb q req db = (Many page (now amb), db)
    ∧ (length page ≤ Z.to_nat (limit_of (query_limit q)))%nat
    ∧ (∀ d, d ∈ page →
            d ∈ t_diagnostics db
            ∧ (∀ p, q !! "patientId" = Some p → p ≠ "" →
                    d !! "patientId" = Some (JStr p))
            ∧ (∀ r, q !! "result" = Some r → r ≠ "" →
                    d !! "result" = Some (JStr r)))
    ∧ StronglySorted (fun r1 r2 => before_desc "testDate" r1 r2 = true) page
    ∧ ∃ rest,
        page ++ rest
        ≡ₚ where_eq "result" (query_text q "result")
             (where_eq "patientId" (query_text q "patientId")
                (t_diagnostics db))
        ∧ (rest ≠ [] → length page = Z.to_nat (limit_of (query_limit q)))
        ∧ ∀ r r', r ∈ page → r' ∈ rest →
                  before_desc "testDate" r r' = true.
Proof.
  intros Ha Hn.
  unfold diagnostics_history, authenticated_list. rewrite Ha.
  unfold catch_500_list, mbind, mret, Handler_bind, Handler_ret, read,
    getDiagnostics.
  rewrite limit_rows_take by done.
  eexists. split; [reflexivity|].
  destruct (page_spec "testDate" _ _ _ Hn
              (limit_rows_take _
                 (order_desc "testDate"
                    (where_eq "result" (query_text q "result")
                       (where_eq "patientId" (query_text q "patientId")
                          (t_diagnostics db)))) Hn))
    as (Hlen & Hin & Hsorted & Hrest).
  split_and!; [done| |done..].
  intros d Hd. apply Hin, where_eq_elem in Hd as [Hd Hr].
  apply where_eq_elem in Hd as [Hd Hp].
  split_and!; [done| |].
  - intros p Hq Hne. unfold query_text in Hp. rewrite Hq in Hp. simpl in Hp.
    apply Hp. by destruct p.
  - intros r Hq Hne. unfold query_text in Hr. rewrite Hq in Hr. simpl in Hr.
    apply Hr. by destruct r.
Qed.

(** X18.  GET /api/notifications/history answers, to an
    authenticated request whose page size is a row count, the notifications
    of the type and the status asked for (each filter applies when it is
    given), newest first, cut to the size of the page; the notifications of
    every identity are listed, not those of the caller only. *)
Theorem notifications_list env amb q req req' db :
  authMiddleware env amb req = inr req' →
  0 ≤ limit_of (query_limit q) ≤ INT8_MAX →
  ∃ page,
    notifications_history env amb q req db = (Many page (now amb), db)
    ∧ (length page ≤ Z.to_nat (limit_of (query_limit q)))%nat
    ∧ (∀ n, n ∈ page →
            n ∈ t_notifications db
            ∧ (∀ t, q !! "type" = Some t → t ≠ "" →
                    n !! "type" = Some (JStr t))
            ∧ (∀ s, q !! "status" = Some s → s ≠ "" →
                    n !! "status" = Some (JStr s)))
    ∧ StronglySorted (fun r1 r2 => before_desc "createdAt" r1 r2 = true) page
    ∧ ∃ rest,
        page ++ rest
        ≡ₚ where_eq "status" (query_text q "status")
             (where_eq "type" (query_text q "type") (t_notifications db))
        ∧ (rest ≠ [] → length page = Z.to_nat (limit_of (query_limit q)))
        ∧ ∀ r r', r ∈ page → r' ∈ rest →
                  before_desc "createdAt" r r' = true.
Proof.
  intros Ha Hn.
  unfold notifications_history, authenticated_list. rewrite Ha.
  unfold catch_500_list, mbind, mret, Handler_bind, Handler_ret, read,
    getNotifications.
  rewrite limit_rows_take by done.
  eexists. split; [reflexivity|].
  destruct (page_spec "createdAt" _ _ _ Hn
              (limit_rows_take _
                 (order_desc "createdAt"
                    (where_eq "status" (query_text q "status")
                       (where_eq "type" (query_text q "type")
                          (t_notifications db)))) Hn))
    as (Hlen & Hin & Hsorted & Hrest).
  split_and!; [done| |done..].
  intros n Hd. apply Hin, where_eq_elem in Hd as [Hd Hr].
  apply where_eq_elem in Hd as [Hd Hp].
  split_and!; [done| |].
  - intros t Hq Hne. unfold query_text in Hp. rewrite Hq in Hp. simpl in Hp.
    apply Hp. by destruct t.
  - intros s Hq Hne. unfold query_text in Hr. rewrite Hq in Hr. simpl in Hr.
    apply Hr. by destruct s.
Qed.

(** X19.  A list without a usable limit has at most 20 rows: when the
    [limit] parameter of the request is absent, empty, not a number or 0, the
    answers of GET /api/patients, GET /api/diagnostics/history and GET
    /api/notifications/history carry at most 20 rows. *)
Theorem default_page_is_20 route env amb q req db :
  route ∈ [GetPatients; GetDiagnosticsHistory; GetNotificationsHistory] →
  match q !! "limit" with
  | Some s =>
      s = "" ∨ parseInt (JStr s) = None ∨ parseInt (JStr s) = Some 0
  | None => True
  end →
  (length (answer_rows (registerRoutes route env amb q req db).1) ≤ 20)%nat.
Proof.
  intros Hroute Hq.
  assert (limit_of (query_limit q) = 20) as Hsize.
  { rewrite query_page_size. destruct (q !! "limit") as [s|]; [|done].
    destruct Hq as [->|[->| ->]]; [done| |]; by destruct (String.eqb s ""). }
  assert (0 ≤ 20 ≤ INT8_MAX) as Hn by done.
  assert (∀ l : list Row, (length (take (Z.to_nat 20) l) ≤ 20)%nat) as Htake.
  { intros l. rewrite length_take. lia. }
  repeat (apply elem_of_cons in Hroute as [->|Hroute]);
    [| | |by apply elem_of_nil in Hroute];
    unfold registerRoutes, get_patients, diagnostics_history,
      notifications_history, authenticated_list;
    (destruct (authMiddleware env amb req) as [res|req']; [cbn; lia|]);
    unfold catch_500_list, mbind, mret, Handler_bind, Handler_ret, read,
      getPatients, getDiagnostics, getNotifications;
    rewrite Hsize, limit_rows_take by done; apply Htake.
Qed.

(** *** One patient, one diagnostic *)

(** X20.  GET /api/patients/:id answers 404 when no patient has
    the id, and otherwise the patient with its diagnostics: at most 20 of
    them, the latest tests; each of them is a diagnostic of the store for
    this patient, and a diagnostic of the patient that is not listed is no
    later than the listed ones.  (The id is a segment of the path, which is
    not empty.) *)
Theorem patient_record_lists_the_latest_20 env amb req req' db :
  authMiddleware env amb req = inr req' →
  params_id req ≠ "" →
  match getPatient (JStr (params_id req')) db with
  | None =>
      get_patient env amb req db
      = (Plain (failure amb 404 "PATIENT_NOT_FOUND" "Patient not found"), db)
  | Some patient =>
      ∃ page,
        get_patient env amb req db
        = (PatientRecord patient page (now amb), db)
        ∧ (length page ≤ 20)%nat
        ∧ (∀ d, d ∈ page →
                d ∈ t_diagnostics db ∧ d !! "patientId" = patient !! "id")
        ∧ StronglySorted (fun r1 r2 => before_desc "testDate" r1 r2 = true)
            page
        ∧ ∀ d, d ∈ t_diagnostics db →
               d !! "patientId" = patient !! "id" → d ∉ page →
               length page = 20%nat
               ∧ ∀ d', d' ∈ page → before_desc "testDate" d' d = true
  end.
Proof.
  intros Ha Hne.
  unfold get_patient, authenticated_list. rewrite Ha.
  destruct (authMiddleware_next _ _ _ _ Ha) as [decoded ->].
  cbn [params_id with_user] in *.
  assert (truthy (Some (JStr (params_id req))) = true) as Htruthy
    by (cbn; by destruct (params_id req)).
  unfold catch_500_list, mbind, mret, Handler_bind, Handler_ret, read, query.
  destruct (getPatient _ _) as [patient|] eqn:Hp; [|done].
  apply head_select_elem in Hp as (Hpin & Hid & _).
  unfold getDiagnostics.
  assert (0 ≤ limit_of None ≤ INT8_MAX) as Hn by done.
  rewrite limit_rows_take by done.
  eexists. split; [reflexivity|].
  destruct (page_spec "testDate" _ _ _ Hn
              (limit_rows_take _
                 (order_desc "testDate"
                    (where_eq "result" None
                       (where_eq "patientId" (patient !! "id")
                          (t_diagnostics db)))) Hn))
    as (Hlen & Hin & Hsorted & rest & Hperm & Hfull & Hrest).
  rewrite Hid in *.
  split_and!; [done| |done|].
  - intros d Hd. apply Hin, where_eq_elem in Hd as [Hd _].
    apply where_eq_elem in Hd as [Hd Hpat]. split; [done|]. by apply Hpat.
  - intros d Hd Hpat Hnot.
    assert (d ∈ rest) as Hdr.
    { assert (d ∈ where_eq "result" None
                    (where_eq "patientId" (Some (JStr (params_id req)))
                       (t_diagnostics db))) as Hsel.
      { apply where_eq_elem. split; [|done].
        apply where_eq_elem. split; [done|]. intros _. by split. }
      rewrite <- Hperm in Hsel. by apply elem_of_app in Hsel as [?|?]. }
    split.
    + apply Hfull. by intros ->; apply elem_of_nil in Hdr.
    + intros d' Hd'. by apply Hrest.
Qed.

(** X21.  GET /api/diagnostics/:id answers the diagnostic
    with a summary of its patient that holds the patient code, age, gender and
    district and nothing else; in a store whose rows conform and whose
    foreign keys hold the patient is always found: the answer never carries
    [patient: null]. *)
Theorem diagnostic_record_carries_its_patient env amb req db d patient ts :
  conforms db → references_hold db →
  (get_diagnostic env amb req db).1 = DiagnosticRecord d patient ts →
  ∃ p, patient = Some (patient_summary p)
       ∧ p ∈ t_patients db
       ∧ Some (prop p "id") = d !! "patientId"
       ∧ dom (patient_summary p)
         ⊆ ({["patientCode"; "age"; "gender"; "district"]} : gset string).
Proof.
  intros Hok Href.
  unfold get_diagnostic, authenticated_list.
  destruct (authMiddleware env amb req) as [res|req']; [done|].
  unfold catch_500_list, mbind, mret, Handler_bind, Handler_ret, query.
  destruct (getDiagnostic _ _) as [diagnostic|] eqn:Hd; [|done].
  cbn [fst]. intros [= <- <- _].
  apply head_select_elem in Hd as (Hdin & _ & _).
  destruct (row_ok_column _ _
              (Pg.with_references Pg.Patients "id"
                 (Pg.with_notNull (Pg.col "patientId" Pg.PgVarchar)))
              (Hok Pg.Diagnostics _ Hdin) ltac:(by_running))
    as (v & Hv & Hs).
  cbn [Pg.name Pg.with_references Pg.with_notNull Pg.col] in Hv.
  assert (v ≠ JNull) as Hn by (by intros ->).
  destruct (Href Pg.Diagnostics
              (Pg.with_references Pg.Patients "id"
                 (Pg.with_notNull (Pg.col "patientId" Pg.PgVarchar)))
              Pg.Patients "id" diagnostic v ltac:(by_running) eq_refl Hdin
              Hv Hn) as (p0 & Hp0 & Hk).
  unfold getPatient, prop. rewrite Hv.
  destruct (head (select_where Pg.Patients "id" v db)) as [p|] eqn:Hp.
  - apply head_select_elem in Hp as (Hpin & Hpid & _).
    exists p. rewrite Hpid. split_and!; [done..|].
    unfold patient_summary.
    intros k Hk'. apply elem_of_dom in Hk' as [x Hx].
    destruct (decide (k = "patientCode")) as [->|Hk1]; [set_solver|].
    destruct (decide (k = "age")) as [->|Hk2]; [set_solver|].
    destruct (decide (k = "gender")) as [->|Hk3]; [set_solver|].
    destruct (decide (k = "district")) as [->|Hk4]; [set_solver|].
    by rewrite !lookup_set_prop_ne in Hx.
  - apply head_None in Hp. exfalso.
    assert (p0 ∈ select_where Pg.Patients "id" v db) as Hsel.
    { apply list_elem_of_filter. split; [|done].
      by apply Is_true_true, matches_spec. }
    rewrite Hp in Hsel. by apply elem_of_nil in Hsel.
Qed.

(** *** Patients: creation *)

(** The handler of POST /api/patients, once the request is authenticated. *)
Lemma create_patient_run env amb req req' db :
  authMiddleware env amb req = inr req' →
  create_patient env amb req db =
  match parse Schema.insertPatientSchema
          (set_prop "createdById" (user_id req') (body req)) with
  | Ok data =>
      match getPatientByCode (prop data "patientCode") db with
      | Some _ =>
          (failure amb 400 "PATIENT_EXISTS"
             "Patient with this code already exists", db)
      | None =>
          match insert_row amb Pg.Patients db Schema.patients data with
          | Ok p =>
              (Success 201 (DataRow p) (now amb),
               set_rows Pg.Patients (t_patients db ++ [p]) db)
          | Throw e =>
              (failure amb 400 "VALIDATION_ERROR"
                 (message_or e "Invalid request data"), db)
          end
      end
  | Throw e =>
      (failure amb 400 "VALIDATION_ERROR"
         (message_or e "Invalid request data"), db)
  end.
Proof.
  intros Ha. unfold create_patient, authenticated. rewrite Ha.
  destruct (authMiddleware_next _ _ _ _ Ha) as [decoded ->].
  cbn [body with_user].
  unfold catch_400, mbind, mret, Handler_bind, Handler_ret, pure, query, exec,
    createPatient, insert.
  destruct (parse _ _) as [data|e]; [|done].
  destruct (getPatientByCode _ _); [done|].
  change (Schema.columns Pg.Patients) with Schema.patients.
  by destruct (insert_row _ _ _ _ _).
Qed.

Lemma check_unique_Ok t db c v :
  check_unique t db c v = Ok () → Pg.unique c = true →
  select_where t (Pg.name c) v db = [].
Proof.
  unfold check_unique. intros Hq Hu. rewrite Hu in Hq.
  by destruct (select_where t (Pg.name c) v db).
Qed.

(** What the insertion of a patient stores. *)
Lemma patient_inserted amb db (o data p : Obj) :
  parse Schema.insertPatientSchema o = Ok data →
  insert_row amb Pg.Patients db Schema.patients data = Ok p →
  p !! "id" = Some (JStr (uuid amb))
  ∧ select_where Pg.Patients "id" (JStr (uuid amb)) db = []
  ∧ p !! "createdAt" = Some (JDate (now amb))
  ∧ p !! "updatedAt" = Some (JDate (now amb))
  ∧ (∃ s, o !! "createdById" = Some (JStr s)
          ∧ p !! "createdById" = Some (JStr s))
  ∧ (∃ code, o !! "patientCode" = Some (JStr code)
             ∧ data !! "patientCode" = Some (JStr code)
             ∧ p !! "patientCode" = Some (JStr code)).
Proof.
  intros Hp Hrow.
  assert (NoDup Schema.insertPatientSchema.*1) as Hnd by by_running.
  pose proof (fun c Hc => insert_row_lookup _ _ _ _ _ _ c
                            (columns_NoDup Pg.Patients) Hc Hrow) as Hcol.
  split_and!.
  - destruct (Hcol (Pg.with_default Pg.DefaultUuid
                      (Pg.with_primaryKey (Pg.col "id" Pg.PgVarchar))))
      as (v & Hv & _ & _ & Hl); [by_running|].
    unfold insert_value in Hv.
    cbn [Pg.name Pg.with_default Pg.with_primaryKey Pg.col] in Hv, Hl.
    replace (data !! "id") with (@None JsVal) in Hv by (by stripped Hp).
    cbv in Hv. by injection Hv as <-.
  - destruct (Hcol (Pg.with_default Pg.DefaultUuid
                      (Pg.with_primaryKey (Pg.col "id" Pg.PgVarchar))))
      as (v & Hv & Hq & _ & Hl); [by_running|].
    unfold insert_value in Hv.
    cbn [Pg.name Pg.with_default Pg.with_primaryKey Pg.col] in Hv, Hl.
    replace (data !! "id") with (@None JsVal) in Hv by (by stripped Hp).
    cbv in Hv. injection Hv as <-.
    by apply check_unique_Ok in Hq.
  - destruct (Hcol (Pg.with_default Pg.DefaultNow
                      (Pg.with_notNull (Pg.col "createdAt" Pg.PgTimestamp))))
      as (v & Hv & _ & _ & Hl); [by_running|].
    unfold insert_value in Hv.
    cbn [Pg.name Pg.with_default Pg.with_notNull Pg.col] in Hv, Hl.
    replace (data !! "createdAt") with (@None JsVal) in Hv
      by (by stripped Hp).
    cbv in Hv. by injection Hv as <-.
  - destruct (Hcol (Pg.with_default Pg.DefaultNow
                      (Pg.with_notNull (Pg.col "updatedAt" Pg.PgTimestamp))))
      as (v & Hv & _ & _ & Hl); [by_running|].
    unfold insert_value in Hv.
    cbn [Pg.name Pg.with_default Pg.with_notNull Pg.col] in Hv, Hl.
    replace (data !! "updatedAt") with (@None JsVal) in Hv
      by (by stripped Hp).
    cbv in Hv. by injection Hv as <-.
  - destruct (parsed_string _ _ _ _ _
                (parse_lookup _ _ _ _ _ "createdById"
                   (Zod.mkField (Zod.ZString 0) false false) Hnd
                   ltac:(by_running) Hp)) as (s & Ho & Hd & _).
    exists s. split; [done|].
    destruct (Hcol (Pg.with_references Pg.Users "id"
                      (Pg.with_notNull (Pg.col "createdById" Pg.PgVarchar))))
      as (v & Hv & _ & _ & Hl); [by_running|].
    unfold insert_value in Hv.
    cbn [Pg.name Pg.with_references Pg.with_notNull Pg.col] in Hv, Hl.
    rewrite Hd in Hv. cbv in Hv. by injection Hv as <-.
  - destruct (parsed_string _ _ _ _ _
                (parse_lookup _ _ _ _ _ "patientCode"
                   (Zod.mkField (Zod.ZString 0) false false) Hnd
                   ltac:(by_running) Hp)) as (s & Ho & Hd & _).
    exists s. split; [done|]. split; [done|].
    destruct (Hcol (Pg.with_unique
                      (Pg.with_notNull (Pg.col "patientCode" Pg.PgText))))
      as (v & Hv & _ & _ & Hl); [by_running|].
    unfold insert_value in Hv.
    cbn [Pg.name Pg.with_unique Pg.with_notNull Pg.col] in Hv, Hl.
    rewrite Hd in Hv. cbv in Hv. by injection Hv as <-.
Qed.

(** X22.  A patient is created in the name of the caller: whatever
    the body of the request says, the record that POST /api/patients stores
    has the id of the authenticated identity as its creator, an identifier
    drawn by the store and the time of the request as its creation and update
    times; when the handler answers an error the store is as it was. *)
Theorem created_patient_belongs_to_the_caller env amb req req' db :
  authMiddleware env amb req = inr req' →
  match create_patient env amb req db with
  | (Success s (DataRow p) ts, db') =>
      s = 201
      ∧ p !! "createdById" = user_id req'
      ∧ p !! "id" = Some (JStr (uuid amb))
      ∧ p !! "createdAt" = Some (JDate (now amb))
      ∧ p !! "updatedAt" = Some (JDate (now amb))
      ∧ db' = set_rows Pg.Patients (t_patients db ++ [p]) db
  | (Success _ _ _, _) => False
  | (Failure _ _ _ _, db') => db' = db
  end.
Proof.
  intros Ha. rewrite (create_patient_run _ _ _ _ _ Ha).
  destruct (parse _ _) as [data|e] eqn:Hp; [|done].
  destruct (getPatientByCode _ _); [done|].
  destruct (insert_row _ _ _ _ _) as [p|e] eqn:Hrow; [|done].
  destruct (patient_inserted _ _ _ _ _ Hp Hrow)
    as (Hid & _ & Hc & Hu & (s & Ho & Hby) & _).
  rewrite lookup_set_prop_eq in Ho. by rewrite Ho.
Qed.

(** X23.  A patient that was created is found again: GET
    /api/patients/:id with the identifier of the record answers the record,
    and every later creation with the same patient code that passes
    validation is answered 400 PATIENT_EXISTS and leaves the store as it
    is. *)
Theorem created_patient_is_found env amb req db s p ts db' :
  create_patient env amb req db = (Success s (DataRow p) ts, db') →
  getPatient (JStr (uuid amb)) db' = Some p
  ∧ (∀ amb2 req2 req2',
       authMiddleware env amb2 req2 = inr req2' →
       params_id req2 = uuid amb →
       ∃ page, get_patient env amb2 req2 db'
               = (PatientRecord p page (now amb2), db'))
  ∧ (∀ amb2 req2 req2' data2,
       authMiddleware env amb2 req2 = inr req2' →
       parse Schema.insertPatientSchema
         (set_prop "createdById" (user_id req2') (body req2)) = Ok data2 →
       data2 !! "patientCode" = p !! "patientCode" →
       create_patient env amb2 req2 db'
       = (failure amb2 400 "PATIENT_EXISTS"
            "Patient with this code already exists", db')).
Proof.
  intros Hcp.
  assert (∃ req', authMiddleware env amb req = inr req') as [req' Ha].
  { unfold create_patient, authenticated in Hcp.
    destruct (authMiddleware env amb req) as [res|req'] eqn:Ha; [|by eexists].
    unfold authMiddleware in Ha. repeat case_match; by simplify_eq. }
  rewrite (create_patient_run _ _ _ _ _ Ha) in Hcp.
  destruct (parse _ _) as [data|e] eqn:Hp; [|done].
  destruct (getPatientByCode _ _); [done|].
  destruct (insert_row _ _ _ _ _) as [p'|e] eqn:Hrow; [|done].
  remember (set_rows Pg.Patients (t_patients db ++ [p']) db) as dbn eqn:Hdbn.
  injection Hcp as <- <- <- <-.
  destruct (patient_inserted _ _ _ _ _ Hp Hrow)
    as (Hid & Hfresh & _ & _ & _ & (code & _ & _ & Hcode)).
  assert (getPatient (JStr (uuid amb)) dbn = Some p') as Hget.
  { unfold getPatient, select_where in *. rewrite Hdbn, rows_set_rows.
    cbn [rows] in Hfresh. rewrite filter_app, Hfresh, app_nil_l.
    rewrite filter_cons_True; [done|].
    by apply Is_true_true, matches_spec. }
  split_and!; [done| |].
  - intros amb2 req2 req2' Ha2 Hid2.
    unfold get_patient, authenticated_list. rewrite Ha2.
    destruct (authMiddleware_next _ _ _ _ Ha2) as [decoded ->].
    cbn [params_id with_user]. rewrite Hid2.
    unfold catch_500_list, mbind, mret, Handler_bind, Handler_ret, read,
      query. rewrite Hget. unfold getDiagnostics.
    rewrite limit_rows_take by done. by eexists.
  - intros amb2 req2 req2' data2 Ha2 Hp2 Hc2.
    rewrite (create_patient_run _ _ _ _ _ Ha2), Hp2.
    unfold prop. rewrite Hc2, Hcode.
    destruct (getPatientByCode (JStr code) _) eqn:Hby; [done|].
    apply head_None in Hby. unfold select_where in Hby.
    rewrite Hdbn, rows_set_rows, filter_app in Hby.
    apply app_eq_nil in Hby as [_ Hby].
    rewrite filter_cons_True in Hby; [done|].
    by apply Is_true_true, matches_spec.
Qed.

End Lists.

(** ** Diagnostics: the upload, the submission and updates by id *)

Section Submission.

Context `{Libraries}.

(** *** The extension of an uploaded file *)

Lemma has_dot_app s1 s2 :
  has_dot (s1 +:+ s2) = has_dot s1 || has_dot s2.
Proof.
  induction s1 as [|c s1 IH]; [done|]. simpl. rewrite IH.
  by destruct (Ascii.eqb c _).
Qed.

(** [name.split('.').pop()] is the part of the name after its last dot, and
    the name itself when it has no dot. *)
Lemma last_segment_spec s :
  has_dot (last_segment s) = false
  ∧ if has_dot s then ∃ p, s = p +:+ "." +:+ last_segment s
    else last_segment s = s.
Proof.
  induction s as [|c s [IH1 IH2]]; [done|]. simpl.
  destruct (has_dot s) eqn:Hs.
  - rewrite orb_true_r. split; [done|].
    destruct IH2 as [p Hp]. exists (String c p).
    change (String c s = String c (p +:+ "." +:+ last_segment s)).
    by f_equal.
  - rewrite orb_false_r.
    destruct (Ascii.eqb c (Ascii.ascii_of_nat 46)) eqn:Hc.
    + split; [done|]. exists "". simpl.
      apply Ascii.eqb_eq in Hc. by rewrite Hc.
    + split; [|done]. simpl. by rewrite Hc, Hs.
Qed.

(** X24.  The object key of an uploaded image is
    diagnostics/<user>/<nanoid>.<extension> in the bucket and region of the
    host, where the extension is the part of the file name after its last
    dot, the whole name when it has no dot, and jpg when that part is empty;
    the extension is never empty and holds no dot.  The upload raises when
    the credentials are not configured. *)
Theorem upload_key_has_an_extension env amb originalName userId url :
  uploadImageToS3 env amb originalName userId = Ok url →
  isS3Configured env = true
  ∧ ∃ extension,
      url = "https://" +:+ AWS_BUCKET env +:+ ".s3." +:+ AWS_REGION env
            +:+ ".amazonaws.com/diagnostics/" +:+ userId +:+ "/"
            +:+ nano amb +:+ "." +:+ extension
      ∧ extension ≠ "" ∧ has_dot extension = false
      ∧ (originalName = extension
         ∨ (∃ p, originalName = p +:+ "." +:+ extension)
         ∨ (extension = "jpg"
            ∧ (originalName = "" ∨ ∃ p, originalName = p +:+ "."))).
Proof.
  unfold uploadImageToS3.
  destruct (isS3Configured env); [|done]. cbn [negb].
  destruct (s3_send _); [|done]. intros [= <-]. split; [done|].
  destruct (last_segment_spec originalName) as [Hnd Hseg].
  destruct (String.eqb (last_segment originalName) "") eqn:He.
  - apply String.eqb_eq in He. exists "jpg".
    split; [|split; [done|split; [done|]]].
    { reflexivity. }
    right. right. split; [done|]. rewrite He in Hseg.
    destruct (has_dot originalName).
    + right. destruct Hseg as [p Hp]. by exists p.
    + left. by symmetry.
  - apply String.eqb_neq in He. exists (last_segment originalName).
    split; [|split; [done|split; [done|]]].
    { reflexivity. }
    destruct (has_dot originalName); [right; by left | left; by symmetry].
Qed.

(** *** Submission *)

(** A body that [parse] accepts passes the test of every field. *)
Lemma parse_accepts ie ti (s : Zod.Schema) (o r : Obj) k f :
  NoDup s.*1 → (k, f) ∈ s → Zod.parse ie ti s o = Ok r →
  Zod.parse_field ie ti f (o !! k) ≠ None.
Proof. intros Hnd Hin Hp. by rewrite (parse_lookup _ _ _ _ _ _ _ Hnd Hin Hp). Qed.

(** X26.  What goes wrong in a submission is answered 400 and
    leaves the store as it was: a request without a file is answered
    NO_IMAGE, and a failed upload to S3, symptoms that are not JSON and a
    parasite count that is not a number are all answered VALIDATION_ERROR. *)
Theorem submission_errors env amb req req' db :
  authMiddleware env amb req = inr req' →
  (file req = None →
   submit_diagnostic env amb req db
   = (failure amb 400 "NO_IMAGE" "Blood smear image is required", db))
  ∧ (∀ f e,
       file req = Some f → isS3Configured env = true →
       uploadImageToS3 env amb (originalname f) (js_string (user_id req'))
       = Throw e →
       submit_diagnostic env amb req db
       = (failure amb 400 "VALIDATION_ERROR"
            (message_or e "Invalid request data"), db))
  ∧ (∀ f,
       file req = Some f → isS3Configured env = false →
       truthy (body req !! "symptoms") = true →
       JSON_parse (prop (body req) "symptoms") = None →
       submit_diagnostic env amb req db
       = (failure amb 400 "VALIDATION_ERROR"
            (message_or SyntaxError "Invalid request data"), db))
  ∧ (∀ f,
       file req = Some f →
       truthy (body req !! "parasiteCount") = true →
       parseInt (prop_of (body req !! "parasiteCount")) = None →
       res_status (submit_diagnostic env amb req db).1 = 400
       ∧ res_code (submit_diagnostic env amb req db).1
         = Some "VALIDATION_ERROR"
       ∧ (submit_diagnostic env amb req db).2 = db).
Proof.
  intros Ha. unfold submit_diagnostic, authenticated. rewrite Ha.
  assert (file req' = file req ∧ body req' = body req) as [<- <-].
  { by destruct (authMiddleware_next _ _ _ _ Ha) as [decoded ->]. }
  unfold catch_400, mbind, mret, Handler_bind, Handler_ret, pure, exec,
    createDiagnostic.
  split_and!.
  - by intros ->.
  - intros f e -> -> Hup. by rewrite Hup.
  - intros f -> -> Hs Hj. by rewrite Hs, Hj.
  - intros f -> Hc Hn.
    destruct (if isS3Configured env then _ else _) as [imageUrl|e];
      [|done].
    destruct (if truthy (body req' !! "symptoms") then _ else _)
      as [symptoms|e]; [|done].
    destruct (parse Schema.insertDiagnosticSchema _) as [data|e] eqn:Hp;
      [|done].
    exfalso.
    assert (NoDup Schema.insertDiagnosticSchema.*1) as Hnd by by_running.
    assert (("parasiteCount", Zod.mkField Zod.ZNumber true true)
            ∈ Schema.insertDiagnosticSchema) as Hin by by_running.
    apply (parse_accepts _ _ _ _ _ _ _ Hnd Hin Hp).
    rewrite !lookup_set_prop_ne, !lookup_insert_ne, lookup_insert_eq by done.
    unfold parseInt_or_null. by rewrite Hc, Hn.
Qed.

(** *** Updates by id *)

(** An update that selects no row changes nothing and returns no row. *)
Lemma update_where_none t k v set db :
  select_where t k v db = [] → update_where t k v set db = Ok ([], db).
Proof.
  intros Hsel. unfold update_where.
  rewrite (mapM_fmap_Ok _ id).
  - rewrite list_fmap_id. cbn [mbind Result_bind].
    unfold select_where in Hsel. by rewrite Hsel, set_rows_rows.
  - intros r Hr. destruct (matches k v r) eqn:Hm; [|done].
    assert (r ∈ select_where t k v db) as Hin.
    { apply list_elem_of_filter. by rewrite Hm. }
    rewrite Hsel in Hin. by apply elem_of_nil in Hin.
Qed.

(** X27.  An update by id of a record that does not exist is answered
    404 and changes nothing, and an update without a status is answered 400
    MISSING_STATUS (an empty status counts as none): for the status of a
    notification, and for the review of a diagnostic by an admitted role. *)
Theorem updates_of_unknown_records env amb req req' db :
  authMiddleware env amb req = inr req' →
  (truthy (body req !! "status") = false →
   update_notification_status env amb req db
   = (failure amb 400 "MISSING_STATUS" "Status is required", db))
  ∧ (truthy (body req !! "status") = true →
     select_where Pg.Notifications "id" (JStr (params_id req)) db = [] →
     update_notification_status env amb req db
     = (failure amb 404 "NOTIFICATION_NOT_FOUND" "Notification not found",
        db))
  ∧ (requireRole ["admin"; "super_admin"] amb req' = inr req' →
     truthy (body req !! "reviewStatus") = false →
     review_diagnostic env amb req db
     = (failure amb 400 "MISSING_STATUS" "Review status is required", db))
  ∧ (requireRole ["admin"; "super_admin"] amb req' = inr req' →
     truthy (body req !! "reviewStatus") = true →
     select_where Pg.Diagnostics "id" (JStr (params_id req)) db = [] →
     review_diagnostic env amb req db
     = (failure amb 404 "DIAGNOSTIC_NOT_FOUND" "Diagnostic not found", db)).
Proof.
  intros Ha. split_and!.
  - intros Hs. rewrite (update_notification_status_run _ _ _ _ _ Ha).
    by rewrite Hs.
  - intros Hs Hsel. rewrite (update_notification_status_run _ _ _ _ _ Ha).
    rewrite Hs. cbn [negb]. unfold updateNotificationStatus.
    by rewrite (update_where_none _ _ _ _ _ Hsel).
  - intros Hr Hs. rewrite (review_diagnostic_run _ _ _ _ _ Ha Hr).
    by rewrite Hs.
  - intros Hr Hs Hsel. rewrite (review_diagnostic_run _ _ _ _ _ Ha Hr).
    rewrite Hs. cbn [negb]. unfold updateDiagnosticReview.
    by rewrite (update_where_none _ _ _ _ _ Hsel).
Qed.

End Submission.

(** ** The handlers on the sample deployment *)

(** The stand-in for PostgreSQL orders and limits as PostgreSQL does. *)
Lemma before_desc_total k (r1 r2 : Row) :
  before_desc k r1 r2 = true ∨ before_desc k r2 r1 = true.
Proof.
  unfold before_desc.
  destruct (order_key k r1) as [a|], (order_key k r2) as [b|]; try tauto.
  destruct (decide (b ≤ a)).
  - left. by apply bool_decide_eq_true.
  - right. apply bool_decide_eq_true. lia.
Qed.

Lemma before_desc_trans k (r1 r2 r3 : Row) :
  before_desc k r1 r2 = true → before_desc k r2 r3 = true →
  before_desc k r1 r3 = true.
Proof.
  unfold before_desc.
  destruct (order_key k r1) as [a|], (order_key k r2) as [b|],
    (order_key k r3) as [c|]; try done.
  rewrite !bool_decide_eq_true. lia.
Qed.

Lemma sample_postgres_laws : @PostgresLaws Sample.postgres.
Proof.
  split.
  - intros k l. apply merge_sort_Permutation.
  - intros k l.
    apply (@StronglySorted_merge_sort _ _ _
             (fun r1 r2 r3 => before_desc_trans k r1 r2 r3)
             (fun r1 r2 => before_desc_total k r1 r2)).
  - intros n l Hn. unfold limit_rows, Sample.postgres.
    by rewrite bool_decide_true.
Qed.

(** The sample store is consistent. *)
Lemma sample_conforms : @conforms Sample.libs Sample.db.
Proof.
  intros t r Hr.
  destruct t; cbn [rows Sample.db t_users t_patients t_diagnostics
                     t_notifications t_passwordResetTokens] in Hr;
    repeat (apply elem_of_cons in Hr as [->|Hr]);
    try (by apply elem_of_nil in Hr); by_running.
Qed.

Lemma sample_keys_unique : keys_unique Sample.db.
Proof.
  apply keys_unique_NoDup. intros t c Hc Hu.
  destruct t; cbn [Schema.columns] in Hc;
    repeat (apply elem_of_cons in Hc as [->|Hc]);
    try (by apply elem_of_nil in Hc); try (by cbv in Hu); by_running.
Qed.

Lemma sample_references_hold : references_hold Sample.db.
Proof. apply references_check_sound. by_running. Qed.

Lemma routes_keep_rows_conforming_witness :
  let req := Sample.request (Some Sample.worker_token) "n-1"
               {[ "status" := JStr "failed" ]} in
  @conforms Sample.libs
    (@registerRoutes Sample.libs Sample.postgres PutNotificationsIdStatus
       Sample.env Sample.amb ∅ req Sample.db).2.
Proof.
  intros req.
  apply (@routes_keep_rows_conforming Sample.libs Sample.postgres
           PutNotificationsIdStatus Sample.env Sample.amb ∅ req Sample.db
           sample_conforms).
Defined.

Lemma routes_keep_keys_unique_witness :
  let req := Sample.request None ""
               {[ "email" := JStr "mallory@example.org";
                  "password" := JStr "Sup3r-Secret";
                  "fullName" := JStr "Mallory" ]} in
  keys_unique
    (@registerRoutes Sample.libs Sample.postgres PostAuthRegister
       Sample.env Sample.amb ∅ req Sample.db).2.
Proof.
  intros req.
  apply (@routes_keep_keys_unique Sample.libs Sample.postgres
           PostAuthRegister Sample.env Sample.amb ∅ req Sample.db
           sample_keys_unique).
Defined.

Lemma routes_keep_references_witness :
  let req := Sample.request (Some Sample.worker_token) "" ∅ in
  references_hold
    (@registerRoutes Sample.libs Sample.postgres DeleteUsersAccount
       Sample.env Sample.amb ∅ req Sample.db).2.
Proof.
  intros req.
  apply (@routes_keep_references Sample.libs Sample.postgres
           DeleteUsersAccount Sample.env Sample.amb ∅ req Sample.db
           sample_references_hold).
Defined.

Lemma session_token_lasts_24_hours_witness :
  let issued := mkAmbient Sample.t0 "uuid-0" "nano-0" "salt" in
  let token := @generateToken Sample.libs Sample.env issued Sample.admin in
  let req := Sample.request (Some token) "" ∅ in
  let later := mkAmbient (Sample.t0 + 86400000) "uuid-2" "nano-2" "salt" in
  @authMiddleware Sample.libs Sample.env Sample.amb req
  = inr (with_user Sample.admin_payload req)
  ∧ @authMiddleware Sample.libs Sample.env later req
    = inl (failure later 401 "INVALID_TOKEN" "Invalid or expired token").
Proof.
  intros issued token req later. split.
  - apply (@session_token_lasts_24_hours Sample.libs Sample.env issued
             Sample.amb Sample.admin req);
      [by_running | reflexivity].
  - apply (@session_token_lasts_24_hours Sample.libs Sample.env issued
             later Sample.admin req);
      [by_running | reflexivity].
Defined.

Lemma routes_and_credentials_witness :
  let req := Sample.request None "" ∅ in
  @registerRoutes Sample.libs Sample.postgres GetPatients Sample.env
    Sample.amb ∅ req Sample.db
  = (Plain (failure Sample.amb 401 "UNAUTHORIZED"
              "Authorization token required"), Sample.db).
Proof.
  intros req.
  apply (proj1 (@routes_and_credentials Sample.libs Sample.postgres
                  Sample.env Sample.amb ∅ req Sample.db) GetPatients).
  - apply (bool_decide_unpack _). vm_compute. exact I.
  - intros h Hh. discriminate Hh.
Defined.

Lemma review_is_for_admins_witness :
  let req := Sample.request (Some Sample.worker_token) "d-1"
               {[ "reviewStatus" := JStr "verified" ]} in
  @review_diagnostic Sample.libs Sample.env Sample.amb req Sample.db
  = (failure Sample.amb 403 "FORBIDDEN" "Insufficient permissions",
     Sample.db).
Proof.
  intros req.
  apply (@review_is_for_admins Sample.libs Sample.env Sample.amb req
           (with_user Sample.worker_payload req) Sample.db).
  - by_running.
  - intros r Hr.
    repeat (apply elem_of_cons in Hr as [->|Hr]);
      [| |by apply elem_of_nil in Hr]; apply (bool_decide_unpack _);
      vm_compute; exact I.
Defined.

Lemma failed_logins_look_alike_witness :
  let known := Sample.request None ""
                 {[ "email" := JStr "thato@clinic.bw";
                    "password" := JStr "a-guess" ]} in
  let unknown := Sample.request None ""
                   {[ "email" := JStr "nobody@clinic.bw";
                      "password" := JStr "a-guess" ]} in
  (@login Sample.libs Sample.env Sample.amb known Sample.db).1
  = (@login Sample.libs Sample.env Sample.amb unknown Sample.db).1.
Proof.
  intros known unknown.
  rewrite (@failed_logins_look_alike Sample.libs Sample.env Sample.amb known
             Sample.db "thato@clinic.bw" "a-guess"
             ltac:(reflexivity) ltac:(reflexivity) ltac:(reflexivity)
             ltac:(discriminate)).
  - rewrite (@failed_logins_look_alike Sample.libs Sample.env Sample.amb
               unknown Sample.db "nobody@clinic.bw" "a-guess"
               ltac:(reflexivity) ltac:(reflexivity) ltac:(reflexivity)
               ltac:(discriminate)).
    + reflexivity.
    + assert (getUserByEmail (JStr "nobody@clinic.bw") Sample.db
              = None) as -> by by_running.
      exact I.
  - assert (getUserByEmail (JStr "thato@clinic.bw") Sample.db
            = Some Sample.worker) as -> by by_running.
    by_running.
Defined.

Lemma login_answers_the_row_read_before_witness :
  let req := Sample.request None ""
               {[ "email" := JStr "thato@clinic.bw";
                  "password" := JStr "SecurePass123!" ]} in
  let out := @login Sample.libs Sample.env Sample.amb req Sample.db in
  response_user out.1 = Some (userWithoutPassword Sample.worker)
  ∧ Sample.worker !! "lastLoginAt" = Some JNull
  ∧ ∀ stored,
      getUser (JStr "u-worker") out.2 = Some stored →
      stored !! "lastLoginAt" = Some (JDate (now Sample.amb)).
Proof.
  intros req out.
  destruct (@login_answers_the_row_read_before Sample.libs Sample.env
              Sample.amb req Sample.db "thato@clinic.bw" "SecurePass123!"
              Sample.worker
              ltac:(reflexivity) ltac:(reflexivity) ltac:(reflexivity)
              ltac:(discriminate) ltac:(by_running) ltac:(by_running))
    as (Hout & Hstored & _).
  split_and!.
  - unfold out. by rewrite Hout.
  - reflexivity.
  - exact Hstored.
Defined.

Lemma register_then_login_witness :
  let req := Sample.request None ""
               {[ "email" := JStr "neo@clinic.bw";
                  "password" := JStr "Sup3r-Secret";
                  "fullName" := JStr "Neo Kgosi" ]} in
  let again := Sample.request None ""
                 {[ "email" := JStr "neo@clinic.bw";
                    "password" := JStr "Sup3r-Secret" ]} in
  let later := mkAmbient (Sample.t0 + 120000) "uuid-2" "nano-2" "salt" in
  ∃ row db',
    @register Sample.libs Sample.env Sample.amb req Sample.db
    = (Success 201
         (DataUserToken (userWithoutPassword row)
            (@generateToken Sample.libs Sample.env Sample.amb row))
         (now Sample.amb), db')
    ∧ (@login Sample.libs Sample.env later again db').1
      = Success 200
          (DataUserToken (userWithoutPassword row)
             (@generateToken Sample.libs Sample.env later row)) (now later).
Proof.
  intros req again later.
  apply (@register_then_login Sample.libs Sample.env Sample.amb req
           Sample.db (body req) later again);
    [by_running | reflexivity | by_running | by_running | | reflexivity
    | reflexivity].
  intros password. apply bool_decide_eq_true. reflexivity.
Defined.

Lemma address_is_registered_once_witness :
  let req := Sample.request None ""
               {[ "email" := JStr "neo@clinic.bw";
                  "password" := JStr "Sup3r-Secret";
                  "fullName" := JStr "Neo Kgosi" ]} in
  let again := Sample.request None ""
                 {[ "email" := JStr "neo@clinic.bw";
                    "password" := JStr "0ther-Secret";
                    "fullName" := JStr "Another Neo";
                    "role" := JStr "admin" ]} in
  let later := mkAmbient (Sample.t0 + 120000) "uuid-2" "nano-2" "salt" in
  ∃ res db',
    @register Sample.libs Sample.env Sample.amb req Sample.db = (res, db')
    ∧ res_status res = 201
    ∧ @register Sample.libs Sample.env later again db'
      = (failure later 400 "USER_EXISTS"
           "User with this email already exists", db').
Proof.
  intros req again later.
  apply (@address_is_registered_once Sample.libs Sample.env Sample.amb req
           Sample.db (body req) later again (body again));
    [by_running | reflexivity | by_running | by_running | by_running
    | reflexivity].
Defined.

Lemma reset_token_is_disclosed_in_development_only_witness :
  let req := Sample.request None "" {[ "email" := JStr "thato@clinic.bw" ]} in
  (@forgot_password Sample.libs Sample.env_dev Sample.amb req Sample.db).1
  = Success 200
      (DataMessage "Password reset instructions sent to your email"
         (Some "nano-1")) (now Sample.amb)
  ∧ Sample.env_dev !! "NODE_ENV" = Some "development"
  ∧ "nano-1" = nano Sample.amb.
Proof.
  intros req.
  assert ((@forgot_password Sample.libs Sample.env_dev Sample.amb req
             Sample.db).1
          = Success 200
              (DataMessage "Password reset instructions sent to your email"
                 (Some "nano-1")) (now Sample.amb)) as Hout by by_running.
  split; [exact Hout|].
  apply (@reset_token_is_disclosed_in_development_only Sample.libs
           Sample.env_dev Sample.amb req Sample.db _ _ _ _ Hout).
Defined.

Lemma forgot_password_tells_a_registered_address_witness :
  let req := Sample.request None "" {[ "email" := JStr "thato@clinic.bw" ]} in
  (@forgot_password Sample.libs Sample.env Sample.amb req
     (mkDb [] [] [] [] [])).1
  ≠ (@forgot_password Sample.libs Sample.env Sample.amb req Sample.db).1.
Proof.
  intros req.
  apply (@forgot_password_tells_a_registered_address Sample.libs Sample.env
           Sample.amb req (mkDb [] [] [] [] []) Sample.db "thato@clinic.bw"
           Sample.worker);
    [reflexivity | reflexivity | reflexivity | by_running].
Defined.

Lemma account_with_records_is_not_deleted_witness :
  let req := Sample.request (Some Sample.worker_token) "" ∅ in
  Sample.patient !! "createdById" = Some (JStr "u-worker")
  ∧ @delete_account Sample.libs Sample.env Sample.amb req Sample.db
    = (failure Sample.amb 500 "SERVER_ERROR" "Failed to delete account",
       Sample.db).
Proof.
  intros req. split; [reflexivity|].
  apply (@account_with_records_is_not_deleted Sample.libs Sample.env
           Sample.amb req (with_user Sample.worker_payload req) Sample.db
           "u-worker" Sample.worker Pg.Patients
           (Pg.with_references Pg.Users "id"
              (Pg.with_notNull (Pg.col "createdById" Pg.PgVarchar)))
           Sample.patient);
    [by_running | reflexivity | by_running | reflexivity | by_running
    | reflexivity | by_running | reflexivity].
Defined.

Lemma deleted_account_is_gone_witness :
  let req := Sample.request (Some Sample.worker_token) "" ∅ in
  let later := mkAmbient (Sample.t0 + 120000) "uuid-2" "nano-2" "salt" in
  @delete_account Sample.libs Sample.env Sample.amb req Sample.staff
  = (Success 200 (DataMessage "Account successfully deleted" None)
       (now Sample.amb), mkDb [Sample.admin] [] [] [] [])
  ∧ @get_profile Sample.libs Sample.env later req
      (mkDb [Sample.admin] [] [] [] [])
    = (failure later 404 "USER_NOT_FOUND" "User not found",
       mkDb [Sample.admin] [] [] [] []).
Proof.
  intros req later.
  destruct (@deleted_account_is_gone Sample.libs Sample.env Sample.amb req
              (with_user Sample.worker_payload req) Sample.staff "u-worker"
              ltac:(by_running) ltac:(reflexivity))
    as (Hout & _ & Hprofile).
  - intros u Hu.
    assert (select_where Pg.Users "id" (JStr "u-worker") Sample.staff
            = [Sample.worker]) as Hsel by by_running.
    rewrite Hsel in Hu. apply list_elem_of_singleton in Hu as ->.
    by_running.
  - assert (set_rows Pg.Users
              (filter (fun u => negb (matches "id" (JStr "u-worker") u))
                 (t_users Sample.staff)) Sample.staff
            = mkDb [Sample.admin] [] [] [] []) as Hdb by by_running.
    rewrite Hdb in Hout, Hprofile. split; [exact Hout|].
    apply (Hprofile later req (with_user Sample.worker_payload req));
      [by_running | reflexivity].
Defined.

Lemma default_page_is_20_witness :
  let req := Sample.request (Some Sample.admin_token) "" ∅ in
  let q : Query := {[ "limit" := "many" ]} in
  (length
     (answer_rows
        (@registerRoutes Sample.libs Sample.postgres GetNotificationsHistory
           Sample.env Sample.amb q req Sample.db).1) ≤ 20)%nat.
Proof.
  intros req q.
  apply (@default_page_is_20 Sample.libs Sample.postgres
           sample_postgres_laws GetNotificationsHistory Sample.env Sample.amb
           q req Sample.db).
  - apply (bool_decide_unpack _). vm_compute. exact I.
  - assert (q !! "limit" = Some "many") as -> by reflexivity.
    right. left. reflexivity.
Defined.

Lemma patients_list_witness :
  let req := Sample.request (Some Sample.worker_token) "" ∅ in
  let q : Query := {[ "district" := "Okavango"; "limit" := "94" ]} in
  @get_patients Sample.libs Sample.postgres Sample.env Sample.amb q req
    Sample.db
  = (Many [Sample.patient] (now Sample.amb), Sample.db).
Proof.
  intros req q.
  destruct (@patients_list Sample.libs Sample.postgres sample_postgres_laws
              Sample.env Sample.amb q req
              (with_user Sample.worker_payload req) Sample.db
              ltac:(by_running) ltac:(by_running))
    as (page & Hout & _).
  rewrite Hout. f_equal. f_equal.
  assert ((@get_patients Sample.libs Sample.postgres Sample.env Sample.amb q
             req Sample.db).1 = Many [Sample.patient] (now Sample.amb))
    as Hrun by by_running.
  rewrite Hout in Hrun. by injection Hrun.
Defined.

Lemma diagnostics_list_witness :
  let req := Sample.request (Some Sample.worker_token) "" ∅ in
  let q : Query := {[ "patientId" := "p-1"; "result" := "negative" ]} in
  @diagnostics_history Sample.libs Sample.postgres Sample.env Sample.amb q
    req Sample.db
  = (Many [] (now Sample.amb), Sample.db).
Proof.
  intros req q.
  destruct (@diagnostics_list Sample.libs Sample.postgres
              sample_postgres_laws Sample.env Sample.amb q req
              (with_user Sample.worker_payload req) Sample.db
              ltac:(by_running) ltac:(by_running))
    as (page & Hout & _).
  rewrite Hout. f_equal. f_equal.
  assert ((@diagnostics_history Sample.libs Sample.postgres Sample.env
             Sample.amb q req Sample.db).1 = Many [] (now Sample.amb))
    as Hrun by by_running.
  rewrite Hout in Hrun. by injection Hrun.
Defined.

Lemma notifications_list_witness :
  let req := Sample.request (Some Sample.admin_token) "" ∅ in
  let q : Query := {[ "type" := "sms"; "limit" := "0" ]} in
  ∃ page,
    @notifications_history Sample.libs Sample.postgres Sample.env Sample.amb
      q req Sample.db
    = (Many page (now Sample.amb), Sample.db)
    ∧ page ≡ₚ [Sample.sent_notification; Sample.worn_notification].
Proof.
  intros req q.
  destruct (@notifications_list Sample.libs Sample.postgres
              sample_postgres_laws Sample.env Sample.amb q req
              (with_user Sample.admin_payload req) Sample.db
              ltac:(by_running) ltac:(by_running))
    as (page & Hout & Hlen & _ & _ & rest & Hperm & Hfull & _).
  exists page. split; [exact Hout|].
  assert (where_eq "status" (query_text q "status")
            (where_eq "type" (query_text q "type") (t_notifications Sample.db))
          = [Sample.sent_notification; Sample.worn_notification]) as Hsel
    by by_running.
  rewrite Hsel in Hperm.
  destruct rest as [|r rest]; [by rewrite app_nil_r in Hperm|].
  exfalso. apply Permutation_length in Hperm.
  rewrite length_app in Hperm. simpl in Hperm.
  assert (length page = 20%nat) as Hp20; [|lia].
  rewrite (Hfull ltac:(done)). by_running.
Defined.

Lemma patient_record_lists_the_latest_20_witness :
  let req := Sample.request (Some Sample.worker_token) "p-1" ∅ in
  ∃ page,
    @get_patient Sample.libs Sample.postgres Sample.env Sample.amb req
      Sample.db
    = (PatientRecord Sample.patient page (now Sample.amb), Sample.db)
    ∧ (length page ≤ 20)%nat.
Proof.
  intros req.
  pose proof (@patient_record_lists_the_latest_20 Sample.libs
                Sample.postgres sample_postgres_laws Sample.env Sample.amb
                req (with_user Sample.worker_payload req) Sample.db
                ltac:(by_running) ltac:(discriminate)) as Hrec.
  assert (getPatient (JStr (params_id (with_user Sample.worker_payload req)))
            Sample.db = Some Sample.patient) as Hget by by_running.
  rewrite Hget in Hrec. destruct Hrec as (page & Hout & Hlen & _).
  exists page. split; [exact Hout | exact Hlen].
Defined.

Lemma diagnostic_record_carries_its_patient_witness :
  let req := Sample.request (Some Sample.worker_token) "d-1" ∅ in
  ∃ p, (@get_diagnostic Sample.libs Sample.env Sample.amb req Sample.db).1
       = DiagnosticRecord Sample.verified_diagnostic
           (Some (patient_summary p)) (now Sample.amb)
       ∧ p ∈ t_patients Sample.db.
Proof.
  intros req.
  assert ((@get_diagnostic Sample.libs Sample.env Sample.amb req Sample.db).1
          = DiagnosticRecord Sample.verified_diagnostic
              (Some (patient_summary Sample.patient)) (now Sample.amb))
    as Hout by by_running.
  destruct (@diagnostic_record_carries_its_patient Sample.libs Sample.env
              Sample.amb req Sample.db _ _ _ sample_conforms
              sample_references_hold Hout) as (p & Hp & Hin & _).
  exists p. split; [|exact Hin]. by rewrite Hout, Hp.
Defined.

Lemma created_patient_belongs_to_the_caller_witness :
  let req := Sample.request (Some Sample.worker_token) ""
               {[ "patientCode" := JStr "P2026-0002"; "age" := JNum 31;
                  "createdById" := JStr "u-admin";
                  "id" := JStr "p-chosen" ]} in
  ∃ p db',
    @create_patient Sample.libs Sample.env Sample.amb req Sample.db
    = (Success 201 (DataRow p) (now Sample.amb), db')
    ∧ p !! "createdById" = Some (JStr "u-worker")
    ∧ p !! "id" = Some (JStr "uuid-1").
Proof.
  intros req.
  pose (p := ({[ "id" := JStr "uuid-1"; "patientCode" := JStr "P2026-0002";
                 "age" := JNum 31; "gender" := JNull; "district" := JNull;
                 "facilityName" := JNull; "createdById" := JStr "u-worker";
                 "createdAt" := JDate (now Sample.amb);
                 "updatedAt" := JDate (now Sample.amb) ]} : Row)).
  pose (db' := set_rows Pg.Patients (t_patients Sample.db ++ [p]) Sample.db).
  assert (@create_patient Sample.libs Sample.env Sample.amb req Sample.db
          = (Success 201 (DataRow p) (now Sample.amb), db')) as Hrun
    by by_running.
  pose proof (@created_patient_belongs_to_the_caller Sample.libs Sample.env
                Sample.amb req (with_user Sample.worker_payload req)
                Sample.db ltac:(by_running)) as Hc.
  rewrite Hrun in Hc. destruct Hc as (_ & Hby & Hid & _).
  exists p, db'. split; [exact Hrun|]. split; [exact Hby | exact Hid].
Defined.

Lemma created_patient_is_found_witness :
  let req := Sample.request (Some Sample.worker_token) ""
               {[ "patientCode" := JStr "P2026-0002"; "age" := JNum 31 ]} in
  let later := mkAmbient (Sample.t0 + 120000) "uuid-2" "nano-2" "salt" in
  let again := Sample.request (Some Sample.admin_token) ""
                 {[ "patientCode" := JStr "P2026-0002" ]} in
  ∃ p db',
    @create_patient Sample.libs Sample.env Sample.amb req Sample.db
    = (Success 201 (DataRow p) (now Sample.amb), db')
    ∧ getPatient (JStr "uuid-1") db' = Some p
    ∧ @create_patient Sample.libs Sample.env later again db'
      = (failure later 400 "PATIENT_EXISTS"
           "Patient with this code already exists", db').
Proof.
  intros req later again.
  pose (p := ({[ "id" := JStr "uuid-1"; "patientCode" := JStr "P2026-0002";
                 "age" := JNum 31; "gender" := JNull; "district" := JNull;
                 "facilityName" := JNull; "createdById" := JStr "u-worker";
                 "createdAt" := JDate (now Sample.amb);
                 "updatedAt" := JDate (now Sample.amb) ]} : Row)).
  pose (db' := set_rows Pg.Patients (t_patients Sample.db ++ [p]) Sample.db).
  assert (@create_patient Sample.libs Sample.env Sample.amb req Sample.db
          = (Success 201 (DataRow p) (now Sample.amb), db')) as Hrun
    by by_running.
  destruct (@created_patient_is_found Sample.libs Sample.postgres
              sample_postgres_laws Sample.env Sample.amb req Sample.db
              201 p (now Sample.amb) db' Hrun) as (Hget & _ & Hagain).
  exists p, db'. split; [exact Hrun|]. split; [exact Hget|].
  apply (Hagain later again (with_user Sample.admin_payload again)
           {[ "patientCode" := JStr "P2026-0002";
              "createdById" := JStr "u-admin" ]});
    [by_running | by_running | reflexivity].
Defined.

Lemma submission_errors_witness :
  let req := Sample.request (Some Sample.worker_token) ""
               {[ "patientId" := JStr "p-1"; "result" := JStr "positive" ]} in
  @submit_diagnostic Sample.libs Sample.env Sample.amb req Sample.db
  = (failure Sample.amb 400 "NO_IMAGE" "Blood smear image is required",
     Sample.db).
Proof.
  intros req.
  apply (proj1 (@submission_errors Sample.libs Sample.env Sample.amb req
                  (with_user Sample.worker_payload req) Sample.db
                  ltac:(by_running))).
  reflexivity.
Defined.

Lemma upload_key_has_an_extension_witness :
  isS3Configured Sample.env_s3 = true
  ∧ ∃ extension,
      "https://introspect-diagnostic-images-dev.s3.us-east-1.amazonaws.com/diagnostics/u-worker/nano-1.smear"
      = "https://" +:+ AWS_BUCKET Sample.env_s3 +:+ ".s3."
        +:+ AWS_REGION Sample.env_s3
        +:+ ".amazonaws.com/diagnostics/" +:+ "u-worker" +:+ "/"
        +:+ nano Sample.amb +:+ "." +:+ extension
      ∧ extension ≠ "" ∧ has_dot extension = false
      ∧ ("smear" = extension
         ∨ (∃ p, "smear" = p +:+ "." +:+ extension)
         ∨ (extension = "jpg" ∧ ("smear" = "" ∨ ∃ p, "smear" = p +:+ "."))).
Proof.
  apply (@upload_key_has_an_extension Sample.libs Sample.env_s3 Sample.amb
           "smear" "u-worker").
  by_running.
Defined.

Lemma updates_of_unknown_records_witness :
  let req := Sample.request (Some Sample.admin_token) "no-such-id"
               {[ "status" := JStr "sent"; "reviewStatus" := JStr "reviewed" ]}
  in
  @update_notification_status Sample.libs Sample.env Sample.amb req Sample.db
  = (failure Sample.amb 404 "NOTIFICATION_NOT_FOUND" "Notification not found",
     Sample.db)
  ∧ @review_diagnostic Sample.libs Sample.env Sample.amb req Sample.db
    = (failure Sample.amb 404 "DIAGNOSTIC_NOT_FOUND" "Diagnostic not found",
       Sample.db).
Proof.
  intros req.
  destruct (@updates_of_unknown_records Sample.libs Sample.env Sample.amb req
              (with_user Sample.admin_payload req) Sample.db
              ltac:(by_running)) as (_ & Hn & _ & Hd).
  split.
  - apply Hn; [reflexivity | by_running].
  - apply Hd; [by_running | reflexivity | by_running].
Defined.
